(** * few_shot/models.py: a shallow embedding of the model definitions

    The source composes layers of a tensor framework (convolution, batch
    normalisation, LSTM cell, linear) with a little Python glue: dictionary
    lookups, a dimension check, tuple unpacking, method calls.  The embedding
    keeps the glue as the code has it, in an exception monad, and reaches the
    framework through one interface, [Torch].  Two implementations of the
    interface are given further down: [Meta], which computes with shapes only
    and is executable, and [Real], whose tensors carry real numbers (ideal
    arithmetic in place of floating point). *)

From Stdlib Require Import ZArith List String Reals Lra Lia.
From stdpp Require Import base option list gmap strings pretty.

Set Warnings "-register-all".


(** ** Exceptions and the monad of results *)

Inductive result (E A : Type) : Type :=
| Ok (a : A)
| Raise (e : E).
Arguments Ok {E A} a.
Arguments Raise {E A} e.

(** Python's exceptions, as far as the source can meet them.  [TorchError e] is an
    error signalled from inside the framework; the other constructors are raised
    by the interpreter or by the source's own [raise]. *)
Inductive exn (TE : Type) : Type :=
| KeyError (key : string)
| ValueError (msg : string)
| TypeError (msg : string)
| IndexError (msg : string)
| AttributeError (name : string)
| AssertionError
| TorchError (e : TE).
Arguments KeyError {TE} key.
Arguments ValueError {TE} msg.
Arguments TypeError {TE} msg.
Arguments IndexError {TE} msg.
Arguments AttributeError {TE} name.
Arguments AssertionError {TE}.
Arguments TorchError {TE} e.

#[export] Instance result_ret {E} : MRet (result E) := fun _ a => Ok a.
#[export] Instance result_bind {E} : MBind (result E) := fun _ _ f r =>
  match r with
  | Ok a => f a
  | Raise e => Raise e
  end.
#[export] Instance result_fmap {E} : FMap (result E) := fun _ _ f r =>
  match r with
  | Ok a => Ok (f a)
  | Raise e => Raise e
  end.

(** A call into the framework: its errors surface as [TorchError] exceptions. *)
Definition call {TE A} (r : result TE A) : result (exn TE) A :=
  match r with
  | Ok a => Ok a
  | Raise e => Raise (TorchError e)
  end.

Definition is_Ok {E A} (r : result E A) : bool :=
  match r with Ok _ => true | Raise _ => false end.

(** [d[k]] and [d.get(k)] on a Python dictionary with string keys. *)
Definition getitem {TE A} (d : gmap string A) (k : string) : result (exn TE) A :=
  match d !! k with
  | Some v => Ok v
  | None => Raise (KeyError k)
  end.

Definition dict_get {A} (d : gmap string A) (k : string) : option A := d !! k.

(** [self.name] for an attribute that only some constructor paths assign. *)
Definition getattr {TE A} (name : string) (o : option A) : result (exn TE) A :=
  match o with
  | Some v => Ok v
  | None => Raise (AttributeError name)
  end.

(** [for x in xs: acc = body(acc, x)] *)
Fixpoint for_each {E A B} (xs : list A) (body : B → A → result E B) (acc : B)
  : result E B :=
  match xs with
  | [] => Ok acc
  | x :: xs' => acc' ← body acc x; for_each xs' body acc'
  end.

(** ** The framework interface *)

Class Torch : Type := {
  tensor : Type;
  generator : Type;          (* the state of the global random generator *)
  scalar : Type;             (* Python floats *)
  torch_error : Type;
  float_of_Z : Z → scalar;
  (* Tensor.shape and Tensor.size(dim) *)
  shape : tensor → list nat;
  Tensor_size : tensor → Z → result torch_error nat;
  (* torch.nn.functional *)
  F_conv2d : tensor → tensor → option tensor → nat → result torch_error tensor;
  F_conv_transpose2d :
    tensor → tensor → option tensor → nat → result torch_error tensor;
  F_batch_norm :
    tensor → option tensor → option tensor → option tensor → option tensor →
    bool → result torch_error tensor;
  F_relu : tensor → result torch_error tensor;
  F_max_pool2d : tensor → nat → nat → result torch_error tensor;
  F_linear : tensor → tensor → option tensor → result torch_error tensor;
  F_hardtanh : tensor → result torch_error tensor;
  F_tanh : tensor → result torch_error tensor;
  VF_lstm_cell :
    tensor → tensor * tensor → tensor → tensor → tensor → tensor →
    result torch_error (tensor * tensor);
  (* torch and Tensor methods *)
  Tensor_view : tensor → list Z → result torch_error tensor;
  torch_zeros : list nat → result torch_error tensor;
  torch_zeros_like : tensor → result torch_error tensor;
  Tensor_cuda : tensor → result torch_error tensor;
  Tensor_double : tensor → result torch_error tensor;
  Tensor_add : tensor → tensor → result torch_error tensor;
  Tensor_mul : tensor → tensor → result torch_error tensor;
  Tensor_add_scalar : tensor → scalar → result torch_error tensor;
  Tensor_div_scalar : tensor → scalar → result torch_error tensor;
  Tensor_rmul_scalar : scalar → tensor → result torch_error tensor;
  torch_mm : tensor → tensor → result torch_error tensor;
  Tensor_t : tensor → result torch_error tensor;
  Tensor_softmax : tensor → nat → result torch_error tensor;
  torch_round : tensor → result torch_error tensor;
  torch_bernoulli : tensor → generator → result torch_error (tensor * generator);
  Uniform_sample : list Z → generator → result torch_error (tensor * generator);
  torch_cat : list tensor → result torch_error tensor;
  Tensor_iter : tensor → result torch_error (list tensor);
  (* parameter initialisation of the layers *)
  init_ones : list nat → tensor;
  init_zeros : list nat → tensor;
  init_uniform : list nat → generator → tensor * generator;
  (* In training mode batch normalisation uses the statistics of the batch:
     the running averages it is given are only updated, never read. *)
  F_batch_norm_training : ∀ x rm rv w b,
    F_batch_norm x rm rv w b true = F_batch_norm x None None w b true;
}.

(** [tuple[i]] on the tuple [Tensor.shape]: negative indices count from the
    end, an index out of range is Python's [IndexError]. *)
Definition tuple_getitem {TE} (tup : list nat) (i : Z) : result (exn TE) nat :=
  let n := Z.of_nat (length tup) in
  let j := if (i <? 0)%Z then (n + i)%Z else i in
  if ((j <? 0) || (n <=? j))%Z then Raise (IndexError "tuple index out of range")
  else
    match tup !! Z.to_nat j with
    | Some d => Ok d
    | None => Raise (IndexError "tuple index out of range")
    end.

(** [str(n)] for a non-negative integer. *)
Definition str (n : nat) : string := pretty n.

(** ** The layers of torch.nn the source instantiates

    Each layer is its parameters and buffers; [forward] is the functional
    operator applied to them, as torch.nn defines it.  A layer's [__init__]
    draws its initial weights from the global generator.  The update of the
    running averages that [BatchNorm2d.forward] performs in training mode is
    left out: no function of the source reads them back. *)

Module nn.
Section Layers.
Context {T : Torch}.

Record Conv2d : Type := {
  Conv2d_weight : tensor;
  Conv2d_bias : tensor;
  Conv2d_padding : nat;
}.

Definition Conv2d_init (in_channels out_channels kernel_size padding : nat)
  (g : generator) : Conv2d * generator :=
  let '(w, g) := init_uniform [out_channels; in_channels; kernel_size; kernel_size] g in
  let '(b, g) := init_uniform [out_channels] g in
  ({| Conv2d_weight := w; Conv2d_bias := b; Conv2d_padding := padding |}, g).

Definition Conv2d_forward (self : Conv2d) (x : tensor)
  : result (exn torch_error) tensor :=
  call (F_conv2d x (Conv2d_weight self) (Some (Conv2d_bias self)) (Conv2d_padding self)).

Record ConvTranspose2d : Type := {
  ConvTranspose2d_weight : tensor;
  ConvTranspose2d_bias : tensor;
  ConvTranspose2d_padding : nat;
}.

Definition ConvTranspose2d_init (in_channels out_channels kernel_size padding : nat)
  (g : generator) : ConvTranspose2d * generator :=
  let '(w, g) := init_uniform [in_channels; out_channels; kernel_size; kernel_size] g in
  let '(b, g) := init_uniform [out_channels] g in
  ({| ConvTranspose2d_weight := w; ConvTranspose2d_bias := b;
      ConvTranspose2d_padding := padding |}, g).

Definition ConvTranspose2d_forward (self : ConvTranspose2d) (x : tensor)
  : result (exn torch_error) tensor :=
  call (F_conv_transpose2d x (ConvTranspose2d_weight self)
          (Some (ConvTranspose2d_bias self)) (ConvTranspose2d_padding self)).

Record BatchNorm2d : Type := {
  BatchNorm2d_weight : tensor;
  BatchNorm2d_bias : tensor;
  running_mean : tensor;
  running_var : tensor;
  BatchNorm2d_training : bool;
}.

Definition BatchNorm2d_init (num_features : nat) : BatchNorm2d :=
  {| BatchNorm2d_weight := init_ones [num_features];
     BatchNorm2d_bias := init_zeros [num_features];
     running_mean := init_zeros [num_features];
     running_var := init_ones [num_features];
     BatchNorm2d_training := true |}.

Definition BatchNorm2d_forward (self : BatchNorm2d) (x : tensor)
  : result (exn torch_error) tensor :=
  call (F_batch_norm x (Some (running_mean self)) (Some (running_var self))
          (Some (BatchNorm2d_weight self)) (Some (BatchNorm2d_bias self))
          (BatchNorm2d_training self)).

(** [Module.train(mode)]; [Module.eval()] is [train(False)]. *)
Definition BatchNorm2d_train (mode : bool) (self : BatchNorm2d) : BatchNorm2d :=
  {| BatchNorm2d_weight := BatchNorm2d_weight self;
     BatchNorm2d_bias := BatchNorm2d_bias self;
     running_mean := running_mean self;
     running_var := running_var self;
     BatchNorm2d_training := mode |}.

Definition ReLU_forward (x : tensor) : result (exn torch_error) tensor :=
  call (F_relu x).

Record MaxPool2d : Type := {
  kernel_size : nat;
  stride : nat;
}.

Definition MaxPool2d_forward (self : MaxPool2d) (x : tensor)
  : result (exn torch_error) tensor :=
  call (F_max_pool2d x (kernel_size self) (stride self)).

Record Linear : Type := {
  Linear_weight : tensor;
  Linear_bias : tensor;
}.

Definition Linear_init (in_features out_features : nat) (g : generator)
  : Linear * generator :=
  let '(w, g) := init_uniform [out_features; in_features] g in
  let '(b, g) := init_uniform [out_features] g in
  ({| Linear_weight := w; Linear_bias := b |}, g).

Definition Linear_forward (self : Linear) (x : tensor)
  : result (exn torch_error) tensor :=
  call (F_linear x (Linear_weight self) (Some (Linear_bias self))).

Record LSTMCell : Type := {
  weight_ih : tensor;
  weight_hh : tensor;
  bias_ih : tensor;
  bias_hh : tensor;
}.

Definition LSTMCell_init (input_size hidden_size : nat) (g : generator)
  : LSTMCell * generator :=
  let '(wi, g) := init_uniform [4 * hidden_size; input_size] g in
  let '(wh, g) := init_uniform [4 * hidden_size; hidden_size] g in
  let '(bi, g) := init_uniform [4 * hidden_size] g in
  let '(bh, g) := init_uniform [4 * hidden_size] g in
  ({| weight_ih := wi; weight_hh := wh; bias_ih := bi; bias_hh := bh |}, g).

Definition LSTMCell_forward (self : LSTMCell) (input : tensor) (hx : tensor * tensor)
  : result (exn torch_error) (tensor * tensor) :=
  call (VF_lstm_cell input hx (weight_ih self) (weight_hh self)
          (bias_ih self) (bias_hh self)).

Definition Hardtanh_forward (x : tensor) : result (exn torch_error) tensor :=
  call (F_hardtanh x).

End Layers.
End nn.

(** ** Layers and blocks of models.py *)

Section Blocks.
Context {T : Torch}.

(** [Flatten.forward]: [input.view(input.size(0), -1)] *)
Definition Flatten_forward (input : tensor) : result (exn torch_error) tensor :=
  n ← call (Tensor_size input 0);
  call (Tensor_view input [Z.of_nat n; (-1)%Z]).

(** The [nn.Sequential] that [conv_block] returns.  Its children are
    numbered 0 to 3; child 2 is the [ReLU], which has no state. *)
Record ConvBlock : Type := {
  cb_0 : nn.Conv2d;
  cb_1 : nn.BatchNorm2d;
  cb_3 : nn.MaxPool2d;
}.

Definition conv_block (in_channels out_channels : nat) (conv_size : nat)
  (g : generator) : ConvBlock * generator :=
  let '(conv, g) := nn.Conv2d_init in_channels out_channels conv_size 1 g in
  ({| cb_0 := conv;
      cb_1 := nn.BatchNorm2d_init out_channels;
      cb_3 := {| nn.kernel_size := 2; nn.stride := 2 |} |}, g).

Definition ConvBlock_forward (self : ConvBlock) (x : tensor)
  : result (exn torch_error) tensor :=
  x ← nn.Conv2d_forward (cb_0 self) x;
  x ← nn.BatchNorm2d_forward (cb_1 self) x;
  x ← nn.ReLU_forward x;
  nn.MaxPool2d_forward (cb_3 self) x.

Definition ConvBlock_train (mode : bool) (self : ConvBlock) : ConvBlock :=
  {| cb_0 := cb_0 self;
     cb_1 := nn.BatchNorm2d_train mode (cb_1 self);
     cb_3 := cb_3 self |}.

(** [named_parameters] of the block under a prefix such as ["conv1."] *)
Definition ConvBlock_named_parameters (prefix : string) (self : ConvBlock)
  : list (string * tensor) :=
  [ (prefix +:+ "0.weight", nn.Conv2d_weight (cb_0 self));
    (prefix +:+ "0.bias", nn.Conv2d_bias (cb_0 self));
    (prefix +:+ "1.weight", nn.BatchNorm2d_weight (cb_1 self));
    (prefix +:+ "1.bias", nn.BatchNorm2d_bias (cb_1 self)) ].

(** The [nn.Sequential] of [deconv_block]: children 0 and 1 have state. *)
Record DeconvBlock : Type := {
  db_0 : nn.ConvTranspose2d;
  db_1 : nn.BatchNorm2d;
}.

Definition deconv_block (in_channels out_channels : nat) (conv_size : nat)
  (g : generator) : DeconvBlock * generator :=
  let '(conv, g) := nn.ConvTranspose2d_init in_channels out_channels conv_size 1 g in
  ({| db_0 := conv; db_1 := nn.BatchNorm2d_init out_channels |}, g).

Definition DeconvBlock_forward (self : DeconvBlock) (x : tensor)
  : result (exn torch_error) tensor :=
  x ← nn.ConvTranspose2d_forward (db_0 self) x;
  x ← nn.BatchNorm2d_forward (db_1 self) x;
  nn.ReLU_forward x.

Definition functional_conv_block (x weights biases : tensor)
  (bn_weights bn_biases : option tensor) : result (exn torch_error) tensor :=
  x ← call (F_conv2d x weights (Some biases) 1);
  x ← call (F_batch_norm x None None bn_weights bn_biases true);
  x ← call (F_relu x);
  x ← call (F_max_pool2d x 2 2);
  mret x.

(** The encoder of [get_few_shot_encoder]: four blocks, then [Flatten]. *)
Record FewShotEncoder : Type := {
  enc_0 : ConvBlock;
  enc_1 : ConvBlock;
  enc_2 : ConvBlock;
  enc_3 : ConvBlock;
}.

Definition get_few_shot_encoder (num_input_channels : nat) (g : generator)
  : FewShotEncoder * generator :=
  let '(b0, g) := conv_block num_input_channels 64 3 g in
  let '(b1, g) := conv_block 64 64 3 g in
  let '(b2, g) := conv_block 64 64 3 g in
  let '(b3, g) := conv_block 64 64 3 g in
  ({| enc_0 := b0; enc_1 := b1; enc_2 := b2; enc_3 := b3 |}, g).

Definition FewShotEncoder_forward (self : FewShotEncoder) (x : tensor)
  : result (exn torch_error) tensor :=
  x ← ConvBlock_forward (enc_0 self) x;
  x ← ConvBlock_forward (enc_1 self) x;
  x ← ConvBlock_forward (enc_2 self) x;
  x ← ConvBlock_forward (enc_3 self) x;
  Flatten_forward x.

End Blocks.

(** ** FewShotClassifier *)

Module FewShotClassifier.
Section Class.
Context {T : Torch}.

Record t : Type := {
  conv1 : ConvBlock;
  conv2 : ConvBlock;
  conv3 : ConvBlock;
  conv4 : ConvBlock;
  logits : nn.Linear;
}.

Definition init (num_input_channels k_way final_layer_size : nat) (g : generator)
  : t * generator :=
  let '(c1, g) := conv_block num_input_channels 64 3 g in
  let '(c2, g) := conv_block 64 64 3 g in
  let '(c3, g) := conv_block 64 64 3 g in
  let '(c4, g) := conv_block 64 64 3 g in
  let '(l, g) := nn.Linear_init final_layer_size k_way g in
  ({| conv1 := c1; conv2 := c2; conv3 := c3; conv4 := c4; logits := l |}, g).

Definition forward (self : t) (x : tensor) : result (exn torch_error) tensor :=
  x ← ConvBlock_forward (conv1 self) x;
  x ← ConvBlock_forward (conv2 self) x;
  x ← ConvBlock_forward (conv3 self) x;
  x ← ConvBlock_forward (conv4 self) x;
  n ← call (Tensor_size x 0);
  x ← call (Tensor_view x [Z.of_nat n; (-1)%Z]);
  nn.Linear_forward (logits self) x.

Definition functional_forward (self : t) (x : tensor) (weights : gmap string tensor)
  : result (exn torch_error) tensor :=
  x ← for_each [1; 2; 3; 4] (fun x block =>
         w ← getitem weights ("conv" +:+ str block +:+ ".0.weight");
         b ← getitem weights ("conv" +:+ str block +:+ ".0.bias");
         functional_conv_block x w b
           (dict_get weights ("conv" +:+ str block +:+ ".1.weight"))
           (dict_get weights ("conv" +:+ str block +:+ ".1.bias"))) x;
  n ← call (Tensor_size x 0);
  x ← call (Tensor_view x [Z.of_nat n; (-1)%Z]);
  lw ← getitem weights "logits.weight";
  lb ← getitem weights "logits.bias";
  x ← call (F_linear x lw (Some lb));
  mret x.

Definition view (self : t) (x : tensor)
  : result (exn torch_error) (tensor * tensor * tensor * tensor) :=
  x1 ← ConvBlock_forward (conv1 self) x;
  x2 ← ConvBlock_forward (conv2 self) x1;
  x3 ← ConvBlock_forward (conv3 self) x2;
  x4 ← ConvBlock_forward (conv4 self) x3;
  mret (x1, x2, x3, x4).

(** [Module.train(mode)] reaches every submodule; only the batch
    normalisations read the flag. *)
Definition train (mode : bool) (self : t) : t :=
  {| conv1 := ConvBlock_train mode (conv1 self);
     conv2 := ConvBlock_train mode (conv2 self);
     conv3 := ConvBlock_train mode (conv3 self);
     conv4 := ConvBlock_train mode (conv4 self);
     logits := logits self |}.

(** [dict(self.named_parameters())]: the parameters under the names that
    [functional_forward] looks up. *)
Definition named_parameters (self : t) : gmap string tensor :=
  list_to_map
    (ConvBlock_named_parameters "conv1." (conv1 self) ++
     ConvBlock_named_parameters "conv2." (conv2 self) ++
     ConvBlock_named_parameters "conv3." (conv3 self) ++
     ConvBlock_named_parameters "conv4." (conv4 self) ++
     [ ("logits.weight", nn.Linear_weight (logits self));
       ("logits.bias", nn.Linear_bias (logits self)) ]).

End Class.
End FewShotClassifier.

(** ** AttentionLSTM *)

Module AttentionLSTM.
Section Class.
Context {T : Torch}.

Record t : Type := {
  unrolling_steps : Z;
  lstm_cell : nn.LSTMCell;
}.

Definition init (size : nat) (unrolling_steps : Z) (g : generator) : t * generator :=
  let '(cell, g) := nn.LSTMCell_init size size g in
  ({| unrolling_steps := unrolling_steps; lstm_cell := cell |}, g).

(** [range(n)]: empty when [n] is not positive. *)
Definition range (n : Z) : list Z := Z.of_nat <$> seq 0 (Z.to_nat n).

Definition mismatch : string :=
  "Support and query set have different embedding dimension!".

(** One pass of the loop body, lines 260 to 273. *)
Definition step (self : t) (support queries : tensor) (state : tensor * tensor) (k : Z)
  : result (exn torch_error) (tensor * tensor) :=
  let '(h_hat, c) := state in
  h ← call (Tensor_add h_hat queries);
  support_t ← call (Tensor_t support);
  attentions ← call (torch_mm h support_t);
  attentions ← call (Tensor_softmax attentions 1);
  readout ← call (torch_mm attentions support);
  hx ← call (Tensor_add h readout);
  nn.LSTMCell_forward (lstm_cell self) queries (hx, c).

Definition forward (self : t) (support queries : tensor)
  : result (exn torch_error) tensor :=
  ds ← tuple_getitem (shape support) (-1);
  dq ← tuple_getitem (shape queries) (-1);
  if negb (ds =? dq) then Raise (ValueError mismatch)
  else
    batch_size ← tuple_getitem (shape queries) 0;
    embedding_dim ← tuple_getitem (shape queries) 1;
    h_hat ← call (torch_zeros_like queries);
    h_hat ← call (Tensor_cuda h_hat);
    h_hat ← call (Tensor_double h_hat);
    c ← call (torch_zeros [batch_size; embedding_dim]);
    c ← call (Tensor_cuda c);
    c ← call (Tensor_double c);
    '(h_hat, c) ← for_each (range (unrolling_steps self))
                     (step self support queries) (h_hat, c);
    h ← call (Tensor_add h_hat queries);
    mret h.

End Class.
End AttentionLSTM.

(** ** Python values that reach the binary activations

    [forward] of the activations unpacks its argument, which the callers
    build as a list of a tensor and a float, or pass as a bare tensor; the
    binarizer returns a tensor or a distribution object. *)

Section Values.
Context {T : Torch}.

(** Modelled from the spec: the module [distributions] (its classes
    [Bernoulli] and [Round], imported as [BernoulliREINFORCE] and
    [RoundREINFORCE]) is not among the sources.  The spec describes each as
    a wrapper of a probability tensor with a [sample()] capability: for
    [Round] the sample is the deterministic rounding, for [Bernoulli] it is
    a draw with the given probabilities. *)
Inductive distribution : Type :=
| RoundREINFORCE (probs : tensor)
| BernoulliREINFORCE (probs : tensor).

Definition distribution_sample (d : distribution) (g : generator)
  : result (exn torch_error) (tensor * generator) :=
  match d with
  | RoundREINFORCE probs => x ← call (torch_round probs); mret (x, g)
  | BernoulliREINFORCE probs => call (torch_bernoulli probs g)
  end.

Inductive pyval : Type :=
| PyTensor (x : tensor)
| PyFloat (s : scalar)
| PyInt (z : Z)
| PyList (l : list pyval)
| PyDistribution (d : distribution).

(** [a, b = v] *)
Definition unpack2 (v : pyval) : result (exn torch_error) (pyval * pyval) :=
  let of_list (l : list pyval) : result (exn torch_error) (pyval * pyval) :=
    match l with
    | [a; b] => Ok (a, b)
    | [] | [_] => Raise (ValueError "not enough values to unpack (expected 2)")
    | _ => Raise (ValueError "too many values to unpack (expected 2)")
    end in
  match v with
  | PyList l => of_list l
  | PyTensor x => slices ← call (Tensor_iter x); of_list (PyTensor <$> slices)
  | PyFloat _ => Raise (TypeError "cannot unpack non-iterable float object")
  | PyInt _ => Raise (TypeError "cannot unpack non-iterable int object")
  | PyDistribution _ => Raise (TypeError "cannot unpack non-iterable distribution object")
  end.

(** [a * b] where the product is then used as a tensor.  Operands that are
    not a tensor and a number, or two tensors, end in a [TypeError], at the
    product or at the first tensor operator applied to it. *)
Definition py_mul (a b : pyval) : result (exn torch_error) tensor :=
  match a, b with
  | PyFloat s, PyTensor x | PyTensor x, PyFloat s => call (Tensor_rmul_scalar s x)
  | PyInt z, PyTensor x | PyTensor x, PyInt z => call (Tensor_rmul_scalar (float_of_Z z) x)
  | PyTensor x, PyTensor y => call (Tensor_mul x y)
  | _, _ => Raise (TypeError "unsupported operand type(s) for *")
  end.

Definition as_tensor (v : pyval) : result (exn torch_error) tensor :=
  match v with
  | PyTensor x => Ok x
  | _ => Raise (TypeError "expected a Tensor")
  end.

Definition as_int (v : pyval) : result (exn torch_error) Z :=
  match v with
  | PyInt z => Ok z
  | _ => Raise (TypeError "expected an int")
  end.

(** [v.sample()] *)
Definition py_sample (v : pyval) (g : generator)
  : result (exn torch_error) (pyval * generator) :=
  match v with
  | PyDistribution d => '(x, g) ← distribution_sample d g; mret (PyTensor x, g)
  | _ => Raise (AttributeError "sample")
  end.

(** Binding the positional arguments of a call to a function whose
    parameters (after [self]) are all required. *)
Definition missing_arguments (fname : string) (missing : list string) : string :=
  fname +:+ "() missing " +:+ str (length missing) +:+
  " required positional argument" +:+
  (if length missing =? 1 then "" else "s") +:+ ": " +:+
  String.concat ", " ((λ p, "'" +:+ p +:+ "'") <$> missing).

Definition bind_positional (fname : string) (params : list string) (args : list pyval)
  : result (exn torch_error) (list pyval) :=
  if length args <? length params
  then Raise (TypeError (missing_arguments fname (drop (length args) params)))
  else if length params <? length args
  then Raise (TypeError (fname +:+ "() takes fewer positional arguments than were given"))
  else Ok args.

End Values.

(** ** Hardsigmoid and the straight-through estimators *)

Module Hardsigmoid.
Section Class.
Context {T : Torch}.

Definition forward (x : tensor) : result (exn torch_error) tensor :=
  a ← nn.Hardtanh_forward x;
  s ← call (Tensor_add_scalar a (float_of_Z 1));
  call (Tensor_div_scalar s (float_of_Z 2)).

End Class.
End Hardsigmoid.

(** A [torch.autograd.Function]: a forward transform and the backward
    transform that autograd applies to the gradient of its output. *)
Class Function {T : Torch} : Type := {
  ctx_t : Type;
  new_ctx : ctx_t;
  Function_forward :
    ctx_t → tensor → generator → result (exn torch_error) (tensor * generator);
  Function_backward : ctx_t → tensor → tensor;
}.

(** [F.apply(input)] *)
Definition apply {T : Torch} (F : Function) (input : tensor) (g : generator)
  : result (exn torch_error) (tensor * generator) :=
  Function_forward new_ctx input g.

Module RoundFunctionST.
Section Class.
Context {T : Torch}.

Definition forward (ctx : unit) (input : tensor) (g : generator)
  : result (exn torch_error) (tensor * generator) :=
  x ← call (torch_round input); mret (x, g).

Definition backward (ctx : unit) (grad_output : tensor) : tensor := grad_output.

Definition function : Function :=
  {| ctx_t := unit; new_ctx := tt;
     Function_forward := forward; Function_backward := backward |}.

End Class.
End RoundFunctionST.

Module BernoulliFunctionST.
Section Class.
Context {T : Torch}.

Definition forward (ctx : unit) (input : tensor) (g : generator)
  : result (exn torch_error) (tensor * generator) :=
  call (torch_bernoulli input g).

Definition backward (ctx : unit) (grad_output : tensor) : tensor := grad_output.

Definition function : Function :=
  {| ctx_t := unit; new_ctx := tt;
     Function_forward := forward; Function_backward := backward |}.

End Class.
End BernoulliFunctionST.

Section Binarizers.
Context {T : Torch}.

Definition RoundST : tensor → generator → result (exn torch_error) (tensor * generator) :=
  apply RoundFunctionST.function.
Definition BernoulliST : tensor → generator → result (exn torch_error) (tensor * generator) :=
  apply BernoulliFunctionST.function.

(** What [self.binarizer] can hold: one of the two [apply] functions, or one
    of the two distribution classes. *)
Inductive binarizer_t : Type :=
| BinRoundST
| BinBernoulliST
| BinRoundREINFORCE
| BinBernoulliREINFORCE.

(** [self.binarizer(x)] *)
Definition call_binarizer (b : binarizer_t) (x : tensor) (g : generator)
  : result (exn torch_error) (pyval * generator) :=
  match b with
  | BinRoundST => '(y, g) ← RoundST x g; mret (PyTensor y, g)
  | BinBernoulliST => '(y, g) ← BernoulliST x g; mret (PyTensor y, g)
  | BinRoundREINFORCE => mret (PyDistribution (RoundREINFORCE x), g)
  | BinBernoulliREINFORCE => mret (PyDistribution (BernoulliREINFORCE x), g)
  end.

End Binarizers.

(** ** The binary activations *)

Module DeterministicBinaryActivation.
Section Class.
Context {T : Torch}.

Record t : Type := {
  estimator : string;
  binarizer : option binarizer_t;
}.

Definition init (estimator : string) : result (exn torch_error) t :=
  if negb (bool_decide (estimator ∈ ["ST"; "REINFORCE"])) then Raise AssertionError
  else
    mret {| estimator := estimator;
            binarizer :=
              if String.eqb estimator "ST" then Some BinRoundST
              else if String.eqb estimator "REINFORCE" then Some BinRoundREINFORCE
              else None |}.

Definition forward (self : t) (input : pyval) (g : generator)
  : result (exn torch_error) (pyval * generator) :=
  '(x, slope) ← unpack2 input;
  x ← py_mul slope x;
  x ← Hardsigmoid.forward x;
  b ← getattr "binarizer" (binarizer self);
  '(x, g) ← call_binarizer b x g;
  if String.eqb (estimator self) "REINFORCE" then py_sample x g
  else mret (x, g).

End Class.
End DeterministicBinaryActivation.

Module StochasticBinaryActivation.
Section Class.
Context {T : Torch}.

Record t : Type := {
  estimator : string;
  binarizer : option binarizer_t;
}.

Definition init (estimator : string) : result (exn torch_error) t :=
  if negb (bool_decide (estimator ∈ ["ST"; "REINFORCE"])) then Raise AssertionError
  else
    mret {| estimator := estimator;
            binarizer :=
              if String.eqb estimator "ST" then Some BinBernoulliST
              else if String.eqb estimator "REINFORCE" then Some BinBernoulliREINFORCE
              else None |}.

Definition forward (self : t) (input : pyval) (g : generator)
  : result (exn torch_error) (pyval * generator) :=
  '(x, slope) ← unpack2 input;
  x ← py_mul slope x;
  probs ← Hardsigmoid.forward x;
  b ← getattr "binarizer" (binarizer self);
  '(out, g) ← call_binarizer b probs g;
  if String.eqb (estimator self) "REINFORCE" then py_sample out g
  else mret (out, g).

End Class.
End StochasticBinaryActivation.

Section BinaryAct.
Context {T : Torch}.

(** [self.binary_act] holds an activation of one of the two classes. *)
Inductive binary_act_t : Type :=
| Stochastic (m : StochasticBinaryActivation.t)
| Deterministic (m : DeterministicBinaryActivation.t).

Definition binary_act_init (stochastic : bool) : result (exn torch_error) binary_act_t :=
  if stochastic then Stochastic <$> StochasticBinaryActivation.init "ST"
  else Deterministic <$> DeterministicBinaryActivation.init "ST".

Definition binary_act_forward (m : binary_act_t) (input : pyval) (g : generator)
  : result (exn torch_error) (pyval * generator) :=
  match m with
  | Stochastic m => StochasticBinaryActivation.forward m input g
  | Deterministic m => DeterministicBinaryActivation.forward m input g
  end.

End BinaryAct.

(** ** SemanticBinaryClassifier *)

Module SemanticBinaryClassifier.
Section Class.
Context {T : Torch}.

Record t : Type := {
  conv1 : ConvBlock;
  conv2 : option ConvBlock;
  conv3 : option ConvBlock;
  conv4 : option ConvBlock;
  dense1 : option nn.Linear;
  dense2 : nn.Linear;
  binary_act : binary_act_t;
  logits : nn.Linear;
  slope : scalar;
  dense_layer_before_bin : bool;
  n_conv_layers : Z;
}.

Definition init (num_input_channels k_way final_layer_size : nat)
  (size_dense_layer_before_binary : option nat) (size_binary_layer : nat)
  (stochastic : bool) (n_conv_layers : Z) (g : generator)
  : result (exn torch_error) (t * generator) :=
  let '(c1, g) := conv_block num_input_channels 64 3 g in
  let n := 12544 in
  let '(c2, n, g) :=
    if (n_conv_layers >=? 2)%Z
    then let '(c, g) := conv_block 64 64 3 g in (Some c, 3136, g)
    else (None, n, g) in
  let '(c3, n, g) :=
    if (n_conv_layers >=? 3)%Z
    then let '(c, g) := conv_block 64 64 3 g in (Some c, 576, g)
    else (None, n, g) in
  let '(c4, n, g) :=
    if (n_conv_layers >=? 4)%Z
    then let '(c, g) := conv_block 64 64 3 g in (Some c, 64, g)
    else (None, n, g) in
  let '(d1, d2, g) :=
    match size_dense_layer_before_binary with
    | Some size =>
      let '(d1, g) := nn.Linear_init n size g in
      let '(d2, g) := nn.Linear_init size size_binary_layer g in
      (Some d1, d2, g)
    | None =>
      let '(d2, g) := nn.Linear_init n size_binary_layer g in
      (None, d2, g)
    end in
  act ← binary_act_init stochastic;
  let '(l, g) := nn.Linear_init size_binary_layer k_way g in
  mret ({| conv1 := c1; conv2 := c2; conv3 := c3; conv4 := c4;
           dense1 := d1; dense2 := d2;
           binary_act := act;
           logits := l;
           slope := float_of_Z 1;
           dense_layer_before_bin :=
             bool_decide (size_dense_layer_before_binary ≠ None);
           n_conv_layers := n_conv_layers |}, g).

(** Lines 443 to 450 of [forward]: the convolutional stack and the
    flattening. *)
Definition features (self : t) (x : tensor) : result (exn torch_error) tensor :=
  x ← ConvBlock_forward (conv1 self) x;
  x ← (if (n_conv_layers self >=? 2)%Z
       then c ← getattr "conv2" (conv2 self); ConvBlock_forward c x
       else mret x);
  x ← (if (n_conv_layers self >=? 3)%Z
       then c ← getattr "conv3" (conv3 self); ConvBlock_forward c x
       else mret x);
  x ← (if (n_conv_layers self >=? 4)%Z
       then c ← getattr "conv4" (conv4 self); ConvBlock_forward c x
       else mret x);
  n ← call (Tensor_size x 0);
  call (Tensor_view x [Z.of_nat n; (-1)%Z]).

Definition forward (self : t) (x : tensor) (g : generator)
  : result (exn torch_error) (tensor * pyval * generator) :=
  x ← features self x;
  x ← (if dense_layer_before_bin self
       then d ← getattr "dense1" (dense1 self); nn.Linear_forward d x
       else mret x);
  x ← nn.Linear_forward (dense2 self) x;
  '(x, g) ← binary_act_forward (binary_act self)
              (PyList [PyTensor x; PyFloat (slope self)]) g;
  code ← as_tensor x;
  out ← nn.Linear_forward (logits self) code;
  mret (out, x, g).

(** The module with its [n_conv_layers] attribute replaced. *)
Definition with_n_conv_layers (n : Z) (self : t) : t :=
  {| conv1 := conv1 self; conv2 := conv2 self; conv3 := conv3 self;
     conv4 := conv4 self; dense1 := dense1 self; dense2 := dense2 self;
     binary_act := binary_act self; logits := logits self; slope := slope self;
     dense_layer_before_bin := dense_layer_before_bin self;
     n_conv_layers := n |}.

(** The number of convolutional blocks the module holds. *)
Definition conv_blocks (self : t) : nat :=
  1 + length (omap (λ c, c) [conv2 self; conv3 self; conv4 self]).

(** [in_features] of the dense layer that receives the flattened features,
    read off its weight. *)
Definition dense_in_features (self : t) : result (exn torch_error) nat :=
  let d := if dense_layer_before_bin self then dense1 self else Some (dense2 self) in
  d ← getattr "dense1" d;
  tuple_getitem (shape (nn.Linear_weight d)) 1.

End Class.
End SemanticBinaryClassifier.

(** ** SemanticBinaryAutoEncoder *)

Module SemanticBinaryAutoEncoder.
Section Class.
Context {T : Torch}.

Record t : Type := {
  size_continue_layer : nat;
  conv1 : ConvBlock;
  conv2 : ConvBlock;
  dense_bin : nn.Linear;
  dense_cont : nn.Linear;
  deconv1 : DeconvBlock;
  deconv2 : DeconvBlock;
  deconv3 : nn.ConvTranspose2d;
  binary_act : binary_act_t;
}.

Definition init (num_input_channels size_binary_layer size_continue_layer : nat)
  (stochastic : bool) (g : generator) : result (exn torch_error) (t * generator) :=
  let '(c1, g) := conv_block num_input_channels 64 3 g in
  let '(c2, g) := conv_block 64 64 3 g in
  let '(db, g) := nn.Linear_init 3136 size_binary_layer g in
  let '(dc, g) := nn.Linear_init 3136 size_continue_layer g in
  let '(dv1, g) := deconv_block 64 64 3 g in
  let '(dv2, g) := deconv_block 64 64 3 g in
  let '(dv3, g) := nn.ConvTranspose2d_init 64 64 3 0 g in
  act ← binary_act_init stochastic;
  mret ({| size_continue_layer := size_continue_layer;
           conv1 := c1; conv2 := c2; dense_bin := db; dense_cont := dc;
           deconv1 := dv1; deconv2 := dv2; deconv3 := dv3;
           binary_act := act |}, g).

Definition encoder (self : t) (x : tensor) (g : generator)
  : result (exn torch_error) (pyval * tensor * generator) :=
  x ← ConvBlock_forward (conv1 self) x;
  x ← ConvBlock_forward (conv2 self) x;
  x1 ← nn.Linear_forward (dense_bin self) x;
  x2 ← nn.Linear_forward (dense_cont self) x;
  '(x1, g) ← binary_act_forward (binary_act self) (PyTensor x1) g;
  x2 ← call (F_relu x2);
  mret (x1, x2, g).

Definition decoder (self : t) (latent_space : tensor)
  : result (exn torch_error) tensor :=
  x ← DeconvBlock_forward (deconv1 self) latent_space;
  x ← DeconvBlock_forward (deconv2 self) x;
  x ← nn.ConvTranspose2d_forward (deconv3 self) x;
  call (F_tanh x).

Definition binary_space_decoder (self : t) (binary_latent_space n_noise : pyval)
  (g : generator) : result (exn torch_error) (tensor * generator) :=
  n ← as_int n_noise;
  '(noise, g) ← call (Uniform_sample [n; Z.of_nat (size_continue_layer self)] g);
  b ← as_tensor binary_latent_space;
  latent_space ← call (torch_cat [b; noise]);
  x ← decoder self latent_space;
  mret (x, g).

(** The parameters of [binary_space_decoder] after [self]; none has a
    default value. *)
Definition binary_space_decoder_params : list string :=
  ["binary_latent_space"; "n_noise"].

(** [self.binary_space_decoder(args...)] *)
Definition call_binary_space_decoder (self : t) (args : list pyval) (g : generator)
  : result (exn torch_error) (tensor * generator) :=
  bound ← bind_positional "binary_space_decoder" binary_space_decoder_params args;
  match bound with
  | [binary_latent_space; n_noise] =>
    binary_space_decoder self binary_latent_space n_noise g
  | _ => Raise (TypeError "binary_space_decoder(): arguments not bound")
  end.

Definition forward (self : t) (x : tensor) (g : generator)
  : result (exn torch_error) (tensor * tensor * generator) :=
  '(bina, cont, g) ← encoder self x g;
  b ← as_tensor bina;
  latent_space ← call (torch_cat [b; cont]);
  x1 ← decoder self latent_space;
  '(x2, g) ← call_binary_space_decoder self [bina] g;
  mret (x1, x2, g).

End Class.
End SemanticBinaryAutoEncoder.

(** ** The framework on shapes

    [Meta] keeps of a tensor its shape only, as the framework's own [meta]
    device does; every operator checks its arguments' shapes and computes the
    shape of its result.  Tensors are batched: a convolution or a pooling
    takes rank 4 only.  Devices and dtypes are not modelled: [cuda] and
    [double] always succeed. *)

Module Meta.

Definition numel (s : list nat) : nat := foldr Nat.mul 1 s.

Definition shape_eqb (a b : list nat) : bool := bool_decide (a = b).

(** An optional parameter of per-channel shape [[c]]. *)
Definition opt_is (c : nat) (o : option (list nat)) : bool :=
  match o with
  | None => true
  | Some s => shape_eqb s [c]
  end.

Definition conv2d (x w : list nat) (b : option (list nat)) (padding : nat)
  : result string (list nat) :=
  match x, w with
  | [n; c; h; wd], [o; c'; kh; kw] =>
    if negb (c =? c') then Raise "conv2d: input channels do not match the weight"
    else if negb (opt_is o b) then Raise "conv2d: bias does not match the weight"
    else if (kh =? 0) || (kw =? 0) then Raise "conv2d: empty kernel"
    else if (h + 2 * padding <? kh) || (wd + 2 * padding <? kw)
    then Raise "conv2d: kernel size can't be greater than actual input size"
    else Ok [n; o; h + 2 * padding - kh + 1; wd + 2 * padding - kw + 1]
  | _, _ => Raise "conv2d: expected a 4D input and a 4D weight"
  end.

Definition conv_transpose2d (x w : list nat) (b : option (list nat)) (padding : nat)
  : result string (list nat) :=
  match x, w with
  | [n; c; h; wd], [c'; o; kh; kw] =>
    if negb (c =? c') then Raise "conv_transpose2d: input channels do not match the weight"
    else if negb (opt_is o b) then Raise "conv_transpose2d: bias does not match the weight"
    else if (h =? 0) || (wd =? 0) || (kh =? 0) || (kw =? 0)
    then Raise "conv_transpose2d: empty input or kernel"
    else if (h - 1 + kh <=? 2 * padding) || (wd - 1 + kw <=? 2 * padding)
    then Raise "conv_transpose2d: output size is too small"
    else Ok [n; o; h - 1 + kh - 2 * padding; wd - 1 + kw - 2 * padding]
  | _, _ => Raise "conv_transpose2d: expected a 4D input and a 4D weight"
  end.

Definition batch_norm (x : list nat) (rm rv w b : option (list nat)) (training : bool)
  : result string (list nat) :=
  match x with
  | n :: c :: rest =>
    if negb (opt_is c w && opt_is c b)
    then Raise "batch_norm: weight or bias does not match the channels"
    else if training then
      if n * numel rest =? 1
      then Raise "Expected more than 1 value per channel when training"
      else Ok x
    else
      match rm, rv with
      | Some m, Some v =>
        if shape_eqb m [c] && shape_eqb v [c] then Ok x
        else Raise "batch_norm: running statistics do not match the channels"
      | _, _ => Raise "Expected running_mean and running_var to be defined when training=False"
      end
  | _ => Raise "batch_norm: expected at least 2 dimensions"
  end.

Definition max_pool2d (x : list nat) (k s : nat) : result string (list nat) :=
  match x with
  | [n; c; h; w] =>
    if (k =? 0) || (s =? 0) then Raise "max_pool2d: kernel size and stride must be positive"
    else if (h <? k) || (w <? k) then Raise "max_pool2d: output size is too small"
    else Ok [n; c; (h - k) / s + 1; (w - k) / s + 1]
  | _ => Raise "max_pool2d: expected a 4D input"
  end.

Definition linear (x w : list nat) (b : option (list nat)) : result string (list nat) :=
  match w with
  | [o; i] =>
    match last x with
    | Some d =>
      if negb (d =? i) then Raise "linear: mat1 and mat2 shapes cannot be multiplied"
      else if negb (opt_is o b) then Raise "linear: bias does not match the weight"
      else Ok (removelast x ++ [o])
    | None => Raise "linear: the input has no dimension"
    end
  | _ => Raise "linear: expected a 2D weight"
  end.

Definition lstm_cell (x : list nat) (hx : list nat * list nat) (w_ih w_hh b_ih b_hh : list nat)
  : result string (list nat * list nat) :=
  match x, w_ih, w_hh with
  | [n; i], [g; i'], [g'; hd] =>
    if negb ((g =? 4 * hd) && (g' =? 4 * hd) && shape_eqb b_ih [g] && shape_eqb b_hh [g])
    then Raise "lstm_cell: inconsistent parameters"
    else if negb (i =? i') then Raise "lstm_cell: input has inconsistent input_size"
    else if negb (shape_eqb hx.1 [n; hd] && shape_eqb hx.2 [n; hd])
    then Raise "lstm_cell: hidden state has inconsistent size"
    else Ok ([n; hd], [n; hd])
  | _, _, _ => Raise "lstm_cell: expected a 2D input and 2D weights"
  end.

Definition size (x : list nat) (dim : Z) : result string nat :=
  let n := Z.of_nat (length x) in
  let j := if (dim <? 0)%Z then (n + dim)%Z else dim in
  if ((j <? 0) || (n <=? j))%Z then Raise "size: dimension out of range"
  else match x !! Z.to_nat j with
       | Some d => Ok d
       | None => Raise "size: dimension out of range"
       end.

(** [Tensor.view] of a list of dimensions: at most one dimension is [-1] and is inferred. *)
Definition view (x : list nat) (dims : list Z) : result string (list nat) :=
  let known := foldr Z.mul 1%Z (filter (λ d, d ≠ (-1)%Z) dims) in
  let holes := length (filter (λ d, d = (-1)%Z) dims) in
  let total := Z.of_nat (numel x) in
  if existsb (λ d, (d <? -1)%Z) dims then Raise "view: invalid shape dimension"
  else match holes with
       | 0 => if (known =? total)%Z then Ok (Z.to_nat <$> dims)
              else Raise "view: shape is invalid for input size"
       | 1 => if (known =? 0)%Z then Raise "view: cannot infer the unspecified dimension"
              else if negb (total mod known =? 0)%Z
              then Raise "view: shape is invalid for input size"
              else Ok ((λ d, if (d =? -1)%Z then Z.to_nat (total / known) else Z.to_nat d)
                         <$> dims)
       | _ => Raise "view: only one dimension can be inferred"
       end.

(** Broadcasting of two shapes, read from the last dimension. *)
Fixpoint broadcast_rev (a b : list nat) : option (list nat) :=
  match a, b with
  | [], _ => Some b
  | _, [] => Some a
  | x :: a', y :: b' =>
    r ← broadcast_rev a' b';
    if x =? y then Some (x :: r)
    else if x =? 1 then Some (y :: r)
    else if y =? 1 then Some (x :: r)
    else None
  end.

Definition broadcast (a b : list nat) : result string (list nat) :=
  match broadcast_rev (rev a) (rev b) with
  | Some r => Ok (rev r)
  | None => Raise "The size of tensor a must match the size of tensor b"
  end.

Definition mm (x y : list nat) : result string (list nat) :=
  match x, y with
  | [n; m], [m'; p] =>
    if m =? m' then Ok [n; p]
    else Raise "mm: mat1 and mat2 shapes cannot be multiplied"
  | _, _ => Raise "mm: expected 2D tensors"
  end.

Definition transpose (x : list nat) : result string (list nat) :=
  match x with
  | [] | [_] => Ok x
  | [a; b] => Ok [b; a]
  | _ => Raise "t() expects a tensor with <= 2 dimensions"
  end.

Definition softmax (x : list nat) (dim : nat) : result string (list nat) :=
  if (dim <? length x) || ((dim =? 0) && (length x =? 0)) then Ok x
  else Raise "softmax: dimension out of range".

Definition uniform_sample (dims : list Z) : result string (list nat) :=
  if existsb (λ d, (d <? 0)%Z) dims then Raise "sample: negative dimension"
  else Ok (Z.to_nat <$> dims).

(** [torch.cat(ts)] along dimension 0. *)
Definition cat (ts : list (list nat)) : result string (list nat) :=
  match ts with
  | [] => Raise "cat: expected a non-empty list of tensors"
  | [] :: _ => Raise "cat: zero-dimensional tensor cannot be concatenated"
  | (n :: rest) :: ts' =>
    if forallb (λ s, match s with
                     | [] => false
                     | _ :: r => shape_eqb r rest
                     end) ts'
    then Ok (foldr (λ s acc, default 0 (head s) + acc) 0 ts :: rest)
    else Raise "cat: sizes of tensors must match except in dimension 0"
  end.

(** Iterating a tensor yields its slices along dimension 0. *)
Definition iter (x : list nat) : result string (list (list nat)) :=
  match x with
  | [] => Raise "iteration over a 0-d tensor"
  | n :: rest => Ok (replicate n rest)
  end.

Lemma batch_norm_shape_training x rm rv w b :
  batch_norm x rm rv w b true = batch_norm x None None w b true.
Proof. reflexivity. Qed.

Definition torch : Torch := {|
  tensor := list nat;
  generator := unit;
  scalar := unit;
  torch_error := string;
  float_of_Z := λ _, ();
  shape := λ x, x;
  Tensor_size := size;
  F_conv2d := conv2d;
  F_conv_transpose2d := conv_transpose2d;
  F_batch_norm := batch_norm;
  F_relu := Ok;
  F_max_pool2d := max_pool2d;
  F_linear := linear;
  F_hardtanh := Ok;
  F_tanh := Ok;
  VF_lstm_cell := lstm_cell;
  Tensor_view := view;
  torch_zeros := Ok;
  torch_zeros_like := Ok;
  Tensor_cuda := Ok;
  Tensor_double := Ok;
  Tensor_add := broadcast;
  Tensor_mul := broadcast;
  Tensor_add_scalar := λ x _, Ok x;
  Tensor_div_scalar := λ x _, Ok x;
  Tensor_rmul_scalar := λ _ x, Ok x;
  torch_mm := mm;
  Tensor_t := transpose;
  Tensor_softmax := softmax;
  torch_round := Ok;
  torch_bernoulli := λ x g, Ok (x, g);
  Uniform_sample := λ dims g, (λ s, (s, g)) <$> uniform_sample dims;
  torch_cat := cat;
  Tensor_iter := iter;
  init_ones := λ s, s;
  init_zeros := λ s, s;
  init_uniform := λ s g, (s, g);
  F_batch_norm_training := batch_norm_shape_training;
|}.

End Meta.

(** ** The framework on real numbers

    A tensor of [Real] is a shape and a value at every index; the shape of a
    result, and whether the operator fails, are those of [Meta].  Values are
    real numbers and the arithmetic is exact.  The global generator is an
    endless supply of noise fields, from which the fractional part makes a
    uniform draw in the unit interval. *)

Module Real.

Local Open Scope R_scope.

Record rtensor : Type := {
  rshape : list nat;
  rval : list nat → R;
}.

Definition noise : Type := nat → list nat → R.

Definition advance (g : noise) : noise := λ n, g (S n).

Definition lift (s : result string (list nat)) (v : list nat → R)
  : result string rtensor :=
  (λ s, {| rshape := s; rval := v |}) <$> s.

Definition dim (x : rtensor) (i : nat) : nat := nth i (rshape x) 0%nat.

(** The sum of [f 0], ..., [f (n - 1)]. *)
Fixpoint rsum (n : nat) (f : nat → R) : R :=
  match n with
  | O => 0
  | S k => rsum k f + f k
  end.

(** The sum of [f] over all indices of a shape. *)
Fixpoint tsum (dims : list nat) (f : list nat → R) : R :=
  match dims with
  | [] => f []
  | d :: ds => rsum d (λ i, tsum ds (λ r, f (i :: r)))
  end.

(** The maximum of [f 0], ..., [f (n - 1)], for a positive [n]. *)
Fixpoint rmax_upto (n : nat) (f : nat → R) : R :=
  match n with
  | O => f O
  | S k => Rmax (rmax_upto k f) (f (S k))
  end.

Definition rmaxn (n : nat) (f : nat → R) : R :=
  match n with
  | O => 0
  | S k => rmax_upto k f
  end.

Definition opt_at (o : option rtensor) (default : R) (idx : list nat) : R :=
  match o with
  | Some p => rval p idx
  | None => default
  end.

Definition eps : R := 1 / 100000.

Definition sigmoid (z : R) : R := 1 / (1 + exp (- z)).

(** [torch.round]: to the nearest integer, a tie to the even one. *)
Definition round_half_even (r : R) : R :=
  let z := Int_part r in
  let f := frac_part r in
  if Rlt_dec f (1 / 2) then IZR z
  else if Rlt_dec (1 / 2) f then IZR (z + 1)
  else if Z.even z then IZR z else IZR (z + 1).

Definition padded (x : rtensor) (p : nat) (n c a b : nat) : R :=
  if ((p <=? a) && (a <? dim x 2 + p) && (p <=? b) && (b <? dim x 3 + p))%nat
  then rval x [n; c; (a - p)%nat; (b - p)%nat]
  else 0.

Definition conv2d_val (x w : rtensor) (b : option rtensor) (p : nat) (idx : list nat) : R :=
  match idx with
  | [n; o; i; j] =>
    opt_at b 0 [o] +
    rsum (dim w 1) (λ c, rsum (dim w 2) (λ u, rsum (dim w 3) (λ v,
      padded x p n c (i + u) (j + v) * rval w [o; c; u; v])))
  | _ => 0
  end.

Definition conv2d (x w : rtensor) (b : option rtensor) (p : nat) : result string rtensor :=
  lift (Meta.conv2d (rshape x) (rshape w) (rshape <$> b) p) (conv2d_val x w b p).

Definition conv_transpose2d_val (x w : rtensor) (b : option rtensor) (p : nat)
  (idx : list nat) : R :=
  match idx with
  | [n; o; i; j] =>
    opt_at b 0 [o] +
    rsum (dim w 0) (λ c, rsum (dim w 2) (λ u, rsum (dim w 3) (λ v,
      if ((u <=? i + p) && (i + p - u <? dim x 2) &&
          (v <=? j + p) && (j + p - v <? dim x 3))%nat
      then rval x [n; c; (i + p - u)%nat; (j + p - v)%nat] * rval w [c; o; u; v]
      else 0)))
  | _ => 0
  end.

Definition conv_transpose2d (x w : rtensor) (b : option rtensor) (p : nat)
  : result string rtensor :=
  lift (Meta.conv_transpose2d (rshape x) (rshape w) (rshape <$> b) p)
       (conv_transpose2d_val x w b p).

(** The sum over a channel: over the batch and all positions after the
    channel dimension. *)
Definition channel_sum (x : rtensor) (ch : nat) (f : R → R) : R :=
  rsum (dim x 0) (λ n, tsum (drop 2 (rshape x)) (λ r, f (rval x (n :: ch :: r)))).

Definition channel_count (x : rtensor) : R :=
  INR (dim x 0 * Meta.numel (drop 2 (rshape x))).

Definition batch_mean (x : rtensor) (ch : nat) : R :=
  channel_sum x ch (λ v, v) / channel_count x.

Definition batch_var (x : rtensor) (ch : nat) : R :=
  channel_sum x ch (λ v, (v - batch_mean x ch) ^ 2) / channel_count x.

Definition batch_norm_val (x : rtensor) (rm rv w b : option rtensor) (training : bool)
  (idx : list nat) : R :=
  match idx with
  | _ :: ch :: _ =>
    let mean := if training then batch_mean x ch else opt_at rm 0 [ch] in
    let var := if training then batch_var x ch else opt_at rv 1 [ch] in
    (rval x idx - mean) / sqrt (var + eps) * opt_at w 1 [ch] + opt_at b 0 [ch]
  | _ => 0
  end.

Definition batch_norm (x : rtensor) (rm rv w b : option rtensor) (training : bool)
  : result string rtensor :=
  lift (Meta.batch_norm (rshape x) (rshape <$> rm) (rshape <$> rv)
          (rshape <$> w) (rshape <$> b) training)
       (batch_norm_val x rm rv w b training).

Definition pointwise (f : R → R) (x : rtensor) : result string rtensor :=
  Ok {| rshape := rshape x; rval := λ idx, f (rval x idx) |}.

Definition max_pool2d (x : rtensor) (k s : nat) : result string rtensor :=
  lift (Meta.max_pool2d (rshape x) k s)
       (λ idx, match idx with
               | [n; c; i; j] =>
                 rmaxn k (λ u, rmaxn k (λ v, rval x [n; c; (i * s + u)%nat; (j * s + v)%nat]))
               | _ => 0
               end).

Definition linear_val (x w : rtensor) (b : option rtensor) (idx : list nat) : R :=
  let o := List.last idx 0%nat in
  rsum (dim w 1) (λ k, rval x (removelast idx ++ [k]) * rval w [o; k]) + opt_at b 0 [o].

Definition linear (x w : rtensor) (b : option rtensor) : result string rtensor :=
  lift (Meta.linear (rshape x) (rshape w) (rshape <$> b)) (linear_val x w b).

(** The pre-activation of gate row [j] of an LSTM cell for sample [n]. *)
Definition gate (x h w_ih w_hh b_ih b_hh : rtensor) (n j : nat) : R :=
  rsum (dim w_ih 1) (λ k, rval x [n; k] * rval w_ih [j; k]) + rval b_ih [j] +
  rsum (dim w_hh 1) (λ k, rval h [n; k] * rval w_hh [j; k]) + rval b_hh [j].

Definition lstm_c (x : rtensor) (hx : rtensor * rtensor) (w_ih w_hh b_ih b_hh : rtensor)
  (idx : list nat) : R :=
  match idx with
  | [n; j] =>
    let hd := dim w_hh 1 in
    let z := gate x hx.1 w_ih w_hh b_ih b_hh n in
    sigmoid (z (hd + j)%nat) * rval hx.2 [n; j] +
    sigmoid (z j) * tanh (z (2 * hd + j)%nat)
  | _ => 0
  end.

Definition lstm_h (x : rtensor) (hx : rtensor * rtensor) (w_ih w_hh b_ih b_hh : rtensor)
  (idx : list nat) : R :=
  match idx with
  | [n; j] =>
    let hd := dim w_hh 1 in
    let z := gate x hx.1 w_ih w_hh b_ih b_hh n in
    sigmoid (z (3 * hd + j)%nat) * tanh (lstm_c x hx w_ih w_hh b_ih b_hh idx)
  | _ => 0
  end.

Definition lstm_cell (x : rtensor) (hx : rtensor * rtensor) (w_ih w_hh b_ih b_hh : rtensor)
  : result string (rtensor * rtensor) :=
  (λ s : list nat * list nat,
     ({| rshape := s.1; rval := lstm_h x hx w_ih w_hh b_ih b_hh |},
      {| rshape := s.2; rval := lstm_c x hx w_ih w_hh b_ih b_hh |})) <$>
  Meta.lstm_cell (rshape x) (rshape hx.1, rshape hx.2)
    (rshape w_ih) (rshape w_hh) (rshape b_ih) (rshape b_hh).

(** Row-major position of an index in a shape, and back. *)
Fixpoint flat_index (s idx : list nat) : nat :=
  match s, idx with
  | _ :: s', i :: idx' => (i * Meta.numel s' + flat_index s' idx')%nat
  | _, _ => 0%nat
  end.

Fixpoint unflat_index (s : list nat) (k : nat) : list nat :=
  match s with
  | [] => []
  | _ :: s' => (k / Meta.numel s')%nat :: unflat_index s' (k mod Meta.numel s')%nat
  end.

Definition view (x : rtensor) (dims : list Z) : result string rtensor :=
  match Meta.view (rshape x) dims with
  | Ok s => Ok {| rshape := s;
                  rval := λ idx, rval x (unflat_index (rshape x) (flat_index s idx)) |}
  | Raise e => Raise e
  end.

(** The index into an operand of a broadcast operation. *)
Definition broadcast_index (s idx : list nat) : list nat :=
  zip_with (λ d i, if (d =? 1)%nat then 0%nat else i) s
           (drop (length idx - length s)%nat idx).

Definition broadcast2 (f : R → R → R) (x y : rtensor) : result string rtensor :=
  lift (Meta.broadcast (rshape x) (rshape y))
       (λ idx, f (rval x (broadcast_index (rshape x) idx))
                 (rval y (broadcast_index (rshape y) idx))).

Definition mm (x y : rtensor) : result string rtensor :=
  lift (Meta.mm (rshape x) (rshape y))
       (λ idx, match idx with
               | [i; j] => rsum (dim x 1) (λ k, rval x [i; k] * rval y [k; j])
               | _ => 0
               end).

Definition transpose (x : rtensor) : result string rtensor :=
  lift (Meta.transpose (rshape x))
       (match rshape x with
        | [_; _] => λ idx, match idx with
                           | [i; j] => rval x [j; i]
                           | _ => 0
                           end
        | _ => rval x
        end).

Definition softmax (x : rtensor) (d : nat) : result string rtensor :=
  lift (Meta.softmax (rshape x) d)
       (λ idx, exp (rval x idx) / rsum (dim x d) (λ k, exp (rval x (<[d := k]> idx)))).

Definition bernoulli (p : rtensor) (g : noise) : result string (rtensor * noise) :=
  Ok ({| rshape := rshape p;
         rval := λ idx, if Rlt_dec (frac_part (g O idx)) (rval p idx) then 1 else 0 |},
      advance g).

Definition uniform_sample (dims : list Z) (g : noise) : result string (rtensor * noise) :=
  (λ s, ({| rshape := s; rval := λ idx, frac_part (g O idx) |}, advance g)) <$>
  Meta.uniform_sample dims.

Fixpoint cat_val (ts : list rtensor) (i : nat) (r : list nat) : R :=
  match ts with
  | [] => 0
  | x :: ts' =>
    if (i <? dim x 0)%nat then rval x (i :: r) else cat_val ts' (i - dim x 0)%nat r
  end.

Definition cat (ts : list rtensor) : result string rtensor :=
  lift (Meta.cat (rshape <$> ts))
       (λ idx, match idx with
               | i :: r => cat_val ts i r
               | [] => 0
               end).

Definition iter (x : rtensor) : result string (list rtensor) :=
  match rshape x with
  | [] => Raise "iteration over a 0-d tensor"%string
  | n :: rest =>
    Ok ((λ i, {| rshape := rest; rval := λ r, rval x (i :: r) |}) <$> seq 0 n)
  end.

Definition const (s : list nat) (c : R) : rtensor := {| rshape := s; rval := λ _, c |}.

Lemma batch_norm_value_training x rm rv w b :
  batch_norm x rm rv w b true = batch_norm x None None w b true.
Proof. reflexivity. Qed.

Definition torch : Torch := {|
  tensor := rtensor;
  generator := noise;
  scalar := R;
  torch_error := string;
  float_of_Z := IZR;
  shape := rshape;
  Tensor_size := λ x, Meta.size (rshape x);
  F_conv2d := conv2d;
  F_conv_transpose2d := conv_transpose2d;
  F_batch_norm := batch_norm;
  F_relu := pointwise (Rmax 0);
  F_max_pool2d := max_pool2d;
  F_linear := linear;
  F_hardtanh := pointwise (λ v, Rmax (-1) (Rmin 1 v));
  F_tanh := pointwise tanh;
  VF_lstm_cell := lstm_cell;
  Tensor_view := view;
  torch_zeros := λ s, Ok (const s 0);
  torch_zeros_like := λ x, Ok (const (rshape x) 0);
  Tensor_cuda := Ok;
  Tensor_double := Ok;
  Tensor_add := broadcast2 Rplus;
  Tensor_mul := broadcast2 Rmult;
  Tensor_add_scalar := λ x s, pointwise (λ v, v + s) x;
  Tensor_div_scalar := λ x s, pointwise (λ v, v / s) x;
  Tensor_rmul_scalar := λ s x, pointwise (λ v, s * v) x;
  torch_mm := mm;
  Tensor_t := transpose;
  Tensor_softmax := softmax;
  torch_round := pointwise round_half_even;
  torch_bernoulli := bernoulli;
  Uniform_sample := uniform_sample;
  torch_cat := cat;
  Tensor_iter := iter;
  init_ones := λ s, const s 1;
  init_zeros := λ s, const s 0;
  init_uniform := λ s g, ({| rshape := s; rval := g O |}, advance g);
  F_batch_norm_training := batch_norm_value_training;
|}.

End Real.

(** * Notions used by the statements *)

(** ** Failures *)

Section Failures.
Context {TE : Type}.

(** Computations all of whose failures satisfy [P]. *)
Definition raises_only {A} (P : exn TE → Prop) (m : result (exn TE) A) : Prop :=
  ∀ e, m = Raise e → P e.

Definition is_TorchError (e : exn TE) : Prop := ∃ te, e = TorchError te.

Definition is_IndexError (e : exn TE) : Prop := ∃ msg, e = IndexError msg.

Definition not_ValueError (e : exn TE) : Prop := ∀ msg, e ≠ ValueError msg.

End Failures.

(** ** FewShotClassifier: hyper-parameters and keys *)

Section Keys.
Context {T : Torch}.

(** The hyper-parameters that [conv_block] fixes: padding 1 and a 2x2
    pooling of stride 2.  An optimiser changes parameters, never these. *)
Definition block_configured (b : ConvBlock) : Prop :=
  nn.Conv2d_padding (cb_0 b) = 1 ∧ cb_3 b = {| nn.kernel_size := 2; nn.stride := 2 |}.

Definition configured (self : FewShotClassifier.t) : Prop :=
  block_configured (FewShotClassifier.conv1 self) ∧
  block_configured (FewShotClassifier.conv2 self) ∧
  block_configured (FewShotClassifier.conv3 self) ∧
  block_configured (FewShotClassifier.conv4 self).

(** The keys that [functional_forward] reads with [weights[key]], in the
    order of the lookups. *)
Definition required_keys : list string :=
  [ "conv1.0.weight"; "conv1.0.bias"; "conv2.0.weight"; "conv2.0.bias";
    "conv3.0.weight"; "conv3.0.bias"; "conv4.0.weight"; "conv4.0.bias";
    "logits.weight"; "logits.bias" ].

(** The keys it reads with [weights.get(key)]. *)
Definition optional_keys : list string :=
  [ "conv1.1.weight"; "conv1.1.bias"; "conv2.1.weight"; "conv2.1.bias";
    "conv3.1.weight"; "conv3.1.bias"; "conv4.1.weight"; "conv4.1.bias" ].

(** The failure is the [KeyError] of a required key that [w] lacks. *)
Definition missing_key (w : gmap string tensor) (e : exn torch_error) : Prop :=
  ∃ k, e = KeyError k ∧ k ∈ required_keys ∧ w !! k = None.

(** The error of a call of [binary_space_decoder] that leaves out [n_noise]. *)
Definition missing_n_noise : exn torch_error :=
  TypeError "binary_space_decoder() missing 1 required positional argument: 'n_noise'".

(** The result of a construction, with [n_conv_layers] of the module replaced. *)
Definition relabel (n : Z)
  (r : result (exn torch_error) (SemanticBinaryClassifier.t * generator))
  : result (exn torch_error) (SemanticBinaryClassifier.t * generator) :=
  (λ mg, (SemanticBinaryClassifier.with_n_conv_layers n mg.1, mg.2)) <$> r.

End Keys.

(** ** AttentionLSTM: the refinement as the spec words it

    [n] support embeddings and [b] queries of dimension [d] are given by
    their entries; [cell] is one update of the recurrent cell, from an input
    and an incoming state [(h, c)] to the new [(h_hat, c)]. *)

Module AttentionSpec.
Section Spec.
Local Open Scope R_scope.

Variables (n b d : nat) (support queries : nat → nat → R).
Variable cell :
  (nat → nat → R) → (nat → nat → R) * (nat → nat → R) →
  (nat → nat → R) * (nat → nat → R).

Definition zero : nat → nat → R := λ _ _, 0.

Definition plus (f g : nat → nat → R) : nat → nat → R := λ i j, f i j + g i j.

(** Unnormalised attention scores: the dot product of [h] against every
    support embedding. *)
Definition scores (h : nat → nat → R) : nat → nat → R :=
  λ i j, Real.rsum d (λ k, h i k * support j k).

(** Softmax over the support dimension. *)
Definition attention (h : nat → nat → R) : nat → nat → R :=
  λ i j, exp (scores h i j) / Real.rsum n (λ j', exp (scores h i j')).

(** The attention-weighted sum of the support embeddings. *)
Definition readout (h : nat → nat → R) : nat → nat → R :=
  λ i k, Real.rsum n (λ j, attention h i j * support j k).

Definition step (state : (nat → nat → R) * (nat → nat → R))
  : (nat → nat → R) * (nat → nat → R) :=
  let h := plus state.1 queries in
  cell queries (plus h (readout h), state.2).

Fixpoint unroll (steps : nat) (state : (nat → nat → R) * (nat → nat → R))
  : (nat → nat → R) * (nat → nat → R) :=
  match steps with
  | O => state
  | S k => unroll k (step state)
  end.

Definition refine (steps : nat) : nat → nat → R :=
  plus (unroll steps (zero, zero)).1 queries.

End Spec.
End AttentionSpec.

Section RealNotions.
Local Open Scope R_scope.

(** The entries of a matrix, and the matrix of given entries. *)
Definition entries (x : Real.rtensor) : nat → nat → R := λ i j, Real.rval x [i; j].

Definition matrix (rows cols : nat) (f : nat → nat → R) : Real.rtensor :=
  {| Real.rshape := [rows; cols];
     Real.rval := λ idx, match idx with
                         | [i; j] => f i j
                         | _ => 0
                         end |}.

(** One update of the module's recurrent cell on matrices of [b] rows. *)
Definition cell_update (cell : nn.LSTMCell (T:=Real.torch)) (b d : nat)
  (x : nat → nat → R) (hx : (nat → nat → R) * (nat → nat → R))
  : (nat → nat → R) * (nat → nat → R) :=
  let args := (matrix b d hx.1, matrix b d hx.2) in
  (entries {| Real.rshape := [b; d];
              Real.rval := Real.lstm_h (matrix b d x) args (nn.weight_ih cell)
                             (nn.weight_hh cell) (nn.bias_ih cell) (nn.bias_hh cell) |},
   entries {| Real.rshape := [b; d];
              Real.rval := Real.lstm_c (matrix b d x) args (nn.weight_ih cell)
                             (nn.weight_hh cell) (nn.bias_ih cell) (nn.bias_hh cell) |}).

(** A tensor of shape [[b; d]] whose entries are those of [f]. *)
Definition agree (b d : nat) (x : Real.rtensor) (f : nat → nat → R) : Prop :=
  Real.rshape x = [b; d] ∧ ∀ i j, (i < b)%nat → (j < d)%nat → Real.rval x [i; j] = f i j.

(** Every element of the tensor is 0 or 1. *)
Definition binary (y : Real.rtensor) : Prop :=
  ∀ idx, Real.rval y idx = 0 ∨ Real.rval y idx = 1.

(** Every entry of a rank-4 tensor is [v]. *)
Definition all4 (y : Real.rtensor) (v : R) : Prop :=
  ∀ n c i j, Real.rval y [n; c; i; j] = v.

(** The results of the four operators of a convolutional block. *)
Definition conv_out (b : ConvBlock (T:=Real.torch)) (x : Real.rtensor) (s : list nat)
  : Real.rtensor :=
  {| Real.rshape := s;
     Real.rval := Real.conv2d_val x (nn.Conv2d_weight (cb_0 b))
                    (Some (nn.Conv2d_bias (cb_0 b))) 1 |}.

Definition bn_out (b : ConvBlock (T:=Real.torch)) (y : Real.rtensor) : Real.rtensor :=
  {| Real.rshape := Real.rshape y;
     Real.rval := Real.batch_norm_val y (Some (nn.running_mean (cb_1 b)))
                    (Some (nn.running_var (cb_1 b)))
                    (Some (nn.BatchNorm2d_weight (cb_1 b)))
                    (Some (nn.BatchNorm2d_bias (cb_1 b)))
                    (nn.BatchNorm2d_training (cb_1 b)) |}.

Definition relu_out (y : Real.rtensor) : Real.rtensor :=
  {| Real.rshape := Real.rshape y; Real.rval := λ idx, Rmax 0 (Real.rval y idx) |}.

Definition pool_out (y : Real.rtensor) (s : list nat) : Real.rtensor :=
  {| Real.rshape := s;
     Real.rval := λ idx,
       match idx with
       | [n; c; i; j] =>
         Real.rmaxn 2 (λ u, Real.rmaxn 2 (λ v,
           Real.rval y [n; c; (i * 2 + u)%nat; (j * 2 + v)%nat]))
       | _ => 0
       end |}.

Definition block_out (b : ConvBlock (T:=Real.torch)) (x : Real.rtensor) (n o h w : nat)
  : Real.rtensor :=
  pool_out (relu_out (bn_out b (conv_out b x [n; o; h; w])))
    [n; o; (h / 2)%nat; (w / 2)%nat].

(** A classifier on which the two passes differ in evaluation mode.  Every
    convolution has zero weights; the last one has bias 1, the others bias
    0.  The batch normalisations hold their initial scale, shift and
    running averages.  The head sums the 64 features. *)
Definition zero_block (cin : nat) (β : R) (training : bool) : ConvBlock (T:=Real.torch) :=
  @Build_ConvBlock Real.torch
    (@nn.Build_Conv2d Real.torch (Real.const [64; cin; 3; 3]%nat 0)
       (Real.const [64]%nat β) 1)
    (@nn.Build_BatchNorm2d Real.torch (Real.const [64]%nat 1) (Real.const [64]%nat 0)
       (Real.const [64]%nat 0) (Real.const [64]%nat 1) training)
    {| nn.kernel_size := 2; nn.stride := 2 |}.

Definition zero_classifier (training : bool) : FewShotClassifier.t (T:=Real.torch) :=
  @FewShotClassifier.Build_t Real.torch
    (zero_block 1 0 training) (zero_block 64 0 training) (zero_block 64 0 training)
    (zero_block 64 1 training)
    (@nn.Build_Linear Real.torch (Real.const [5; 64]%nat 1) (Real.const [5]%nat 0)).

Definition zero_images : Real.rtensor := Real.const [2; 1; 28; 28]%nat 0.

(** The value of every feature after the last block, in each mode. *)
Definition feature (training : bool) : R :=
  Rmax 0 (if training then 0 else (1 - 0) / sqrt (1 + Real.eps) * 1 + 0).

End RealNotions.

(** ** Pooling layers, the bidirectional LSTM and the matching network

    The operators of the framework that only these layers use are kept in
    interfaces of their own, beside [Torch]. *)

Class TorchPool (T : Torch) : Type := {
  (* F.max_pool1d and F.avg_pool2d, called with a tuple for kernel_size and
     nothing else: the stride is the kernel size, there is no padding *)
  F_max_pool1d : tensor → list nat → result torch_error tensor;
  F_avg_pool2d : tensor → list nat → result torch_error tensor;
}.

Class TorchLSTM (T : Torch) : Type := {
  (* the LSTM of torch.nn over a whole sequence, from a zero initial state,
     with the checks of the input that come before it: the input, then
     input_size, hidden_size, the weights of every layer and direction,
     num_layers and bidirectional; the result is [output, (h_n, c_n)] *)
  VF_lstm :
    tensor → nat → nat → list (tensor * tensor * tensor * tensor) → nat → bool →
    result torch_error (tensor * (tensor * tensor));
  (* x[:, :, start:stop] *)
  Tensor_getitem_last3 : tensor → option Z → option Z → result torch_error tensor;
}.

Section Pooling.
Context {T : Torch} {P : TorchPool T}.

(** [GlobalMaxPool1d.forward]; [input.size()[2:]] is the shape without its
    first two dimensions. *)
Definition GlobalMaxPool1d_forward (input : tensor) : result (exn torch_error) tensor :=
  y ← call (F_max_pool1d input (drop 2 (shape input)));
  c ← call (Tensor_size input 1);
  call (Tensor_view y [(-1)%Z; Z.of_nat c]).

(** [GlobalAvgPool2d.forward] *)
Definition GlobalAvgPool2d_forward (input : tensor) : result (exn torch_error) tensor :=
  y ← call (F_avg_pool2d input (drop 2 (shape input)));
  c ← call (Tensor_size input 1);
  call (Tensor_view y [(-1)%Z; Z.of_nat c]).

End Pooling.

(** [nn.LSTM]: its hyper-parameters and, for every layer and direction in
    turn, [weight_ih], [weight_hh], [bias_ih] and [bias_hh]. *)
Module LSTM.
Section Class.
Context {T : Torch} {L : TorchLSTM T}.

Record t : Type := {
  input_size : nat;
  hidden_size : nat;
  num_layers : nat;
  bidirectional : bool;
  flat_weights : list (tensor * tensor * tensor * tensor);
}.

Definition num_directions (bidirectional : bool) : nat := if bidirectional then 2 else 1.

(** The input width of a layer: the first reads the input, the others the
    outputs of all directions of the layer below. *)
Definition layer_input_size (input_size hidden_size : nat) (bidirectional : bool)
  (layer : nat) : nat :=
  if layer =? 0 then input_size else hidden_size * num_directions bidirectional.

Definition direction_init (in_size hidden_size : nat) (g : generator)
  : (tensor * tensor * tensor * tensor) * generator :=
  let '(wi, g) := init_uniform [4 * hidden_size; in_size] g in
  let '(wh, g) := init_uniform [4 * hidden_size; hidden_size] g in
  let '(bi, g) := init_uniform [4 * hidden_size] g in
  let '(bh, g) := init_uniform [4 * hidden_size] g in
  ((wi, wh, bi, bh), g).

(** The weights of the layers [layer], [layer + 1], ..., one after the other. *)
Fixpoint weights_init (input_size hidden_size : nat) (bidirectional : bool)
  (layers : nat) (layer : nat) (g : generator)
  : list (tensor * tensor * tensor * tensor) * generator :=
  match layers with
  | O => ([], g)
  | S layers' =>
    let in_size := layer_input_size input_size hidden_size bidirectional layer in
    let '(ws, g) :=
      foldl (λ '(ws, g) _,
               let '(w, g) := direction_init in_size hidden_size g in (ws ++ [w], g))
            ([], g) (seq 0 (num_directions bidirectional)) in
    let '(rest, g) :=
      weights_init input_size hidden_size bidirectional layers' (S layer) g in
    (ws ++ rest, g)
  end.

Definition init (input_size hidden_size num_layers : nat) (bidirectional : bool)
  (g : generator) : t * generator :=
  let '(ws, g) := weights_init input_size hidden_size bidirectional num_layers 0 g in
  ({| input_size := input_size; hidden_size := hidden_size; num_layers := num_layers;
      bidirectional := bidirectional; flat_weights := ws |}, g).

(** [self(input, None)] *)
Definition forward (self : t) (input : tensor)
  : result (exn torch_error) (tensor * (tensor * tensor)) :=
  call (VF_lstm input (input_size self) (hidden_size self) (flat_weights self)
          (num_layers self) (bidirectional self)).

End Class.
End LSTM.

Module BidrectionalLSTM.
Section Class.
Context {T : Torch} {L : TorchLSTM T}.

Record t : Type := {
  num_layers : nat;
  batch_size : nat;
  lstm : LSTM.t;
}.

Definition init (size layers : nat) (g : generator) : t * generator :=
  let '(l, g) := LSTM.init size size layers true g in
  ({| num_layers := layers; batch_size := 1; lstm := l |}, g).

Definition forward (self : t) (inputs : tensor)
  : result (exn torch_error) (tensor * tensor * tensor) :=
  '(output, (hn, cn)) ← LSTM.forward (lstm self) inputs;
  forward_output ←
    call (Tensor_getitem_last3 output None (Some (Z.of_nat (LSTM.hidden_size (lstm self)))));
  backward_output ←
    call (Tensor_getitem_last3 output (Some (Z.of_nat (LSTM.hidden_size (lstm self)))) None);
  s ← call (Tensor_add forward_output backward_output);
  output ← call (Tensor_add s inputs);
  mret (output, hn, cn).

End Class.
End BidrectionalLSTM.

Module MatchingNetwork.
Section Class.
Context {T : Torch} {L : TorchLSTM T}.

Record t : Type := {
  n : Z;
  k : Z;
  q : Z;
  fce : bool;
  num_input_channels : nat;
  encoder : FewShotEncoder;
  g : option BidrectionalLSTM.t;
  f : option AttentionLSTM.t;
}.

(** [to(device, dtype=torch.double)] moves and converts the parameters;
    devices and dtypes are not told apart here. *)
Definition init (n k q : Z) (fce : bool) (num_input_channels : nat)
  (lstm_layers lstm_input_size : nat) (unrolling_steps : Z) (gen : generator)
  : t * generator :=
  let '(enc, gen) := get_few_shot_encoder num_input_channels gen in
  let '(g, f, gen) :=
    if fce then
      let '(g, gen) := BidrectionalLSTM.init lstm_input_size lstm_layers gen in
      let '(f, gen) := AttentionLSTM.init lstm_input_size unrolling_steps gen in
      (Some g, Some f, gen)
    else (None, None, gen) in
  ({| n := n; k := k; q := q; fce := fce; num_input_channels := num_input_channels;
      encoder := enc; g := g; f := f |}, gen).

(** [forward]: the body is [pass], the call returns [None]. *)
Definition forward {A} (self : t) (inputs : A) : result (exn torch_error) unit :=
  mret ().

End Class.
End MatchingNetwork.

(** ** The added operators on shapes

    A pooling takes a batch or a single sample, as the framework documents;
    the recurrent network takes a sequence of batches. *)

Module MetaMore.

(** The number of windows of size [k], one after the other, in [l] positions. *)
Definition windows (l k : nat) : nat := (l - k) / k + 1.

Definition max_pool1d (x kernel : list nat) : result string (list nat) :=
  match kernel with
  | [k] =>
    if k =? 0 then Raise "max_pool1d: kernel size must be positive"
    else
      match x with
      | [n; c; l] =>
        if l <? k then Raise "max_pool1d: output size is too small"
        else Ok [n; c; windows l k]
      | [c; l] =>
        if l <? k then Raise "max_pool1d: output size is too small"
        else Ok [c; windows l k]
      | _ => Raise "max_pool1d: expected a 2D or 3D input"
      end
  | _ => Raise "max_pool1d: kernel_size must hold one int"
  end.

(** One int stands for a square kernel. *)
Definition kernel2 (kernel : list nat) : option (nat * nat) :=
  match kernel with
  | [k] => Some (k, k)
  | [kh; kw] => Some (kh, kw)
  | _ => None
  end.

Definition avg_pool2d (x kernel : list nat) : result string (list nat) :=
  match kernel2 kernel with
  | Some (kh, kw) =>
    if (kh =? 0) || (kw =? 0) then Raise "avg_pool2d: kernel size must be positive"
    else
      match x with
      | [n; c; h; w] =>
        if (h <? kh) || (w <? kw) then Raise "avg_pool2d: output size is too small"
        else Ok [n; c; windows h kh; windows w kw]
      | [c; h; w] =>
        if (h <? kh) || (w <? kw) then Raise "avg_pool2d: output size is too small"
        else Ok [c; windows h kh; windows w kw]
      | _ => Raise "avg_pool2d: expected a 3D or 4D input"
      end
  | None => Raise "avg_pool2d: kernel_size must hold one or two ints"
  end.

Definition pool : TorchPool Meta.torch :=
  @Build_TorchPool Meta.torch max_pool1d avg_pool2d.

(** The weights of one direction of a layer of hidden size [hd] that reads
    inputs of width [i]. *)
Definition direction_ok (i hd : nat) (w : list nat * list nat * list nat * list nat)
  : bool :=
  let '(w_ih, w_hh, b_ih, b_hh) := w in
  Meta.shape_eqb w_ih [4 * hd; i] && Meta.shape_eqb w_hh [4 * hd; hd] &&
  Meta.shape_eqb b_ih [4 * hd] && Meta.shape_eqb b_hh [4 * hd].

(** The weights of [layers] layers of [dirs] directions each, the first
    reading inputs of width [i], the others of width [hd * dirs]. *)
Fixpoint weights_ok (i hd dirs layers : nat)
  (ws : list (list nat * list nat * list nat * list nat)) : bool :=
  match layers with
  | O => bool_decide (ws = [])
  | S layers' =>
    forallb (direction_ok i hd) (take dirs ws) && (length (take dirs ws) =? dirs) &&
    weights_ok (hd * dirs) hd dirs layers' (drop dirs ws)
  end.

Definition lstm (x : list nat) (input_size hd : nat)
  (ws : list (list nat * list nat * list nat * list nat))
  (num_layers : nat) (bidirectional : bool)
  : result string (list nat * (list nat * list nat)) :=
  let dirs := if bidirectional then 2 else 1 in
  match x with
  | [l; b; i] =>
    if negb (i =? input_size) then Raise "lstm: input.size(-1) must be equal to input_size"
    else if num_layers =? 0 then Raise "lstm: num_layers must be positive"
    else if negb (weights_ok input_size hd dirs num_layers ws)
    then Raise "lstm: inconsistent weights"
    else if l =? 0 then Raise "lstm: expected sequence length to be larger than 0"
    else Ok ([l; b; dirs * hd], ([num_layers * dirs; b; hd], [num_layers * dirs; b; hd]))
  | _ => Raise "lstm: input must have 3 dimensions"
  end.

(** The bounds of the slice [start:stop] in a dimension of size [d]:
    negative bounds count from the end, all are clamped to the dimension. *)
Definition slice_bound (d : nat) (default : Z) (b : option Z) : nat :=
  match b with
  | None => Z.to_nat default
  | Some z =>
    let z := if (z <? 0)%Z then (Z.of_nat d + z)%Z else z in
    Z.to_nat (Z.min (Z.of_nat d) (Z.max 0 z))
  end.

Definition getitem_last3 (x : list nat) (start stop : option Z)
  : result string (list nat) :=
  match x with
  | a :: b :: d :: rest =>
    let lo := slice_bound d 0 start in
    let hi := slice_bound d (Z.of_nat d) stop in
    Ok (a :: b :: (hi - lo) :: rest)
  | _ => Raise "too many indices for tensor"
  end.

Definition recurrent : TorchLSTM Meta.torch :=
  @Build_TorchLSTM Meta.torch lstm getitem_last3.

End MetaMore.

(** ** The pooling operators on real numbers *)

Module RealMore.
Local Open Scope R_scope.

Definition max_pool1d (x : Real.rtensor) (kernel : list nat) : result string Real.rtensor :=
  Real.lift (MetaMore.max_pool1d (Real.rshape x) kernel)
    (λ idx,
       let k := hd 0%nat kernel in
       Real.rmaxn k (λ u, Real.rval x (removelast idx ++ [(List.last idx 0 * k + u)%nat]))).

Definition avg_pool2d (x : Real.rtensor) (kernel : list nat) : result string Real.rtensor :=
  Real.lift (MetaMore.avg_pool2d (Real.rshape x) kernel)
    (λ idx,
       match MetaMore.kernel2 kernel, rev idx with
       | Some (kh, kw), j :: i :: pre =>
         Real.rsum kh (λ u, Real.rsum kw (λ v,
           Real.rval x (rev pre ++ [(i * kh + u)%nat; (j * kw + v)%nat])))
         / INR (kh * kw)
       | _, _ => 0
       end).

Definition pool : TorchPool Real.torch :=
  @Build_TorchPool Real.torch max_pool1d avg_pool2d.

End RealMore.

(** ** Notions used by the further properties *)

Section ActivationNotions.
Context {T : Torch}.

(** What follows the unpacking in [forward] of either activation. *)
Definition activate (estimator : string) (binarizer : option binarizer_t)
  (x slope : pyval) (g : generator) : result (exn torch_error) (pyval * generator) :=
  x ← py_mul slope x;
  x ← Hardsigmoid.forward x;
  b ← getattr "binarizer" binarizer;
  '(x, g) ← call_binarizer b x g;
  if String.eqb estimator "REINFORCE" then py_sample x g else mret (x, g).

(** The activation that the constructors of the classifier and of the
    auto-encoder build (estimator ['ST']), applied to [[x, slope]]. *)
Definition st_activation (stochastic : bool) (x : tensor) (slope : scalar) (g : generator)
  : result (exn torch_error) (tensor * generator) :=
  x ← call (Tensor_rmul_scalar slope x);
  p ← Hardsigmoid.forward x;
  if stochastic then BernoulliST p g else RoundST p g.

(** The convolutional part of a classifier, as an encoder. *)
Definition encoder_of (self : FewShotClassifier.t) : FewShotEncoder :=
  {| enc_0 := FewShotClassifier.conv1 self; enc_1 := FewShotClassifier.conv2 self;
     enc_2 := FewShotClassifier.conv3 self; enc_3 := FewShotClassifier.conv4 self |}.

End ActivationNotions.

(** The four blocks of the few-shot networks on shapes, as their
    constructors build them. *)
Definition four_blocks (c : nat) (x : list nat) : result (exn string) (list nat) :=
  x1 ← ConvBlock_forward (T:=Meta.torch) (conv_block (T:=Meta.torch) c 64 3 tt).1 x;
  x2 ← ConvBlock_forward (T:=Meta.torch) (conv_block (T:=Meta.torch) 64 64 3 tt).1 x1;
  x3 ← ConvBlock_forward (T:=Meta.torch) (conv_block (T:=Meta.torch) 64 64 3 tt).1 x2;
  ConvBlock_forward (T:=Meta.torch) (conv_block (T:=Meta.torch) 64 64 3 tt).1 x3.

Section BuiltNotions.
Local Open Scope R_scope.

(** The function that [Hardsigmoid.forward] applies to every element. *)
Definition hardsigmoid (v : R) : R := (Rmax (-1) (Rmin 1 v) + 1) / 2.

(** The shapes and hyper-parameters of a block of [conv_block(c, o)], of a
    block of [deconv_block(c, o)] and of a layer [nn.Linear(i, o)], as the
    constructors fix them; the values of the parameters are free. *)
Definition block_built (c o : nat) (b : ConvBlock (T:=Real.torch)) : Prop :=
  Real.rshape (nn.Conv2d_weight (cb_0 b)) = [o; c; 3; 3]%nat ∧
  Real.rshape (nn.Conv2d_bias (cb_0 b)) = [o] ∧
  nn.Conv2d_padding (cb_0 b) = 1%nat ∧
  Real.rshape (nn.BatchNorm2d_weight (cb_1 b)) = [o] ∧
  Real.rshape (nn.BatchNorm2d_bias (cb_1 b)) = [o] ∧
  Real.rshape (nn.running_mean (cb_1 b)) = [o] ∧
  Real.rshape (nn.running_var (cb_1 b)) = [o] ∧
  cb_3 b = {| nn.kernel_size := 2; nn.stride := 2 |}.

Definition deconv_built (c o : nat) (b : DeconvBlock (T:=Real.torch)) : Prop :=
  Real.rshape (nn.ConvTranspose2d_weight (db_0 b)) = [c; o; 3; 3]%nat ∧
  Real.rshape (nn.ConvTranspose2d_bias (db_0 b)) = [o] ∧
  nn.ConvTranspose2d_padding (db_0 b) = 1%nat ∧
  Real.rshape (nn.BatchNorm2d_weight (db_1 b)) = [o] ∧
  Real.rshape (nn.BatchNorm2d_bias (db_1 b)) = [o] ∧
  Real.rshape (nn.running_mean (db_1 b)) = [o] ∧
  Real.rshape (nn.running_var (db_1 b)) = [o].

Definition linear_built (i o : nat) (l : nn.Linear (T:=Real.torch)) : Prop :=
  Real.rshape (nn.Linear_weight l) = [o; i] ∧ Real.rshape (nn.Linear_bias l) = [o].

(** An attribute that a constructor assigns under a condition. *)
Definition assigned_when {A} (cond : bool) (P : A → Prop) (o : option A) : Prop :=
  if cond then ∃ a, o = Some a ∧ P a else True.

(** The width of the flattened features that [SemanticBinaryClassifier.__init__]
    writes down for each depth (its variable [n]). *)
Definition dense_width (n_conv_layers : Z) : nat :=
  if (n_conv_layers >=? 4)%Z then 64
  else if (n_conv_layers >=? 3)%Z then 576
  else if (n_conv_layers >=? 2)%Z then 3136
  else 12544.

(** A [SemanticBinaryClassifier(c, k, _, sd, sb, st, n)] as [__init__]
    leaves it, up to the values of its parameters. *)
Definition classifier_built (c k : nat) (sd : option nat) (sb : nat) (st : bool) (n : Z)
  (m : SemanticBinaryClassifier.t (T:=Real.torch)) : Prop :=
  block_built c 64 (SemanticBinaryClassifier.conv1 m) ∧
  assigned_when (n >=? 2)%Z (block_built 64 64) (SemanticBinaryClassifier.conv2 m) ∧
  assigned_when (n >=? 3)%Z (block_built 64 64) (SemanticBinaryClassifier.conv3 m) ∧
  assigned_when (n >=? 4)%Z (block_built 64 64) (SemanticBinaryClassifier.conv4 m) ∧
  SemanticBinaryClassifier.n_conv_layers m = n ∧
  match sd with
  | Some size =>
    SemanticBinaryClassifier.dense_layer_before_bin m = true ∧
    assigned_when true (linear_built (dense_width n) size)
      (SemanticBinaryClassifier.dense1 m) ∧
    linear_built size sb (SemanticBinaryClassifier.dense2 m)
  | None =>
    SemanticBinaryClassifier.dense_layer_before_bin m = false ∧
    linear_built (dense_width n) sb (SemanticBinaryClassifier.dense2 m)
  end ∧
  binary_act_init (T:=Real.torch) st = Ok (SemanticBinaryClassifier.binary_act m) ∧
  linear_built sb k (SemanticBinaryClassifier.logits m).

(** The decoder of a [SemanticBinaryAutoEncoder] as [__init__] leaves it,
    up to the values of its parameters. *)
Definition decoder_built (self : SemanticBinaryAutoEncoder.t (T:=Real.torch)) : Prop :=
  deconv_built 64 64 (SemanticBinaryAutoEncoder.deconv1 self) ∧
  deconv_built 64 64 (SemanticBinaryAutoEncoder.deconv2 self) ∧
  Real.rshape (nn.ConvTranspose2d_weight (SemanticBinaryAutoEncoder.deconv3 self))
  = [64; 64; 3; 3]%nat ∧
  Real.rshape (nn.ConvTranspose2d_bias (SemanticBinaryAutoEncoder.deconv3 self)) = [64]%nat ∧
  nn.ConvTranspose2d_padding (SemanticBinaryAutoEncoder.deconv3 self) = 0%nat.

End BuiltNotions.

(** * Properties *)

(** ** The monad *)

Section MonadFacts.
Context {TE : Type}.

Lemma bind_Ok {A B} (a : A) (k : A → result (exn TE) B) : (Ok a ≫= k) = k a.
Proof. reflexivity. Qed.

Lemma bind_Raise {A B} (e : exn TE) (k : A → result (exn TE) B) :
  (Raise e ≫= k) = Raise e.
Proof. reflexivity. Qed.

Lemma bind_inv_Ok {A B} (m : result (exn TE) A) (k : A → result (exn TE) B) b :
  m ≫= k = Ok b → ∃ a, m = Ok a ∧ k a = Ok b.
Proof. destruct m as [a|e]; intros H; [eauto | discriminate H]. Qed.

Lemma bind_inv_Raise {A B} (m : result (exn TE) A) (k : A → result (exn TE) B) e :
  m ≫= k = Raise e → m = Raise e ∨ ∃ a, m = Ok a ∧ k a = Raise e.
Proof.
  destruct m as [a|e']; simpl; intros H; [right; eauto | left].
  injection H as ->. reflexivity.
Qed.

Lemma bind_mret {A} (m : result (exn TE) A) : (m ≫= λ a, mret a) = m.
Proof. destruct m; reflexivity. Qed.

Lemma raises_only_call {A} (r : result TE A) : raises_only is_TorchError (call r).
Proof. intros e; destruct r; simpl; intros [= <-]; red; eauto. Qed.

Lemma raises_only_Ok {A} (P : exn TE → Prop) (a : A) : raises_only P (Ok a).
Proof. intros e [=]. Qed.

Lemma raises_only_weaken {A} (P Q : exn TE → Prop) (m : result (exn TE) A) :
  (∀ e, P e → Q e) → raises_only P m → raises_only Q m.
Proof. intros HPQ Hm e He. apply HPQ, Hm, He. Qed.

Lemma raises_only_bind {A B} (P : exn TE → Prop) (m : result (exn TE) A) (k : A → result (exn TE) B) :
  raises_only P m → (∀ a, raises_only P (k a)) → raises_only P (m ≫= k).
Proof.
  intros Hm Hk e He. apply bind_inv_Raise in He as [He | (a & _ & He)].
  - exact (Hm e He).
  - exact (Hk a e He).
Qed.

Lemma raises_only_for_each {A B} (P : exn TE → Prop) (xs : list A) (body : B → A → result (exn TE) B) acc :
  (∀ b a, raises_only P (body b a)) → raises_only P (for_each xs body acc).
Proof.
  intros Hbody. revert acc. induction xs as [|x xs IH]; intros acc; simpl.
  - apply raises_only_Ok.
  - apply raises_only_bind; [apply Hbody | exact IH].
Qed.

Lemma raises_only_tuple_getitem tup i :
  raises_only is_IndexError (tuple_getitem (TE:=TE) tup i).
Proof.
  intros e. unfold tuple_getitem.
  repeat case_match; intros [= <-]; red; eauto.
Qed.

Lemma tuple_getitem_last (tup : list nat) :
  tuple_getitem (TE:=TE) tup (-1) =
  match last tup with
  | Some d => Ok d
  | None => Raise (IndexError "tuple index out of range")
  end.
Proof.
  unfold tuple_getitem. rewrite last_lookup.
  destruct tup as [|d tup]; [reflexivity|].
  change (-1 <? 0)%Z with true. cbv iota.
  cbn [length Nat.pred].
  destruct (Z.ltb_spec (Z.of_nat (S (length tup)) + -1) 0); [lia|].
  destruct (Z.leb_spec (Z.of_nat (S (length tup)))
              (Z.of_nat (S (length tup)) + -1)); [lia|].
  cbn [orb].
  replace (Z.to_nat (Z.of_nat (S (length tup)) + -1)) with (length tup) by lia.
  destruct ((d :: tup) !! length tup); reflexivity.
Qed.

Lemma TorchError_not_ValueError (e : exn TE) : is_TorchError e → not_ValueError e.
Proof. intros [te ->] msg [=]. Qed.

Lemma IndexError_not_ValueError (e : exn TE) : is_IndexError e → not_ValueError e.
Proof. intros [m ->] msg [=]. Qed.

End MonadFacts.

(** ** Shapes *)

Module MetaFacts.

Lemma opt_is_Some c : Meta.opt_is c (Some [c]) = true.
Proof. unfold Meta.opt_is, Meta.shape_eqb. apply bool_decide_eq_true. reflexivity. Qed.

Lemma shape_eqb_refl s : Meta.shape_eqb s s = true.
Proof. apply bool_decide_eq_true. reflexivity. Qed.

Lemma view_flatten n rest :
  0 < n → Meta.view (n :: rest) [Z.of_nat n; (-1)%Z] = Ok [n; Meta.numel rest].
Proof.
  intros Hn. unfold Meta.view.
  assert (Hf1 : filter (λ d : Z, d ≠ (-1)%Z) [Z.of_nat n; (-1)%Z] = [Z.of_nat n]).
  { rewrite filter_cons_True by lia. rewrite filter_cons_False by (intros H; apply H; reflexivity).
    reflexivity. }
  assert (Hf2 : filter (λ d : Z, d = (-1)%Z) [Z.of_nat n; (-1)%Z] = [(-1)%Z]).
  { rewrite filter_cons_False by lia. rewrite filter_cons_True by reflexivity. reflexivity. }
  rewrite Hf1, Hf2. cbn [foldr length existsb orb].
  destruct (Z.ltb_spec (Z.of_nat n) (-1)); [lia|].
  cbn [orb]. change (-1 <? -1)%Z with false. cbv iota.
  rewrite Z.mul_1_r.
  destruct (Z.eqb_spec (Z.of_nat n) 0); [lia|].
  change (Meta.numel (n :: rest)) with (n * Meta.numel rest).
  rewrite Nat2Z.inj_mul, Z.mul_comm, Z.mod_mul by lia.
  cbn [negb Z.eqb]. cbn [fmap list_fmap].
  destruct (Z.eqb_spec (Z.of_nat n) (-1)); [lia|].
  change (-1 =? -1)%Z with true. cbv iota.
  rewrite Z.div_mul by lia. rewrite !Nat2Z.id. reflexivity.
Qed.

Lemma size_0 n rest : Meta.size (n :: rest) 0 = Ok n.
Proof. reflexivity. Qed.

Lemma conv2d_ok n c h w o kh kw p :
  0 < kh → 0 < kw → kh ≤ h + 2 * p → kw ≤ w + 2 * p →
  Meta.conv2d [n; c; h; w] [o; c; kh; kw] (Some [o]) p
  = Ok [n; o; h + 2 * p - kh + 1; w + 2 * p - kw + 1].
Proof.
  intros Hkh Hkw Hh Hw. unfold Meta.conv2d.
  rewrite Nat.eqb_refl, opt_is_Some. cbn [negb].
  destruct (Nat.eqb_spec kh 0); [lia|]. destruct (Nat.eqb_spec kw 0); [lia|].
  destruct (Nat.ltb_spec (h + 2 * p) kh); [lia|].
  destruct (Nat.ltb_spec (w + 2 * p) kw); [lia|].
  reflexivity.
Qed.

Lemma batch_norm_train_ok n c rest rm rv :
  n * Meta.numel rest ≠ 1 →
  Meta.batch_norm (n :: c :: rest) rm rv (Some [c]) (Some [c]) true
  = Ok (n :: c :: rest).
Proof.
  intros Hn. unfold Meta.batch_norm. rewrite opt_is_Some. cbn [andb negb].
  destruct (Nat.eqb_spec (n * Meta.numel rest) 1); [contradiction | reflexivity].
Qed.

Lemma batch_norm_eval_ok n c rest :
  Meta.batch_norm (n :: c :: rest) (Some [c]) (Some [c]) (Some [c]) (Some [c]) false
  = Ok (n :: c :: rest).
Proof.
  unfold Meta.batch_norm. rewrite opt_is_Some, shape_eqb_refl. reflexivity.
Qed.

Lemma max_pool2d_ok n c h w :
  2 ≤ h → 2 ≤ w → Meta.max_pool2d [n; c; h; w] 2 2 = Ok [n; c; h / 2; w / 2].
Proof.
  intros Hh Hw. unfold Meta.max_pool2d. cbn [Nat.eqb orb].
  destruct (Nat.ltb_spec h 2); [lia|]. destruct (Nat.ltb_spec w 2); [lia|].
  cbn [orb]. do 2 f_equal.
  assert (Hhalf : ∀ k, 2 ≤ k → (k - 2) / 2 + 1 = k / 2).
  { intros k Hk. replace k with (1 * 2 + (k - 2)) at 2 by lia.
    rewrite Nat.div_add_l by lia. lia. }
  rewrite !Hhalf by assumption. reflexivity.
Qed.

(** A convolutional block (3x3 kernel, padding 1, then 2x2 pooling) halves
    the height and the width. *)
Lemma conv_block_forward_shape (b : ConvBlock (T:=Meta.torch)) n c h w o :
  nn.Conv2d_weight (cb_0 b) = [o; c; 3; 3] → nn.Conv2d_bias (cb_0 b) = [o] →
  nn.Conv2d_padding (cb_0 b) = 1 →
  nn.BatchNorm2d_weight (cb_1 b) = [o] → nn.BatchNorm2d_bias (cb_1 b) = [o] →
  nn.running_mean (cb_1 b) = [o] → nn.running_var (cb_1 b) = [o] →
  cb_3 b = {| nn.kernel_size := 2; nn.stride := 2 |} →
  2 ≤ h → 2 ≤ w →
  ConvBlock_forward b [n; c; h; w] = Ok [n; o; h / 2; w / 2].
Proof.
  intros Hw0 Hb0 Hp Hw1 Hb1 Hrm Hrv Hpool Hh Hw.
  unfold ConvBlock_forward, nn.Conv2d_forward, nn.BatchNorm2d_forward, nn.ReLU_forward,
    nn.MaxPool2d_forward.
  rewrite Hw0, Hb0, Hp, Hw1, Hb1, Hrm, Hrv, Hpool.
  cbn [F_conv2d F_batch_norm F_relu F_max_pool2d Meta.torch nn.kernel_size nn.stride].
  rewrite conv2d_ok by lia.
  replace (h + 2 * 1 - 3 + 1) with h by lia. replace (w + 2 * 1 - 3 + 1) with w by lia.
  cbn [call mbind result_bind].
  assert (Hne : n * Meta.numel [h; w] ≠ 1).
  { unfold Meta.numel. cbn [foldr].
    intros E. assert (4 ≤ h * (w * 1)) by nia.
    destruct n as [|n']; [lia | nia]. }
  destruct (nn.BatchNorm2d_training (cb_1 b));
    [rewrite batch_norm_train_ok by exact Hne | rewrite batch_norm_eval_ok];
    cbn [call mbind result_bind];
    rewrite max_pool2d_ok by assumption; reflexivity.
Qed.

Lemma conv_block_init_shape cin cout n h w (training : bool) :
  2 ≤ h → 2 ≤ w →
  ConvBlock_forward (T:=Meta.torch)
    (ConvBlock_train training (conv_block (T:=Meta.torch) cin cout 3 tt).1) [n; cin; h; w]
  = Ok [n; cout; h / 2; w / 2].
Proof. intros Hh Hw. apply conv_block_forward_shape; auto. Qed.

End MetaFacts.

(** ** Real sums and the binary activations *)

Module RealFacts.
Local Open Scope R_scope.

Lemma rsum_ext n (f g : nat → R) :
  (∀ k, (k < n)%nat → f k = g k) → Real.rsum n f = Real.rsum n g.
Proof.
  induction n as [|n IH]; intros H; simpl; [reflexivity|].
  rewrite IH by (intros k Hk; apply H; lia). rewrite H by lia. reflexivity.
Qed.

Lemma rsum_const n (c : R) : Real.rsum n (λ _, c) = INR n * c.
Proof.
  induction n as [|n IH]; [simpl; lra|].
  rewrite S_INR. simpl. rewrite IH. lra.
Qed.

Lemma rsum_zero n (f : nat → R) : (∀ k, (k < n)%nat → f k = 0) → Real.rsum n f = 0.
Proof.
  intros H. rewrite (rsum_ext n f (λ _, 0)) by exact H. rewrite rsum_const. lra.
Qed.

Lemma rsum_scal n (f : nat → R) (c : R) :
  Real.rsum n (λ k, f k * c) = Real.rsum n f * c.
Proof. induction n as [|n IH]; simpl; [lra | rewrite IH; lra]. Qed.

Lemma rsum_pos n (f : nat → R) :
  (0 < n)%nat → (∀ k, 0 < f k) → 0 < Real.rsum n f.
Proof.
  intros Hn Hf. induction n as [|n IH]; [lia|].
  simpl. destruct n as [|n'].
  - simpl. specialize (Hf O). lra.
  - specialize (Hf (S n')). assert (0 < Real.rsum (S n') f) by (apply IH; lia). lra.
Qed.

Lemma tsum_ext dims (f g : list nat → R) :
  (∀ r, length r = length dims → f r = g r) → Real.tsum dims f = Real.tsum dims g.
Proof.
  revert f g. induction dims as [|d ds IH]; intros f g H; simpl.
  - apply H. reflexivity.
  - apply rsum_ext. intros i _. apply IH. intros r Hr. apply H. simpl. lia.
Qed.

Lemma tsum_const dims (c : R) : Real.tsum dims (λ _, c) = INR (Meta.numel dims) * c.
Proof.
  induction dims as [|d ds IH]; simpl.
  - lra.
  - rewrite (rsum_ext d _ (λ _, INR (Meta.numel ds) * c)) by (intros; apply IH).
    rewrite rsum_const. change (Meta.numel (d :: ds)) with (d * Meta.numel ds)%nat.
    rewrite mult_INR. lra.
Qed.

(** *** The binary activations *)

Lemma hardsigmoid_range (v : R) :
  0 <= (Rmax (-1) (Rmin 1 v) + 1) / 2 <= 1.
Proof.
  assert (H1 : -1 <= Rmax (-1) (Rmin 1 v)) by apply Rmax_l.
  assert (H2 : Rmax (-1) (Rmin 1 v) <= 1).
  { apply Rmax_lub; [lra | apply Rmin_l]. }
  lra.
Qed.

Lemma round_half_even_unit (p : R) :
  0 <= p <= 1 → Real.round_half_even p = 0 ∨ Real.round_half_even p = 1.
Proof.
  intros [H0 H1]. unfold Real.round_half_even, frac_part.
  destruct (base_Int_part p) as [Hle Hgt].
  assert (Hz : Int_part p = 0%Z ∨ Int_part p = 1%Z).
  { assert (IZR (Int_part p) < IZR 2) by (simpl; lra).
    assert (IZR (-1) < IZR (Int_part p)) by (simpl; lra).
    apply lt_IZR in H, H2. lia. }
  destruct Hz as [Hz | Hz]; rewrite Hz in *; simpl in *.
  - repeat destruct (Rlt_dec _ _); auto.
  - assert (p = 1) by lra. subst p.
    destruct (Rlt_dec (1 - 1) (1 / 2)) as [|Hn]; [auto | exfalso; apply Hn; lra].
Qed.

(** C4.  For every tensor [x] of real numbers and every real [slope], with
    either estimator, [DeterministicBinaryActivation.forward] and
    [StochasticBinaryActivation.forward] return a tensor of the shape of [x]
    whose every element is exactly 0 or 1.  The straight-through variants
    are those of the source; the REINFORCE variants sample from the
    distributions modelled from the spec. *)
Theorem binary_activation_outputs (est : string) (x : Real.rtensor) (slope : R)
  (g : Real.noise) :
  est ∈ ["ST"; "REINFORCE"]%string →
  (∃ m (y : Real.rtensor) (g' : Real.noise),
     DeterministicBinaryActivation.init (T:=Real.torch) est = Ok m ∧
     DeterministicBinaryActivation.forward (T:=Real.torch) m
       (PyList [PyTensor (T:=Real.torch) x; PyFloat (T:=Real.torch) slope]) g
     = Ok (PyTensor (T:=Real.torch) y, g') ∧
     Real.rshape y = Real.rshape x ∧ binary y) ∧
  (∃ m (y : Real.rtensor) (g' : Real.noise),
     StochasticBinaryActivation.init (T:=Real.torch) est = Ok m ∧
     StochasticBinaryActivation.forward (T:=Real.torch) m
       (PyList [PyTensor (T:=Real.torch) x; PyFloat (T:=Real.torch) slope]) g
     = Ok (PyTensor (T:=Real.torch) y, g') ∧
     Real.rshape y = Real.rshape x ∧ binary y).
Proof.
  intros Hest.
  repeat (apply elem_of_cons in Hest as [-> | Hest]); [ | | inversion Hest].
  all: split; do 3 eexists; (split; [reflexivity|]); (split; [reflexivity|]);
    (split; [reflexivity|]); intros idx; cbn [Real.rval].
  all: try (apply round_half_even_unit, hardsigmoid_range).
  all: destruct (Rlt_dec _ _); auto.
Qed.

Lemma binary_activation_outputs_witness :
  "ST" ∈ ["ST"; "REINFORCE"]%string ∧
  ∃ m (y : Real.rtensor) (g' : Real.noise),
    StochasticBinaryActivation.init (T:=Real.torch) "ST" = Ok m ∧
    StochasticBinaryActivation.forward (T:=Real.torch) m
      (PyList [PyTensor (T:=Real.torch) (Real.const [2%nat; 3%nat] (1 / 3));
               PyFloat (T:=Real.torch) 1]) (λ _ _, 0)
    = Ok (PyTensor (T:=Real.torch) y, g') ∧
    Real.rshape y = Real.rshape (Real.const [2%nat; 3%nat] (1 / 3)) ∧ binary y.
Proof.
  split; [left|].
  apply (binary_activation_outputs "ST" (Real.const [2%nat; 3%nat] (1 / 3)) 1 (λ _ _, 0)).
  left.
Defined.

End RealFacts.

(** ** AttentionLSTM: the dimension check *)

Section AttentionCheck.
Context {T : Torch}.

Lemma step_raises (self : AttentionLSTM.t) support queries state k :
  raises_only is_TorchError (AttentionLSTM.step self support queries state k).
Proof.
  destruct state as [h_hat c]. unfold AttentionLSTM.step, nn.LSTMCell_forward.
  repeat (apply raises_only_bind; [apply raises_only_call | intros ?]).
  apply raises_only_call.
Qed.

(** Once the dimension check has passed no [ValueError] is raised. *)
Lemma forward_after_check (self : AttentionLSTM.t) support queries ds :
  last (shape support) = Some ds → last (shape queries) = Some ds →
  raises_only not_ValueError (AttentionLSTM.forward self support queries).
Proof.
  intros Hs Hq. unfold AttentionLSTM.forward.
  rewrite !tuple_getitem_last, Hs, Hq. cbn [mbind result_bind].
  rewrite Nat.eqb_refl. cbn [negb].
  pose proof (TorchError_not_ValueError (TE:=torch_error)) as Ht.
  pose proof (IndexError_not_ValueError (TE:=torch_error)) as Hi.
  repeat (apply raises_only_bind;
          [ first [ eapply raises_only_weaken, raises_only_tuple_getitem; exact Hi
                  | eapply raises_only_weaken, raises_only_call; exact Ht
                  | eapply raises_only_weaken, raises_only_for_each;
                    [exact Ht | intros; apply step_raises] ]
          | first [ intros [? ?] | intros ? ] ]).
  apply raises_only_Ok.
Qed.

(** C3.  [AttentionLSTM.forward] raises its [ValueError] exactly when the
    last dimensions of [support] and [queries] differ.  The statement holds
    for every implementation of the framework, also one whose every operator
    fails: the check is decided before any tensor operation is run.  When
    the sizes match, no [ValueError] at all leaves [forward]. *)
Theorem forward_dimension_check (self : AttentionLSTM.t) (support queries : tensor) :
  (AttentionLSTM.forward self support queries = Raise (ValueError AttentionLSTM.mismatch)
   ↔ ∃ ds dq, last (shape support) = Some ds ∧ last (shape queries) = Some dq ∧ ds ≠ dq)
  ∧ (∀ msg, AttentionLSTM.forward self support queries = Raise (ValueError msg) →
            msg = AttentionLSTM.mismatch).
Proof.
  assert (Hdiff : ∀ ds dq, last (shape support) = Some ds →
            last (shape queries) = Some dq → ds ≠ dq →
            AttentionLSTM.forward self support queries
            = Raise (ValueError AttentionLSTM.mismatch)).
  { intros ds dq Hs Hq Hne. unfold AttentionLSTM.forward.
    rewrite !tuple_getitem_last, Hs, Hq. cbn [mbind result_bind].
    destruct (Nat.eqb_spec ds dq); [contradiction | reflexivity]. }
  assert (Hcases : ∀ msg,
            AttentionLSTM.forward self support queries = Raise (ValueError msg) →
            ∃ ds dq, last (shape support) = Some ds ∧
                     last (shape queries) = Some dq ∧ ds ≠ dq).
  { intros msg H.
    destruct (last (shape support)) as [ds|] eqn:Hs.
    - destruct (last (shape queries)) as [dq|] eqn:Hq.
      + destruct (decide (ds = dq)) as [->|Hne]; [|eauto 6].
        exfalso. exact (forward_after_check self support queries dq Hs Hq _ H msg eq_refl).
      + exfalso. unfold AttentionLSTM.forward in H.
        rewrite !tuple_getitem_last, Hs, Hq in H. discriminate H.
    - exfalso. unfold AttentionLSTM.forward in H.
      rewrite !tuple_getitem_last, Hs in H. discriminate H. }
  split; [split|].
  - apply Hcases.
  - intros (ds & dq & Hs & Hq & Hne). eauto.
  - intros msg H. destruct (Hcases msg H) as (ds & dq & Hs & Hq & Hne).
    rewrite (Hdiff ds dq Hs Hq Hne) in H. congruence.
Qed.
End AttentionCheck.

(** ** The straight-through estimators *)

(** C5.  The backward function registered with [RoundFunctionST] and with
    [BernoulliFunctionST] returns the gradient of the output unchanged,
    whatever the context and whatever the forward function computed. *)
Theorem straight_through_backward_identity {T : Torch} (grad_output : tensor) :
  (∀ ctx, Function_backward (Function:=RoundFunctionST.function) ctx grad_output
          = grad_output) ∧
  (∀ ctx, Function_backward (Function:=BernoulliFunctionST.function) ctx grad_output
          = grad_output) ∧
  (∀ ctx, RoundFunctionST.backward ctx grad_output = grad_output) ∧
  (∀ ctx, BernoulliFunctionST.backward ctx grad_output = grad_output).
Proof. repeat split. Qed.
(** ** FewShotClassifier: forward and functional_forward *)

Section Functional.
Context {T : Torch}.

Lemma init_configured c k f g : configured (FewShotClassifier.init c k f g).1.
Proof.
  unfold FewShotClassifier.init, conv_block, nn.Conv2d_init, nn.Linear_init.
  repeat match goal with
         | |- context [init_uniform ?s ?g] => destruct (init_uniform s g)
         end.
  repeat split.
Qed.

Lemma block_train_functional (b : ConvBlock) (x : tensor) :
  block_configured b →
  ConvBlock_forward (ConvBlock_train true b) x
  = functional_conv_block x (nn.Conv2d_weight (cb_0 b)) (nn.Conv2d_bias (cb_0 b))
      (Some (nn.BatchNorm2d_weight (cb_1 b))) (Some (nn.BatchNorm2d_bias (cb_1 b))).
Proof.
  intros [Hp Hpool].
  unfold ConvBlock_forward, functional_conv_block, nn.Conv2d_forward,
    nn.BatchNorm2d_forward, nn.ReLU_forward, nn.MaxPool2d_forward.
  cbn [ConvBlock_train cb_0 cb_1 cb_3 nn.BatchNorm2d_train nn.BatchNorm2d_weight
       nn.BatchNorm2d_bias nn.running_mean nn.running_var nn.BatchNorm2d_training].
  rewrite Hp, Hpool. cbn [nn.kernel_size nn.stride].
  destruct (call (F_conv2d _ _ _ _)) as [y|e]; [|reflexivity]. cbn [mbind result_bind].
  rewrite F_batch_norm_training.
  destruct (call (F_batch_norm _ _ _ _ _ _)) as [z|e]; [|reflexivity]. cbn [mbind result_bind].
  destruct (call (F_relu _)) as [u|e]; [|reflexivity]. cbn [mbind result_bind].
  rewrite bind_mret. reflexivity.
Qed.

Lemma named_parameters_lookup (self : FewShotClassifier.t) :
  let w := FewShotClassifier.named_parameters self in
  w !! "conv1.0.weight" = Some (nn.Conv2d_weight (cb_0 (FewShotClassifier.conv1 self))) ∧
  w !! "conv1.0.bias" = Some (nn.Conv2d_bias (cb_0 (FewShotClassifier.conv1 self))) ∧
  w !! "conv1.1.weight" = Some (nn.BatchNorm2d_weight (cb_1 (FewShotClassifier.conv1 self))) ∧
  w !! "conv1.1.bias" = Some (nn.BatchNorm2d_bias (cb_1 (FewShotClassifier.conv1 self))) ∧
  w !! "conv2.0.weight" = Some (nn.Conv2d_weight (cb_0 (FewShotClassifier.conv2 self))) ∧
  w !! "conv2.0.bias" = Some (nn.Conv2d_bias (cb_0 (FewShotClassifier.conv2 self))) ∧
  w !! "conv2.1.weight" = Some (nn.BatchNorm2d_weight (cb_1 (FewShotClassifier.conv2 self))) ∧
  w !! "conv2.1.bias" = Some (nn.BatchNorm2d_bias (cb_1 (FewShotClassifier.conv2 self))) ∧
  w !! "conv3.0.weight" = Some (nn.Conv2d_weight (cb_0 (FewShotClassifier.conv3 self))) ∧
  w !! "conv3.0.bias" = Some (nn.Conv2d_bias (cb_0 (FewShotClassifier.conv3 self))) ∧
  w !! "conv3.1.weight" = Some (nn.BatchNorm2d_weight (cb_1 (FewShotClassifier.conv3 self))) ∧
  w !! "conv3.1.bias" = Some (nn.BatchNorm2d_bias (cb_1 (FewShotClassifier.conv3 self))) ∧
  w !! "conv4.0.weight" = Some (nn.Conv2d_weight (cb_0 (FewShotClassifier.conv4 self))) ∧
  w !! "conv4.0.bias" = Some (nn.Conv2d_bias (cb_0 (FewShotClassifier.conv4 self))) ∧
  w !! "conv4.1.weight" = Some (nn.BatchNorm2d_weight (cb_1 (FewShotClassifier.conv4 self))) ∧
  w !! "conv4.1.bias" = Some (nn.BatchNorm2d_bias (cb_1 (FewShotClassifier.conv4 self))) ∧
  w !! "logits.weight" = Some (nn.Linear_weight (FewShotClassifier.logits self)) ∧
  w !! "logits.bias" = Some (nn.Linear_bias (FewShotClassifier.logits self)).
Proof. repeat split; vm_compute; reflexivity. Qed.

Lemma train_forward_is_functional (self : FewShotClassifier.t) (x : tensor) :
  configured self →
  FewShotClassifier.forward (FewShotClassifier.train true self) x
  = FewShotClassifier.functional_forward self x (FewShotClassifier.named_parameters self).
Proof.
  intros (H1 & H2 & H3 & H4).
  destruct (named_parameters_lookup self)
    as (L1 & L2 & L3 & L4 & L5 & L6 & L7 & L8 & L9 & L10 & L11 & L12 & L13 & L14
        & L15 & L16 & L17 & L18).
  unfold FewShotClassifier.functional_forward, FewShotClassifier.forward, for_each,
    getitem, dict_get.
  change ("conv" +:+ str 1 +:+ ".0.weight") with "conv1.0.weight".
  change ("conv" +:+ str 1 +:+ ".0.bias") with "conv1.0.bias".
  change ("conv" +:+ str 1 +:+ ".1.weight") with "conv1.1.weight".
  change ("conv" +:+ str 1 +:+ ".1.bias") with "conv1.1.bias".
  change ("conv" +:+ str 2 +:+ ".0.weight") with "conv2.0.weight".
  change ("conv" +:+ str 2 +:+ ".0.bias") with "conv2.0.bias".
  change ("conv" +:+ str 2 +:+ ".1.weight") with "conv2.1.weight".
  change ("conv" +:+ str 2 +:+ ".1.bias") with "conv2.1.bias".
  change ("conv" +:+ str 3 +:+ ".0.weight") with "conv3.0.weight".
  change ("conv" +:+ str 3 +:+ ".0.bias") with "conv3.0.bias".
  change ("conv" +:+ str 3 +:+ ".1.weight") with "conv3.1.weight".
  change ("conv" +:+ str 3 +:+ ".1.bias") with "conv3.1.bias".
  change ("conv" +:+ str 4 +:+ ".0.weight") with "conv4.0.weight".
  change ("conv" +:+ str 4 +:+ ".0.bias") with "conv4.0.bias".
  change ("conv" +:+ str 4 +:+ ".1.weight") with "conv4.1.weight".
  change ("conv" +:+ str 4 +:+ ".1.bias") with "conv4.1.bias".
  rewrite L1, L2, L3, L4, L5, L6, L7, L8, L9, L10, L11, L12, L13, L14, L15, L16, L17, L18.
  cbn [mbind result_bind FewShotClassifier.train FewShotClassifier.conv1
       FewShotClassifier.conv2 FewShotClassifier.conv3 FewShotClassifier.conv4
       FewShotClassifier.logits].
  do 4 (rewrite block_train_functional by assumption;
        match goal with
        | |- context [functional_conv_block ?a ?b ?c ?d ?e] =>
          destruct (functional_conv_block a b c d e) as [?|?];
          cbn [mbind result_bind]; [|reflexivity]
        end).
  unfold nn.Linear_forward.
  repeat match goal with
         | |- (?m ≫= _) = (?m ≫= _) => destruct m; cbn [mbind result_bind]; [|reflexivity]
         end.
  rewrite bind_mret. reflexivity.
Qed.
(** C1.  With the module in training mode, [forward] and
    [functional_forward] on the module's own parameters, packaged under
    the names of [named_parameters], are the same computation: the same
    result or the same failure.  [functional_forward] reads neither the
    mode nor the running averages, so its result is the same in both modes;
    [forward] in evaluation mode reads the running averages and is not
    covered. *)
Theorem forward_functional_training_mode (self : FewShotClassifier.t) (x : tensor) :
  configured self →
  FewShotClassifier.forward (FewShotClassifier.train true self) x
  = FewShotClassifier.functional_forward (FewShotClassifier.train true self) x
      (FewShotClassifier.named_parameters (FewShotClassifier.train true self))
  ∧ ∀ mode,
      FewShotClassifier.functional_forward (FewShotClassifier.train mode self) x
        (FewShotClassifier.named_parameters (FewShotClassifier.train mode self))
      = FewShotClassifier.functional_forward self x
          (FewShotClassifier.named_parameters self).
Proof.
  intros H. split; [|reflexivity]. exact (train_forward_is_functional self x H).
Qed.

End Functional.

Lemma forward_functional_training_mode_witness :
  let self := (FewShotClassifier.init (T:=Meta.torch) 1 5 64 tt).1 in
  configured self ∧
  FewShotClassifier.forward (FewShotClassifier.train true self) [4; 1; 28; 28]
  = FewShotClassifier.functional_forward (FewShotClassifier.train true self)
      [4; 1; 28; 28]
      (FewShotClassifier.named_parameters (FewShotClassifier.train true self)).
Proof.
  intros self.
  assert (H : configured self) by (repeat split).
  split; [exact H|].
  apply (forward_functional_training_mode (T:=Meta.torch) self [4; 1; 28; 28] H).
Defined.

Module EvalMode.
Import MetaFacts RealFacts.
Local Open Scope R_scope.

Lemma conv_block_forward_real (b : ConvBlock (T:=Real.torch)) (x : Real.rtensor) n c h w o :
  Real.rshape x = [n; c; h; w] →
  Real.rshape (nn.Conv2d_weight (cb_0 b)) = [o; c; 3; 3]%nat →
  Real.rshape (nn.Conv2d_bias (cb_0 b)) = [o] →
  nn.Conv2d_padding (cb_0 b) = 1%nat →
  Real.rshape (nn.BatchNorm2d_weight (cb_1 b)) = [o] →
  Real.rshape (nn.BatchNorm2d_bias (cb_1 b)) = [o] →
  Real.rshape (nn.running_mean (cb_1 b)) = [o] →
  Real.rshape (nn.running_var (cb_1 b)) = [o] →
  cb_3 b = {| nn.kernel_size := 2; nn.stride := 2 |} →
  (2 ≤ h)%nat → (2 ≤ w)%nat →
  ConvBlock_forward b x = Ok (block_out b x n o h w).
Proof.
  intros Hx Hw0 Hb0 Hp Hw1 Hb1 Hrm Hrv Hpool Hh Hw.
  unfold ConvBlock_forward, nn.Conv2d_forward, nn.BatchNorm2d_forward, nn.ReLU_forward,
    nn.MaxPool2d_forward.
  rewrite Hp, Hpool.
  cbn [F_conv2d F_batch_norm F_relu F_max_pool2d Real.torch nn.kernel_size nn.stride].
  assert (Hne : (n * Meta.numel [h; w])%nat ≠ 1%nat).
  { unfold Meta.numel. cbn [foldr].
    intros E. assert (4 ≤ h * (w * 1))%nat by nia.
    destruct n as [|n']; [lia | nia]. }
  unfold Real.conv2d, Real.lift.
  cbn [fmap option_fmap option_map]. rewrite Hx, Hw0, Hb0.
  rewrite conv2d_ok by lia.
  replace (h + 2 * 1 - 3 + 1)%nat with h by lia.
  replace (w + 2 * 1 - 3 + 1)%nat with w by lia.
  cbn [fmap result_fmap call mbind result_bind].
  unfold Real.batch_norm, Real.lift.
  cbn [fmap option_fmap option_map Real.rshape]. rewrite Hw1, Hb1, Hrm, Hrv.
  unfold block_out, bn_out.
  destruct (nn.BatchNorm2d_training (cb_1 b));
    [rewrite batch_norm_train_ok by exact Hne | rewrite batch_norm_eval_ok];
    cbn [fmap result_fmap call mbind result_bind];
    unfold Real.pointwise; cbn [call mbind result_bind];
    unfold Real.max_pool2d, Real.lift; cbn [Real.rshape];
    rewrite max_pool2d_ok by assumption;
    reflexivity.
Qed.


Lemma conv_out_const (b : ConvBlock (T:=Real.torch)) x s (β : R) :
  (∀ idx, Real.rval (nn.Conv2d_weight (cb_0 b)) idx = 0) →
  (∀ idx, Real.rval (nn.Conv2d_bias (cb_0 b)) idx = β) →
  all4 (conv_out b x s) β.
Proof.
  intros Hw Hb n o i j. unfold conv_out, Real.conv2d_val. cbn [Real.rval Real.opt_at].
  rewrite Hb. rewrite rsum_zero; [lra|].
  intros c _. apply rsum_zero. intros u _. apply rsum_zero. intros v _.
  rewrite Hw. lra.
Qed.

Lemma bn_out_eval (b : ConvBlock (T:=Real.torch)) y (v μ σ γ β : R) :
  nn.BatchNorm2d_training (cb_1 b) = false →
  (∀ idx, Real.rval (nn.running_mean (cb_1 b)) idx = μ) →
  (∀ idx, Real.rval (nn.running_var (cb_1 b)) idx = σ) →
  (∀ idx, Real.rval (nn.BatchNorm2d_weight (cb_1 b)) idx = γ) →
  (∀ idx, Real.rval (nn.BatchNorm2d_bias (cb_1 b)) idx = β) →
  all4 y v → all4 (bn_out b y) ((v - μ) / sqrt (σ + Real.eps) * γ + β).
Proof.
  intros Ht Hm Hv Hg Hb Hy n c i j. unfold bn_out, Real.batch_norm_val.
  cbn [Real.rval Real.opt_at]. rewrite Ht, Hm, Hv, Hg, Hb, Hy. reflexivity.
Qed.

Lemma batch_mean_const y (v : R) N C H W ch :
  Real.rshape y = [N; C; H; W] → (N * (H * W) ≠ 0)%nat → all4 y v →
  Real.batch_mean y ch = v.
Proof.
  intros Hs Hne Hy. unfold Real.batch_mean, Real.channel_sum, Real.channel_count, Real.dim.
  rewrite Hs. cbn [nth drop].
  rewrite (rsum_ext N _ (λ _, INR (Meta.numel [H; W]) * v)).
  - rewrite rsum_const, mult_INR. field.
    change (Meta.numel [H; W]) with (H * (W * 1))%nat.
    split; apply not_0_INR; nia.
  - intros k _. rewrite <- tsum_const. apply tsum_ext. intros r Hr.
    destruct r as [|i [|j [|? ?]]]; try discriminate Hr. apply Hy.
Qed.

Lemma bn_out_train (b : ConvBlock (T:=Real.torch)) y (v β : R) N C H W :
  nn.BatchNorm2d_training (cb_1 b) = true →
  Real.rshape y = [N; C; H; W] → (N * (H * W) ≠ 0)%nat →
  (∀ idx, Real.rval (nn.BatchNorm2d_bias (cb_1 b)) idx = β) →
  all4 y v → all4 (bn_out b y) β.
Proof.
  intros Ht Hs Hne Hb Hy n c i j. unfold bn_out, Real.batch_norm_val.
  cbn [Real.rval Real.opt_at]. rewrite Ht, Hb, Hy.
  rewrite (batch_mean_const y v N C H W) by assumption.
  unfold Rdiv. replace (v - v) with 0 by lra. lra.
Qed.

Lemma relu_out_const y (v : R) : all4 y v → all4 (relu_out y) (Rmax 0 v).
Proof. intros Hy n c i j. unfold relu_out. cbn [Real.rval]. rewrite Hy. reflexivity. Qed.

Lemma pool_out_const y s (v : R) : all4 y v → all4 (pool_out y s) v.
Proof.
  intros Hy n c i j. unfold pool_out. cbn [Real.rval Real.rmaxn Real.rmax_upto].
  rewrite !Hy. rewrite !Rmax_left by lra. reflexivity.
Qed.

Lemma last_block_feature (training : bool) (x : Real.rtensor) :
  all4 (block_out (zero_block 64 1 training) x 2 64 3 3) (feature training).
Proof.
  unfold block_out, feature. apply pool_out_const, relu_out_const.
  destruct training.
  - apply (bn_out_train _ _ 1 0 2 64 3 3); try reflexivity; [lia|].
    apply conv_out_const; reflexivity.
  - apply (bn_out_eval _ _ 1 0 1 1 0); try reflexivity.
    apply conv_out_const; reflexivity.
Qed.

Lemma forward_zero_classifier (training : bool) :
  ∃ y : Real.rtensor,
    FewShotClassifier.forward (zero_classifier training) zero_images = Ok y ∧
    Real.rval y [0; 0]%nat = 64 * feature training.
Proof.
  unfold FewShotClassifier.forward, zero_classifier.
  cbn [FewShotClassifier.conv1 FewShotClassifier.conv2 FewShotClassifier.conv3
       FewShotClassifier.conv4 FewShotClassifier.logits].
  rewrite (conv_block_forward_real _ _ 2 1 28 28 64) by (reflexivity || lia).
  cbn [mbind result_bind].
  rewrite (conv_block_forward_real _ _ 2 64 14 14 64) by (reflexivity || lia).
  cbn [mbind result_bind].
  rewrite (conv_block_forward_real _ _ 2 64 7 7 64) by (reflexivity || lia).
  cbn [mbind result_bind].
  rewrite (conv_block_forward_real _ _ 2 64 3 3 64) by (reflexivity || lia).
  cbn [mbind result_bind].
  match goal with
  | |- context [block_out (zero_block 64 1 training) ?x 2 64 3 3] =>
    pose proof (last_block_feature training x) as Hfeat;
    set (y4 := block_out (zero_block 64 1 training) x 2 64 3 3) in *
  end.
  assert (Hs : Real.rshape y4 = [2; 64; 1; 1]%nat) by reflexivity.
  clearbody y4. destruct y4 as [s v]. cbn [Real.rshape] in Hs. subst s.
  eexists. split; [reflexivity|].
  cbn [Real.rval]. unfold Real.linear_val, Real.dim.
  cbn [Real.rshape Real.rval Real.const nth List.last removelast app Real.opt_at].
  rewrite (rsum_ext 64 _ (λ _, feature training * 1)).
  - rewrite rsum_const, INR_IZR_INZ. change (Z.of_nat 64) with 64%Z.
    cbn [nn.Linear_bias Real.const Real.rval]. lra.
  - intros k Hk. cbn [Real.unflat_index Real.flat_index]. rewrite Hfeat. reflexivity.
Qed.

(** C1, in evaluation mode: on the classifier [zero_classifier false] and the batch
    [zero_images], [forward] normalises with the running averages and returns
    [64 / sqrt (1 + eps)] as the first logit of the first image, while
    [functional_forward] on the module's own parameters normalises with the
    statistics of the batch and returns 0 there. *)
Lemma forward_eval_differs :
  ∃ y y' : Real.rtensor,
    FewShotClassifier.forward (zero_classifier false) zero_images = Ok y ∧
    FewShotClassifier.functional_forward (zero_classifier false) zero_images
      (FewShotClassifier.named_parameters (zero_classifier false)) = Ok y' ∧
    Real.rval y [0; 0]%nat = 64 / sqrt (1 + Real.eps) ∧
    Real.rval y' [0; 0]%nat = 0 ∧
    Real.rval y [0; 0]%nat ≠ Real.rval y' [0; 0]%nat.
Proof.
  destruct (forward_zero_classifier false) as (y & Ey & Hy).
  destruct (forward_zero_classifier true) as (y' & Ey' & Hy').
  assert (Hpos : 0 < sqrt (1 + Real.eps)).
  { apply sqrt_lt_R0. unfold Real.eps. lra. }
  assert (Hy1 : Real.rval y [0; 0]%nat = 64 / sqrt (1 + Real.eps)).
  { rewrite Hy. unfold feature. rewrite Rmax_right.
    - field. lra.
    - assert (0 < / sqrt (1 + Real.eps)) by (apply Rinv_0_lt_compat; exact Hpos).
      unfold Rdiv. nra. }
  assert (Hy0 : Real.rval y' [0; 0]%nat = 0).
  { rewrite Hy'. unfold feature. rewrite Rmax_left by lra. lra. }
  exists y, y'. split; [exact Ey|]. split.
  - rewrite <- Ey'.
    symmetry. apply (train_forward_is_functional (T:=Real.torch) (zero_classifier false)).
    repeat split.
  - split; [exact Hy1|]. split; [exact Hy0|].
    rewrite Hy1, Hy0. apply Rgt_not_eq.
    apply Rdiv_lt_0_compat; [lra | exact Hpos].
Qed.
End EvalMode.

(** ** FewShotClassifier: the keys of the weight mapping *)

Section KeyFacts.
Context {T : Torch}.

Lemma getitem_Ok (w : gmap string tensor) k v :
  getitem (TE:=torch_error) w k = Ok v → w !! k = Some v.
Proof. unfold getitem. destruct (w !! k); [intros [= ->]; reflexivity | discriminate]. Qed.

Lemma getitem_raises (w : gmap string tensor) k :
  k ∈ required_keys →
  raises_only (λ e, is_TorchError e ∨ missing_key w e) (getitem w k).
Proof.
  intros Hk e. unfold getitem. destruct (w !! k) eqn:E; [discriminate|].
  intros [= <-]. right. exists k. auto.
Qed.

Lemma functional_conv_block_raises x wt b bw bb :
  raises_only is_TorchError (functional_conv_block x wt b bw bb).
Proof.
  unfold functional_conv_block.
  repeat (apply raises_only_bind; [apply raises_only_call | intros ?]).
  apply raises_only_Ok.
Qed.

Lemma functional_forward_raises self x (w : gmap string tensor) :
  raises_only (λ e, is_TorchError e ∨ missing_key w e)
    (FewShotClassifier.functional_forward self x w).
Proof.
  unfold FewShotClassifier.functional_forward, for_each.
  repeat (apply raises_only_bind;
          [ first [ apply getitem_raises; vm_compute; set_solver
                  | eapply raises_only_weaken;
                    [ | first [ apply raises_only_call
                              | apply functional_conv_block_raises ] ];
                    intros ? ?; left; assumption
                  | idtac ]
          | intros ? ]).
  all: try apply raises_only_Ok.
Qed.

Lemma functional_forward_Ok_keys self x (w : gmap string tensor) r :
  FewShotClassifier.functional_forward self x w = Ok r →
  ∀ k, k ∈ required_keys → is_Some (w !! k).
Proof.
  unfold FewShotClassifier.functional_forward, for_each. intros H.
  repeat match type of H with
         | context [("conv" +:+ str ?b +:+ ?s)] =>
           let k := eval vm_compute in ("conv" +:+ str b +:+ s) in
           change ("conv" +:+ str b +:+ s) with k in H
         end.
  apply bind_inv_Ok in H as (x4 & H4 & H).
  apply bind_inv_Ok in H4 as (x1 & H1 & H4).
  apply bind_inv_Ok in H4 as (x2 & H2 & H4).
  apply bind_inv_Ok in H4 as (x3 & H3 & H4).
  apply bind_inv_Ok in H4 as (x5 & H4 & _).
  repeat match goal with
         | Hv : (getitem w ?k ≫= _) = Ok _ |- _ =>
           let v := fresh "v" in let Hk := fresh "Hk" in
           apply bind_inv_Ok in Hv as (v & Hk & Hv); apply getitem_Ok in Hk
         end.
  apply bind_inv_Ok in H as (n & _ & H).
  apply bind_inv_Ok in H as (y & _ & H).
  repeat match goal with
         | Hv : (getitem w ?k ≫= _) = Ok _ |- _ =>
           let v := fresh "v" in let Hk := fresh "Hk" in
           apply bind_inv_Ok in Hv as (v & Hk & Hv); apply getitem_Ok in Hk
         end.
  intros k Hin. unfold required_keys in Hin.
  repeat (apply elem_of_cons in Hin as [-> | Hin]; [eauto|]).
  inversion Hin.
Qed.

(** The two keys of the first block are looked up before any tensor
    operation. *)
Lemma functional_forward_first_keys self x (w : gmap string tensor) :
  (w !! "conv1.0.weight" = None →
   FewShotClassifier.functional_forward self x w = Raise (KeyError "conv1.0.weight")) ∧
  (is_Some (w !! "conv1.0.weight") → w !! "conv1.0.bias" = None →
   FewShotClassifier.functional_forward self x w = Raise (KeyError "conv1.0.bias")).
Proof.
  unfold FewShotClassifier.functional_forward, for_each, getitem.
  change ("conv" +:+ str 1 +:+ ".0.weight") with "conv1.0.weight".
  change ("conv" +:+ str 1 +:+ ".0.bias") with "conv1.0.bias".
  split.
  - intros ->. reflexivity.
  - intros [v ->] ->. reflexivity.
Qed.
Lemma functional_forward_no_KeyError self x (w : gmap string tensor) :
  (∀ k, k ∈ required_keys → is_Some (w !! k)) →
  raises_only is_TorchError (FewShotClassifier.functional_forward self x w).
Proof.
  intros Hall e He.
  destruct (functional_forward_raises self x w e He) as [Ht | (k & -> & Hk & Hnone)];
    [exact Ht|].
  destruct (Hall k Hk) as [v Hv]. congruence.
Qed.

(** Only the eighteen keys are read. *)
Lemma functional_forward_reads self x (w w' : gmap string tensor) :
  (∀ k, k ∈ required_keys ++ optional_keys → w' !! k = w !! k) →
  FewShotClassifier.functional_forward self x w'
  = FewShotClassifier.functional_forward self x w.
Proof.
  intros H. unfold FewShotClassifier.functional_forward, for_each, getitem, dict_get.
  repeat match goal with
         | |- context [("conv" +:+ str ?b +:+ ?s)] =>
           let k := eval vm_compute in ("conv" +:+ str b +:+ s) in
           change ("conv" +:+ str b +:+ s) with k
         end.
  repeat match goal with
         | |- context [w' !! ?k] =>
           rewrite (H k) by (unfold required_keys, optional_keys; set_solver)
         end.
  reflexivity.
Qed.

End KeyFacts.

(** The channels of a convolution's result are the rows of its weight. *)
Lemma conv2d_channels x w b p s :
  Meta.conv2d x w b p = Ok s → ∃ n h' w', s = [n; nth 0 w 0; h'; w'].
Proof.
  unfold Meta.conv2d. repeat case_match; try discriminate.
  intros [= <-]. subst. eauto.
Qed.

(** Without scale and shift the functional block is the block with scale
    one and shift zero. *)
Lemma identity_affine (x cw cb : Real.rtensor) :
  functional_conv_block (T:=Real.torch) x cw cb None None
  = functional_conv_block (T:=Real.torch) x cw cb
      (Some (Real.const [Real.dim cw 0] 1%R)) (Some (Real.const [Real.dim cw 0] 0%R)).
Proof.
  unfold functional_conv_block.
  cbn [F_conv2d F_batch_norm Real.torch].
  unfold Real.conv2d, Real.lift.
  destruct (Meta.conv2d _ _ _ _) as [s|e] eqn:E; [|reflexivity].
  apply conv2d_channels in E as (n & h' & w' & ->).
  cbn [fmap result_fmap call mbind result_bind].
  unfold Real.batch_norm, Real.lift, Real.dim.
  cbn [fmap option_fmap option_map Real.rshape Real.const].
  unfold Meta.batch_norm. cbn [Meta.opt_is]. rewrite MetaFacts.shape_eqb_refl.
  reflexivity.
Qed.

(** C6, as amended.  When the mapping lacks a required key
    [functional_forward] returns no result, and its failure is the
    [KeyError] of a required key that is absent or an error that a tensor
    operation raised before that lookup; the two keys of block 1 are looked
    up before any tensor operation.  With every required key present no
    [KeyError] is raised, and keys beyond the eighteen that are read change
    nothing: the mapping need not hold exactly the expected keys.  The
    batch-norm keys are read with [get], and a block without scale and
    shift computes what the block with scale one and shift zero computes. *)
Theorem functional_forward_keys {T : Torch} (self : FewShotClassifier.t) (x : tensor)
  (w : gmap string tensor) :
  ((∃ k, k ∈ required_keys ∧ w !! k = None) →
   ∃ e, FewShotClassifier.functional_forward self x w = Raise e ∧
        (is_TorchError e ∨ missing_key w e)) ∧
  (w !! "conv1.0.weight" = None →
   FewShotClassifier.functional_forward self x w = Raise (KeyError "conv1.0.weight")) ∧
  (is_Some (w !! "conv1.0.weight") → w !! "conv1.0.bias" = None →
   FewShotClassifier.functional_forward self x w = Raise (KeyError "conv1.0.bias")) ∧
  ((∀ k, k ∈ required_keys → is_Some (w !! k)) →
   raises_only is_TorchError (FewShotClassifier.functional_forward self x w)) ∧
  (∀ w' : gmap string tensor,
     (∀ k, k ∈ required_keys ++ optional_keys → w' !! k = w !! k) →
     FewShotClassifier.functional_forward self x w'
     = FewShotClassifier.functional_forward self x w) ∧
  (∀ y cw cb : Real.rtensor,
     functional_conv_block (T:=Real.torch) y cw cb None None
     = functional_conv_block (T:=Real.torch) y cw cb
         (Some (Real.const [Real.dim cw 0] 1%R))
         (Some (Real.const [Real.dim cw 0] 0%R))).
Proof.
  split; [|split; [|split; [|split; [|split]]]].
  - intros (k & Hk & Hnone).
    destruct (FewShotClassifier.functional_forward self x w) as [r|e] eqn:E.
    + destruct (functional_forward_Ok_keys self x w r E k Hk) as [v Hv]. congruence.
    + exists e. split; [reflexivity|]. apply (functional_forward_raises self x w e E).
  - apply functional_forward_first_keys.
  - apply functional_forward_first_keys.
  - apply functional_forward_no_KeyError.
  - intros w'. apply functional_forward_reads.
  - apply identity_affine.
Qed.

Lemma functional_forward_keys_witness :
  let self := (FewShotClassifier.init (T:=Meta.torch) 1 5 64 tt).1 in
  let w := delete "conv1.0.weight" (FewShotClassifier.named_parameters self) in
  w !! "conv1.0.weight" = None ∧
  FewShotClassifier.functional_forward self [4; 1; 28; 28] w
  = Raise (KeyError "conv1.0.weight").
Proof.
  intros self w.
  assert (H : w !! "conv1.0.weight" = None) by (vm_compute; reflexivity).
  split; [exact H|].
  exact (proj1 (proj2 (functional_forward_keys (T:=Meta.torch) self [4; 1; 28; 28] w)) H).
Defined.

(** C6, as stated: a mapping that lacks a key of the linear head, with an
    input of three channels for weights of one.  The convolution of block 1
    fails before the head's keys are looked up, and the failure is the
    framework's, not a [KeyError]. *)
Lemma functional_forward_earlier_failure :
  let self := (FewShotClassifier.init (T:=Meta.torch) 1 5 64 tt).1 in
  let w := delete "logits.bias" (FewShotClassifier.named_parameters self) in
  w !! "logits.bias" = None ∧
  FewShotClassifier.functional_forward self [4; 3; 28; 28] w
  = Raise (TorchError "conv2d: input channels do not match the weight") ∧
  ¬ ∃ k, FewShotClassifier.functional_forward self [4; 3; 28; 28] w
         = Raise (KeyError k).
Proof.
  intros self w. split; [vm_compute; reflexivity|].
  split; [vm_compute; reflexivity|].
  intros [k H]. vm_compute in H. discriminate H.
Qed.

(** ** AttentionLSTM: the refinement *)

Module AttentionFacts.
Import RealFacts.
Local Open Scope R_scope.

Lemma broadcast_rev_same s : Meta.broadcast_rev s s = Some s.
Proof.
  induction s as [|x s IH]; [reflexivity|]. simpl. rewrite IH. simpl.
  rewrite Nat.eqb_refl. reflexivity.
Qed.

Lemma broadcast_same s : Meta.broadcast s s = Ok s.
Proof. unfold Meta.broadcast. rewrite broadcast_rev_same, rev_involutive. reflexivity. Qed.

Lemma broadcast_index_in b d i j :
  (i < b)%nat → (j < d)%nat → Real.broadcast_index [b; d] [i; j] = [i; j].
Proof.
  intros Hi Hj. unfold Real.broadcast_index. simpl.
  destruct (Nat.eqb_spec b 1), (Nat.eqb_spec d 1); repeat f_equal; lia.
Qed.

Lemma softmax_row_sum n (s : nat → R) :
  (0 < n)%nat → Real.rsum n (λ j, exp (s j) / Real.rsum n (λ j', exp (s j'))) = 1.
Proof.
  intros Hn. unfold Rdiv. rewrite rsum_scal.
  apply Rinv_r. apply Rgt_not_eq. apply rsum_pos; [exact Hn | intros; apply exp_pos].
Qed.

Lemma lstm_cell_ok b d :
  Meta.lstm_cell [b; d] ([b; d], [b; d]) [4 * d; d]%nat [4 * d; d]%nat [4 * d]%nat [4 * d]%nat
  = Ok ([b; d], [b; d]).
Proof.
  unfold Meta.lstm_cell. rewrite !Nat.eqb_refl, !MetaFacts.shape_eqb_refl. reflexivity.
Qed.


Lemma add_agree b d (x y : Real.rtensor) f g :
  agree b d x f → agree b d y g →
  ∃ z, Real.broadcast2 Rplus x y = Ok z ∧ agree b d z (AttentionSpec.plus f g).
Proof.
  intros [Hx Hxv] [Hy Hyv]. unfold Real.broadcast2, Real.lift.
  rewrite Hx, Hy, broadcast_same. eexists. split; [reflexivity|].
  split; [reflexivity|]. intros i j Hi Hj. cbn [Real.rval].
  rewrite broadcast_index_in by assumption. unfold AttentionSpec.plus.
  rewrite Hxv, Hyv by assumption. reflexivity.
Qed.

Lemma transpose_agree n d (x : Real.rtensor) f :
  agree n d x f →
  ∃ z, Real.transpose x = Ok z ∧ agree d n z (λ k j, f j k).
Proof.
  intros [Hx Hxv]. unfold Real.transpose, Real.lift. rewrite Hx.
  eexists. split; [reflexivity|]. split; [reflexivity|].
  intros i j Hi Hj. cbn [Real.rval]. apply Hxv; assumption.
Qed.

Lemma mm_agree b m p (x y : Real.rtensor) f g :
  agree b m x f → agree m p y g →
  ∃ z, Real.mm x y = Ok z ∧
       agree b p z (λ i j, Real.rsum m (λ k, f i k * g k j)).
Proof.
  intros [Hx Hxv] [Hy Hyv]. unfold Real.mm, Real.lift, Real.dim.
  rewrite Hx, Hy. cbn [Meta.mm nth]. rewrite Nat.eqb_refl.
  eexists. split; [reflexivity|]. split; [reflexivity|].
  intros i j Hi Hj. cbn [Real.rval]. apply rsum_ext. intros k Hk.
  rewrite Hxv, Hyv by assumption. reflexivity.
Qed.

Lemma softmax_agree b n (x : Real.rtensor) f :
  agree b n x f →
  ∃ z, Real.softmax x 1 = Ok z ∧
       agree b n z (λ i j, exp (f i j) / Real.rsum n (λ j', exp (f i j'))).
Proof.
  intros [Hx Hxv]. unfold Real.softmax, Real.lift, Real.dim. rewrite Hx.
  eexists. split; [reflexivity|]. split; [reflexivity|].
  intros i j Hi Hj. cbn [Real.rval nth]. rewrite Hxv by assumption.
  f_equal. apply rsum_ext. intros k Hk.
  change (<[1%nat:=k]> [i; j]) with [i; k]. rewrite Hxv by assumption. reflexivity.
Qed.

Lemma lstm_cell_agree b d (cell : nn.LSTMCell (T:=Real.torch)) (x h c : Real.rtensor) fx fh fc :
  Real.rshape (nn.weight_ih cell) = [4 * d; d]%nat →
  Real.rshape (nn.weight_hh cell) = [4 * d; d]%nat →
  Real.rshape (nn.bias_ih cell) = [4 * d]%nat →
  Real.rshape (nn.bias_hh cell) = [4 * d]%nat →
  agree b d x fx → agree b d h fh → agree b d c fc →
  ∃ h' c',
    Real.lstm_cell x (h, c) (nn.weight_ih cell) (nn.weight_hh cell)
      (nn.bias_ih cell) (nn.bias_hh cell) = Ok (h', c') ∧
    agree b d h' (cell_update cell b d fx (fh, fc)).1 ∧
    agree b d c' (cell_update cell b d fx (fh, fc)).2.
Proof.
  intros Hw_ih Hw_hh Hb_ih Hb_hh [Hx Hxv] [Hh Hhv] [Hc Hcv].
  unfold Real.lstm_cell. cbn [fst snd]. rewrite Hx, Hh, Hc, Hw_ih, Hw_hh, Hb_ih, Hb_hh.
  rewrite lstm_cell_ok. do 2 eexists. split; [reflexivity|].
  assert (Hgate : ∀ i r, (i < b)%nat →
            Real.gate x h (nn.weight_ih cell) (nn.weight_hh cell)
              (nn.bias_ih cell) (nn.bias_hh cell) i r
            = Real.gate (matrix b d fx) (matrix b d fh) (nn.weight_ih cell)
                (nn.weight_hh cell) (nn.bias_ih cell) (nn.bias_hh cell) i r).
  { intros i r Hi. unfold Real.gate, Real.dim. rewrite Hw_ih, Hw_hh. cbn [nth].
    f_equal. f_equal; [f_equal|].
    - apply rsum_ext. intros k Hk. cbn [matrix Real.rval]. rewrite Hxv by assumption.
      reflexivity.
    - apply rsum_ext. intros k Hk. cbn [matrix Real.rval]. rewrite Hhv by assumption.
      reflexivity. }
  assert (Hcell : ∀ i j, (i < b)%nat → (j < d)%nat →
            Real.lstm_c x (h, c) (nn.weight_ih cell) (nn.weight_hh cell)
              (nn.bias_ih cell) (nn.bias_hh cell) [i; j]
            = Real.lstm_c (matrix b d fx) (matrix b d fh, matrix b d fc)
                (nn.weight_ih cell) (nn.weight_hh cell) (nn.bias_ih cell)
                (nn.bias_hh cell) [i; j]).
  { intros i j Hi Hj. unfold Real.lstm_c. cbn [fst snd matrix Real.rval].
    rewrite !Hgate by assumption. rewrite Hcv by assumption. reflexivity. }
  split; (split; [reflexivity|]); intros i j Hi Hj;
    unfold cell_update, entries; cbn [fst snd Real.rval].
  - unfold Real.lstm_h. cbn [fst snd]. rewrite Hgate, Hcell by assumption. reflexivity.
  - apply Hcell; assumption.
Qed.

Section Step.
Variables (n b d : nat) (self : AttentionLSTM.t (T:=Real.torch)).
Variables (support queries : Real.rtensor).
Hypothesis Hsupport : Real.rshape support = [n; d].
Hypothesis Hqueries : Real.rshape queries = [b; d].
Hypothesis Hw_ih : Real.rshape (nn.weight_ih (AttentionLSTM.lstm_cell self)) = [4 * d; d]%nat.
Hypothesis Hw_hh : Real.rshape (nn.weight_hh (AttentionLSTM.lstm_cell self)) = [4 * d; d]%nat.
Hypothesis Hb_ih : Real.rshape (nn.bias_ih (AttentionLSTM.lstm_cell self)) = [4 * d]%nat.
Hypothesis Hb_hh : Real.rshape (nn.bias_hh (AttentionLSTM.lstm_cell self)) = [4 * d]%nat.

Let spec_step :=
  AttentionSpec.step n d (entries support) (entries queries)
    (cell_update (AttentionLSTM.lstm_cell self) b d).

Lemma agree_entries r c (x : Real.rtensor) : Real.rshape x = [r; c] → agree r c x (entries x).
Proof. intros H. split; [exact H | reflexivity]. Qed.

Lemma step_refines (h_hat c : Real.rtensor) (fh fc : nat → nat → R) (k : Z) :
  agree b d h_hat fh → agree b d c fc →
  ∃ h_hat' c',
    AttentionLSTM.step self support queries (h_hat, c) k = Ok (h_hat', c') ∧
    agree b d h_hat' (spec_step (fh, fc)).1 ∧
    agree b d c' (spec_step (fh, fc)).2.
Proof.
  intros Hh Hc.
  pose proof (agree_entries n d support Hsupport) as HS.
  pose proof (agree_entries b d queries Hqueries) as HQ.
  unfold AttentionLSTM.step, nn.LSTMCell_forward.
  cbn [Tensor_add Tensor_t torch_mm Tensor_softmax VF_lstm_cell Real.torch].
  destruct (add_agree b d h_hat queries _ _ Hh HQ) as (h & E & Hh1).
  rewrite E; clear E; cbn [call mbind result_bind].
  destruct (transpose_agree n d support _ HS) as (st & E & Hst).
  rewrite E; clear E; cbn [call mbind result_bind].
  destruct (mm_agree b d n h st _ _ Hh1 Hst) as (a & E & Ha).
  rewrite E; clear E; cbn [call mbind result_bind].
  destruct (softmax_agree b n a _ Ha) as (a' & E & Ha').
  rewrite E; clear E; cbn [call mbind result_bind].
  destruct (mm_agree b n d a' support _ _ Ha' HS) as (r & E & Hr).
  rewrite E; clear E; cbn [call mbind result_bind].
  destruct (add_agree b d h r _ _ Hh1 Hr) as (hx & E & Hhx).
  rewrite E; clear E; cbn [call mbind result_bind].
  destruct (lstm_cell_agree b d (AttentionLSTM.lstm_cell self) queries hx c _ _ _
              Hw_ih Hw_hh Hb_ih Hb_hh HQ Hhx Hc) as (h' & c' & E & Hh' & Hc').
  exists h', c'. split; [|split; assumption].
  exact (f_equal call E).
Qed.

Let spec_cell := cell_update (AttentionLSTM.lstm_cell self) b d.

Lemma loop_refines (ks : list Z) (h_hat c : Real.rtensor) (fh fc : nat → nat → R) :
  agree b d h_hat fh → agree b d c fc →
  ∃ h_hat' c',
    for_each ks (AttentionLSTM.step self support queries) (h_hat, c) = Ok (h_hat', c') ∧
    agree b d h_hat'
      (AttentionSpec.unroll n d (entries support) (entries queries) spec_cell
         (length ks) (fh, fc)).1 ∧
    agree b d c'
      (AttentionSpec.unroll n d (entries support) (entries queries) spec_cell
         (length ks) (fh, fc)).2.
Proof.
  revert h_hat c fh fc. induction ks as [|k ks IH]; intros h_hat c fh fc Hh Hc.
  - exists h_hat, c. split; [reflexivity|]. split; assumption.
  - destruct (step_refines h_hat c fh fc k Hh Hc) as (h1 & c1 & E & Hh1 & Hc1).
    cbn [for_each length AttentionSpec.unroll]. rewrite E. cbn [mbind result_bind].
    destruct (IH h1 c1 _ _ Hh1 Hc1) as (h2 & c2 & E2 & Hh2 & Hc2).
    exists h2, c2. split; [exact E2|].
    rewrite <- surjective_pairing in Hh2, Hc2. split; assumption.
Qed.

Lemma range_length (k : Z) : length (AttentionLSTM.range k) = Z.to_nat k.
Proof. unfold AttentionLSTM.range. rewrite length_fmap, length_seq. reflexivity. Qed.

End Step.

(** C2.  On a support set of [n] embeddings and [b] queries, all of dimension
    [d], with a recurrent cell of that size, [AttentionLSTM.forward] returns
    a tensor of the shape of [queries] whose entries are those of the
    refinement the spec describes: [h_hat] and [c] start at zero; each step
    takes [h = h_hat + queries], the softmax over the support dimension of
    the dot products of [h] with the support embeddings, the readout weighted
    by it, and one update of the cell on [queries] with [(h + readout, c)];
    the result is [h_hat + queries].  A count of steps that is not positive
    runs no step.  With at least one support embedding each row of attention
    weights sums to 1. *)
Theorem forward_refines (n b d : nat) (self : AttentionLSTM.t (T:=Real.torch))
  (support queries : Real.rtensor) :
  Real.rshape support = [n; d] →
  Real.rshape queries = [b; d] →
  Real.rshape (nn.weight_ih (AttentionLSTM.lstm_cell self)) = [4 * d; d]%nat →
  Real.rshape (nn.weight_hh (AttentionLSTM.lstm_cell self)) = [4 * d; d]%nat →
  Real.rshape (nn.bias_ih (AttentionLSTM.lstm_cell self)) = [4 * d]%nat →
  Real.rshape (nn.bias_hh (AttentionLSTM.lstm_cell self)) = [4 * d]%nat →
  (∃ y : Real.rtensor,
     AttentionLSTM.forward self support queries = Ok y ∧
     Real.rshape y = Real.rshape queries ∧
     ∀ i j, (i < b)%nat → (j < d)%nat →
       Real.rval y [i; j]
       = AttentionSpec.refine n d (entries support) (entries queries)
           (cell_update (AttentionLSTM.lstm_cell self) b d)
           (Z.to_nat (AttentionLSTM.unrolling_steps self)) i j) ∧
  ((0 < n)%nat → ∀ h i,
     Real.rsum n (AttentionSpec.attention n d (entries support) h i) = 1).
Proof.
  intros HS HQ Hw_ih Hw_hh Hb_ih Hb_hh. split.
  - unfold AttentionLSTM.forward.
    cbn [shape torch_zeros_like torch_zeros Tensor_cuda Tensor_double Tensor_add
         Real.torch].
    rewrite HS, HQ.
    change (tuple_getitem [n; d] (-1)) with (Ok (E:=exn string) d).
    change (tuple_getitem [b; d] (-1)) with (Ok (E:=exn string) d).
    change (tuple_getitem [b; d] 0) with (Ok (E:=exn string) b).
    change (tuple_getitem [b; d] 1) with (Ok (E:=exn string) d).
    cbn [mbind result_bind call]. rewrite Nat.eqb_refl. cbn [negb].
    assert (H0 : agree b d (Real.const [b; d] 0) (AttentionSpec.zero))
      by (split; reflexivity).
    destruct (loop_refines n b d self support queries HS HQ Hw_ih Hw_hh Hb_ih Hb_hh
                (AttentionLSTM.range (AttentionLSTM.unrolling_steps self))
                _ _ _ _ H0 H0) as (h & c & E & Hh & _).
    rewrite range_length in Hh.
    destruct (add_agree b d h queries _ _ Hh (agree_entries b d queries HQ))
      as (y & Ey & Hs & Hv).
    exists y. split; [|split; [exact Hs | exact Hv]].
    replace (for_each _ _ _) with (Ok (E:=exn string) (h, c)).
    cbn [mbind result_bind]. rewrite Ey. reflexivity.
  - intros Hn h i. apply softmax_row_sum. exact Hn.
Qed.

Lemma forward_refines_witness :
  let cell : nn.LSTMCell (T:=Real.torch) :=
    @nn.Build_LSTMCell Real.torch (Real.const [4; 1]%nat 1) (Real.const [4; 1]%nat 1)
      (Real.const [4]%nat 0) (Real.const [4]%nat 0) in
  let self := @AttentionLSTM.Build_t Real.torch 2 cell in
  let support := Real.const [3; 1]%nat 1 in
  let queries := Real.const [2; 1]%nat 1 in
  (∃ y : Real.rtensor,
     AttentionLSTM.forward self support queries = Ok y ∧
     Real.rshape y = Real.rshape queries ∧
     ∀ i j, (i < 2)%nat → (j < 1)%nat →
       Real.rval y [i; j]
       = AttentionSpec.refine 3 1 (entries support) (entries queries)
           (cell_update (AttentionLSTM.lstm_cell self) 2 1)
           (Z.to_nat (AttentionLSTM.unrolling_steps self)) i j) ∧
  ((0 < 3)%nat → ∀ h i,
     Real.rsum 3 (AttentionSpec.attention 3 1 (entries support) h i) = 1).
Proof.
  intros cell self support queries.
  apply (forward_refines 3 2 1 self support queries); reflexivity.
Defined.
End AttentionFacts.

(** ** SemanticBinaryAutoEncoder *)

Section AutoEncoder.
Context {T : Torch}.

Lemma call_one_argument (self : SemanticBinaryAutoEncoder.t) (bina : pyval) (g : generator) :
  SemanticBinaryAutoEncoder.call_binary_space_decoder self [bina] g = Raise missing_n_noise.
Proof. reflexivity. Qed.

(** C7.  [binary_space_decoder] has two parameters after [self], neither
    with a default, and [forward] calls it with one argument: whatever the
    argument, hence whatever the input of [forward], the call raises the
    [TypeError] of the missing [n_noise] and draws no noise.  [forward] is
    the encoder and the first decoding followed by that error, so it
    returns no result for any input. *)
Theorem second_decode_path_fails (self : SemanticBinaryAutoEncoder.t) (x : tensor)
  (g : generator) :
  length SemanticBinaryAutoEncoder.binary_space_decoder_params = 2 ∧
  (∀ bina g', SemanticBinaryAutoEncoder.call_binary_space_decoder self [bina] g'
              = Raise missing_n_noise) ∧
  SemanticBinaryAutoEncoder.forward self x g
  = ('(bina, cont, g) ← SemanticBinaryAutoEncoder.encoder self x g;
     b ← as_tensor bina;
     latent_space ← call (torch_cat [b; cont]);
     x1 ← SemanticBinaryAutoEncoder.decoder self latent_space;
     Raise missing_n_noise) ∧
  (∀ r, SemanticBinaryAutoEncoder.forward self x g ≠ Ok r).
Proof.
  split; [reflexivity|]. split; [intros; apply call_one_argument|].
  assert (E : SemanticBinaryAutoEncoder.forward self x g
              = ('(bina, cont, g) ← SemanticBinaryAutoEncoder.encoder self x g;
                 b ← as_tensor bina;
                 latent_space ← call (torch_cat [b; cont]);
                 x1 ← SemanticBinaryAutoEncoder.decoder self latent_space;
                 Raise missing_n_noise)).
  { unfold SemanticBinaryAutoEncoder.forward.
    destruct (SemanticBinaryAutoEncoder.encoder self x g) as [[[bina cont] g']|e];
      [|reflexivity].
    cbn [mbind result_bind].
    destruct (as_tensor bina) as [b|e]; [|reflexivity]. cbn [mbind result_bind].
    destruct (call (torch_cat [b; cont])) as [l|e]; [|reflexivity].
    cbn [mbind result_bind].
    destruct (SemanticBinaryAutoEncoder.decoder self l) as [x1|e]; [|reflexivity].
    cbn [mbind result_bind]. rewrite call_one_argument. reflexivity. }
  split; [exact E|].
  intros r. rewrite E.
  destruct (SemanticBinaryAutoEncoder.encoder self x g) as [[[bina cont] g']|e];
    [|discriminate].
  cbn [mbind result_bind].
  destruct (as_tensor bina) as [b|e]; [|discriminate]. cbn [mbind result_bind].
  destruct (call (torch_cat [b; cont])) as [l|e]; [|discriminate].
  cbn [mbind result_bind].
  destruct (SemanticBinaryAutoEncoder.decoder self l) as [x1|e]; discriminate.
Qed.
End AutoEncoder.

(** On a batch of 28x28 single-channel images the encoder stops at the
    first dense layer. *)
Lemma encoder_image_batch (B sb sc : nat) (st : bool) :
  ∃ m, SemanticBinaryAutoEncoder.init (T:=Meta.torch) 1 sb sc st tt = Ok (m, tt) ∧
       SemanticBinaryAutoEncoder.encoder m [B; 1; 28; 28] tt
       = Raise (TorchError "linear: mat1 and mat2 shapes cannot be multiplied").
Proof.
  destruct st; eexists; (split; [reflexivity|]); unfold SemanticBinaryAutoEncoder.encoder;
    cbn [SemanticBinaryAutoEncoder.conv1 SemanticBinaryAutoEncoder.conv2
         SemanticBinaryAutoEncoder.dense_bin];
    rewrite (MetaFacts.conv_block_forward_shape _ B 1 28 28 64) by (reflexivity || lia);
    cbn [mbind result_bind];
    rewrite (MetaFacts.conv_block_forward_shape _ B 64 14 14 64) by (reflexivity || lia);
    reflexivity.
Qed.

(** C8, on the code: on every batch of 28x28 single-channel images
    [encoder] fails at [dense_bin], which receives the unflattened
    [[B; 64; 7; 7]] features for its 3136 inputs; and where the width lets
    the dense layers pass, [binary_act] unpacks the bare tensor along the
    batch and fails unless the batch has two images. *)
Theorem encoder_fails_on_image_batch (B sb sc : nat) (st : bool) :
  (∃ m, SemanticBinaryAutoEncoder.init (T:=Meta.torch) 1 sb sc st tt = Ok (m, tt) ∧
        SemanticBinaryAutoEncoder.encoder m [B; 1; 28; 28] tt
        = Raise (TorchError "linear: mat1 and mat2 shapes cannot be multiplied")) ∧
  (∃ m, SemanticBinaryAutoEncoder.init (T:=Meta.torch) 1 10 10 true tt = Ok (m, tt) ∧
        SemanticBinaryAutoEncoder.encoder m [4; 1; 28; 12544] tt
        = Raise (ValueError "too many values to unpack (expected 2)")).
Proof.
  split; [apply encoder_image_batch|].
  eexists. split; [reflexivity|]. vm_compute. reflexivity.
Qed.

(** ** SemanticBinaryClassifier *)

Lemma features_width (B k f sb : nat) (sd : option nat) (st : bool) (d : Z) (w : nat) :
  0 < B →
  (d, w) ∈ [(1%Z, 12544); (2%Z, 3136); (3%Z, 576); (4%Z, 64)] →
  ∃ m, SemanticBinaryClassifier.init (T:=Meta.torch) 1 k f sd sb st d tt = Ok (m, tt)
       ∧ SemanticBinaryClassifier.features m [B; 1; 28; 28] = Ok [B; w]
       ∧ SemanticBinaryClassifier.dense_in_features m = Ok w.
Proof.
  intros HB Hd.
  repeat (apply elem_of_cons in Hd as [[= -> ->] | Hd]); [ .. | inversion Hd].
  all: destruct st, sd as [s|]; eexists; (split; [reflexivity|]);
    (split; [| vm_compute; reflexivity]).
  all: unfold SemanticBinaryClassifier.features.
  all: cbn [SemanticBinaryClassifier.conv1 SemanticBinaryClassifier.conv2
            SemanticBinaryClassifier.conv3 SemanticBinaryClassifier.conv4
            SemanticBinaryClassifier.n_conv_layers Z.geb Z.compare Pos.compare Pos.compare_cont
            getattr mbind result_bind mret result_ret].
  all: repeat (erewrite MetaFacts.conv_block_forward_shape by (first [reflexivity | cbv; lia]);
               cbn [mbind result_bind Nat.div Nat.divmod fst]).
  all: cbn [Tensor_size Tensor_view Meta.torch call mbind result_bind].
  all: rewrite MetaFacts.size_0; cbn [call mbind result_bind]; rewrite MetaFacts.view_flatten by exact HB.
  all: vm_compute; reflexivity.
Qed.

(** C9.  On a batch of 28x28 single-channel images, for each depth from 1
    to 4 the flattened features that reach the dense layer have the width
    the constructor wrote down for it: 12544, 3136, 576 and 64; every block
    halves the height and the width.  A batch of shape [[4; 1; 28; 28]]
    leaves the encoder of [get_few_shot_encoder] with shape [[4; 64]]. *)
Theorem flattened_feature_width (B k f sb : nat) (sd : option nat) (st : bool) :
  0 < B →
  (∀ d w, (d, w) ∈ [(1%Z, 12544); (2%Z, 3136); (3%Z, 576); (4%Z, 64)] →
     ∃ m, SemanticBinaryClassifier.init (T:=Meta.torch) 1 k f sd sb st d tt = Ok (m, tt)
          ∧ SemanticBinaryClassifier.features m [B; 1; 28; 28] = Ok [B; w]
          ∧ SemanticBinaryClassifier.dense_in_features m = Ok w) ∧
  (∀ cin cout n h w, 2 ≤ h → 2 ≤ w →
     ConvBlock_forward (T:=Meta.torch) (conv_block (T:=Meta.torch) cin cout 3 tt).1
       [n; cin; h; w]
     = Ok [n; cout; h / 2; w / 2]) ∧
  FewShotEncoder_forward (T:=Meta.torch) (get_few_shot_encoder (T:=Meta.torch) 1 tt).1
    [4; 1; 28; 28]
  = Ok [4; 64].
Proof.
  intros HB. split; [|split].
  - intros d w Hd. apply features_width; assumption.
  - intros cin cout n h w Hh Hw.
    apply MetaFacts.conv_block_forward_shape; auto.
  - vm_compute. reflexivity.
Qed.

Lemma flattened_feature_width_witness :
  0 < 4 ∧
  ∃ m, SemanticBinaryClassifier.init (T:=Meta.torch) 1 5 64 None 10 true 4 tt = Ok (m, tt)
       ∧ SemanticBinaryClassifier.features m [4; 1; 28; 28] = Ok [4; 64]
       ∧ SemanticBinaryClassifier.dense_in_features m = Ok 64.
Proof.
  assert (H : 0 < 4) by lia.
  split; [exact H|].
  apply (proj1 (flattened_feature_width 4 5 64 10 None true H) 4%Z 64).
  set_solver.
Defined.

Section Saturation.
Context {T : Torch}.

Lemma init_saturates (c k f : nat) (sd : option nat) (sb : nat) (st : bool) (n n' : Z)
  (g : generator) :
  (n >=? 2)%Z = (n' >=? 2)%Z → (n >=? 3)%Z = (n' >=? 3)%Z → (n >=? 4)%Z = (n' >=? 4)%Z →
  SemanticBinaryClassifier.init c k f sd sb st n g
  = relabel n (SemanticBinaryClassifier.init c k f sd sb st n' g).
Proof.
  intros H2 H3 H4. unfold SemanticBinaryClassifier.init, relabel.
  rewrite H2, H3, H4.
  repeat match goal with
         | |- context [conv_block ?a ?b ?c ?g] => destruct (conv_block a b c g)
         | |- context [nn.Linear_init ?a ?b ?g] => destruct (nn.Linear_init a b g)
         | |- context [if ?b then _ else _] => destruct b
         | |- context [match ?o with Some _ => _ | None => _ end] => destruct o
         | |- context [binary_act_init ?s] => destruct (binary_act_init s)
         end; reflexivity.
Qed.

Lemma forward_saturates (self : SemanticBinaryClassifier.t) (n' : Z) x g :
  let n := SemanticBinaryClassifier.n_conv_layers self in
  (n >=? 2)%Z = (n' >=? 2)%Z → (n >=? 3)%Z = (n' >=? 3)%Z → (n >=? 4)%Z = (n' >=? 4)%Z →
  SemanticBinaryClassifier.forward self x g
  = SemanticBinaryClassifier.forward (SemanticBinaryClassifier.with_n_conv_layers n' self) x g.
Proof.
  intros n H2 H3 H4. subst n.
  unfold SemanticBinaryClassifier.forward, SemanticBinaryClassifier.features.
  cbn [SemanticBinaryClassifier.with_n_conv_layers SemanticBinaryClassifier.n_conv_layers
       SemanticBinaryClassifier.conv1 SemanticBinaryClassifier.conv2
       SemanticBinaryClassifier.conv3 SemanticBinaryClassifier.conv4
       SemanticBinaryClassifier.dense1 SemanticBinaryClassifier.dense2
       SemanticBinaryClassifier.binary_act SemanticBinaryClassifier.logits
       SemanticBinaryClassifier.slope SemanticBinaryClassifier.dense_layer_before_bin].
  rewrite H2, H3, H4. reflexivity.
Qed.

(** The number of blocks that the constructor builds. *)
Lemma init_conv_blocks (c k f : nat) (sd : option nat) (sb : nat) (st : bool) (n : Z)
  (g g' : generator) (m : SemanticBinaryClassifier.t) :
  SemanticBinaryClassifier.init c k f sd sb st n g = Ok (m, g') →
  SemanticBinaryClassifier.conv_blocks m
  = 1 + (if (n >=? 2)%Z then 1 else 0) + (if (n >=? 3)%Z then 1 else 0)
      + (if (n >=? 4)%Z then 1 else 0).
Proof.
  unfold SemanticBinaryClassifier.init.
  repeat match goal with
         | |- context [conv_block ?a ?b ?c ?g] => destruct (conv_block a b c g)
         | |- context [nn.Linear_init ?a ?b ?g] => destruct (nn.Linear_init a b g)
         | |- context [if ?b then _ else _] => destruct b
         | |- context [match ?o with Some _ => _ | None => _ end] => destruct o
         | |- context [binary_act_init ?s] => destruct (binary_act_init s)
         end;
    cbn [mbind result_bind mret result_ret]; intros [= <- _]; reflexivity.
Qed.

End Saturation.

(** The dense layer's input width on shapes, by the tests of the constructor. *)
Lemma init_in_features (c k f : nat) (sd : option nat) (sb : nat) (st : bool) (n : Z) :
  ∃ m, SemanticBinaryClassifier.init (T:=Meta.torch) c k f sd sb st n tt = Ok (m, tt) ∧
       SemanticBinaryClassifier.dense_in_features m
       = Ok (if (n >=? 4)%Z then 64
             else if (n >=? 3)%Z then 576
             else if (n >=? 2)%Z then 3136 else 12544).
Proof.
  unfold SemanticBinaryClassifier.init.
  destruct (n >=? 2)%Z eqn:H2, (n >=? 3)%Z eqn:H3, (n >=? 4)%Z eqn:H4; try lia.
  all: destruct st, sd as [s|]; eexists; split; reflexivity.
Qed.

(** C10.  The constructor and [forward] only compare [n_conv_layers] with
    2, 3 and 4.  From 4 on, construction yields what it yields for 4 (the
    same blocks and layers from the same draws of the generator, only the
    stored attribute differs), [forward] computes what it computes with the
    attribute set to 4, there are 4 blocks and the dense layer takes 64
    inputs.  Up to 1, zero and negative values included, the same holds
    with 1: one block, which is always built and applied, and 12544
    inputs. *)
Theorem n_conv_layers_saturates {T : Torch} (c k f : nat) (sd : option nat) (sb : nat)
  (st : bool) (n : Z) (g : generator) :
  ((4 ≤ n)%Z →
   SemanticBinaryClassifier.init c k f sd sb st n g
   = relabel n (SemanticBinaryClassifier.init c k f sd sb st 4 g) ∧
   (∀ self x g', SemanticBinaryClassifier.n_conv_layers self = n →
      SemanticBinaryClassifier.forward self x g'
      = SemanticBinaryClassifier.forward
          (SemanticBinaryClassifier.with_n_conv_layers 4 self) x g') ∧
   (∀ m g', SemanticBinaryClassifier.init c k f sd sb st n g = Ok (m, g') →
      SemanticBinaryClassifier.conv_blocks m = 4) ∧
   (∃ m, SemanticBinaryClassifier.init (T:=Meta.torch) c k f sd sb st n tt = Ok (m, tt) ∧
         SemanticBinaryClassifier.dense_in_features m = Ok 64)) ∧
  ((n ≤ 1)%Z →
   SemanticBinaryClassifier.init c k f sd sb st n g
   = relabel n (SemanticBinaryClassifier.init c k f sd sb st 1 g) ∧
   (∀ self x g', SemanticBinaryClassifier.n_conv_layers self = n →
      SemanticBinaryClassifier.forward self x g'
      = SemanticBinaryClassifier.forward
          (SemanticBinaryClassifier.with_n_conv_layers 1 self) x g') ∧
   (∀ m g', SemanticBinaryClassifier.init c k f sd sb st n g = Ok (m, g') →
      SemanticBinaryClassifier.conv_blocks m = 1) ∧
   (∃ m, SemanticBinaryClassifier.init (T:=Meta.torch) c k f sd sb st n tt = Ok (m, tt) ∧
         SemanticBinaryClassifier.dense_in_features m = Ok 12544)).
Proof.
  split; intros Hn.
  - assert (H2 : (n >=? 2)%Z = true) by lia.
    assert (H3 : (n >=? 3)%Z = true) by lia.
    assert (H4 : (n >=? 4)%Z = true) by lia.
    split; [|split; [|split]].
    + apply init_saturates; rewrite ?H2, ?H3, ?H4; reflexivity.
    + intros self x g' <-. apply forward_saturates; rewrite ?H2, ?H3, ?H4; reflexivity.
    + intros m g' E. rewrite (init_conv_blocks _ _ _ _ _ _ _ _ _ _ E), H2, H3, H4.
      reflexivity.
    + destruct (init_in_features c k f sd sb st n) as (m & E & Hw).
      exists m. split; [exact E|]. rewrite Hw, H4. reflexivity.
  - assert (H2 : (n >=? 2)%Z = false) by lia.
    assert (H3 : (n >=? 3)%Z = false) by lia.
    assert (H4 : (n >=? 4)%Z = false) by lia.
    split; [|split; [|split]].
    + apply init_saturates; rewrite ?H2, ?H3, ?H4; reflexivity.
    + intros self x g' <-. apply forward_saturates; rewrite ?H2, ?H3, ?H4; reflexivity.
    + intros m g' E. rewrite (init_conv_blocks _ _ _ _ _ _ _ _ _ _ E), H2, H3, H4.
      reflexivity.
    + destruct (init_in_features c k f sd sb st n) as (m & E & Hw).
      exists m. split; [exact E|]. rewrite Hw, H4, H3, H2. reflexivity.
Qed.

Lemma n_conv_layers_saturates_witness :
  (4 ≤ 7)%Z ∧ (-3 ≤ 1)%Z ∧
  SemanticBinaryClassifier.init (T:=Meta.torch) 1 5 64 None 10 true 7 tt
  = relabel 7 (SemanticBinaryClassifier.init (T:=Meta.torch) 1 5 64 None 10 true 4 tt) ∧
  SemanticBinaryClassifier.init (T:=Meta.torch) 1 5 64 None 10 true (-3) tt
  = relabel (-3) (SemanticBinaryClassifier.init (T:=Meta.torch) 1 5 64 None 10 true 1 tt).
Proof.
  assert (H7 : (4 ≤ 7)%Z) by lia. assert (H3 : (-3 ≤ 1)%Z) by lia.
  split; [exact H7|]. split; [exact H3|]. split.
  - exact (proj1 (proj1 (n_conv_layers_saturates (T:=Meta.torch) 1 5 64 None 10 true 7 tt)
                    H7)).
  - exact (proj1 (proj2 (n_conv_layers_saturates (T:=Meta.torch) 1 5 64 None 10 true (-3) tt)
                    H3)).
Defined.

(** * Further properties of the code *)

(** ** AttentionLSTM: indexing the shapes *)

Section TupleFacts.
Context {TE : Type}.

Lemma tuple_getitem_0 (d : nat) (tup : list nat) :
  tuple_getitem (TE:=TE) (d :: tup) 0 = Ok d.
Proof.
  unfold tuple_getitem. change (0 <? 0)%Z with false. cbv iota.
  change (0 <? 0)%Z with false. cbn [orb length].
  destruct (Z.leb_spec (Z.of_nat (S (length tup))) 0); [lia|]. reflexivity.
Qed.

Lemma tuple_getitem_1 (tup : list nat) :
  tuple_getitem (TE:=TE) tup 1 =
  match tup with
  | _ :: d :: _ => Ok d
  | _ => Raise (IndexError "tuple index out of range")
  end.
Proof.
  unfold tuple_getitem. change (1 <? 0)%Z with false. cbv iota.
  change (1 <? 0)%Z with false. cbn [orb].
  destruct tup as [|a [|b tup]]; try reflexivity.
  cbn [length].
  destruct (Z.leb_spec (Z.of_nat (S (S (length tup)))) 1); [lia|]. reflexivity.
Qed.

End TupleFacts.

Section AttentionEdges.
Context {T : Torch}.

(** The part of [forward] after the reads of the shapes fails in the
    framework only. *)
Lemma forward_body_raises (self : AttentionLSTM.t) support queries batch_size embedding_dim :
  raises_only is_TorchError
    (h_hat ← call (torch_zeros_like queries);
     h_hat ← call (Tensor_cuda h_hat);
     h_hat ← call (Tensor_double h_hat);
     c ← call (torch_zeros [batch_size; embedding_dim]);
     c ← call (Tensor_cuda c);
     c ← call (Tensor_double c);
     '(h_hat, c) ← for_each (AttentionLSTM.range (AttentionLSTM.unrolling_steps self))
                      (AttentionLSTM.step self support queries) (h_hat, c);
     h ← call (Tensor_add h_hat queries);
     mret h).
Proof.
  repeat (apply raises_only_bind;
          [ first [ apply raises_only_call
                  | apply raises_only_for_each; intros; apply step_raises ]
          | first [ intros [? ?] | intros ? ] ]).
  apply raises_only_Ok.
Qed.


End AttentionEdges.

(** ** AttentionLSTM: the module as constructed *)

Module AttentionShapes.

Lemma step_shape (size : nat) (steps k : Z) (n b d : nat) :
  AttentionLSTM.step (T:=Meta.torch) (AttentionLSTM.init (T:=Meta.torch) size steps tt).1
    [n; d] [b; d] ([b; d], [b; d]) k
  = if d =? size then Ok ([b; d], [b; d])
    else Raise (TorchError "lstm_cell: input has inconsistent input_size").
Proof.
  unfold AttentionLSTM.step, AttentionLSTM.init, nn.LSTMCell_init, nn.LSTMCell_forward.
  cbn [fst AttentionLSTM.lstm_cell nn.weight_ih nn.weight_hh nn.bias_ih nn.bias_hh
       init_uniform Tensor_add Tensor_t torch_mm Tensor_softmax VF_lstm_cell Meta.torch].
  rewrite AttentionFacts.broadcast_same. cbn [call mbind result_bind Meta.transpose Meta.mm].
  rewrite Nat.eqb_refl.
  cbn [call mbind result_bind Meta.softmax length Nat.ltb Nat.leb orb Meta.mm].
  rewrite Nat.eqb_refl. cbn [call mbind result_bind].
  rewrite AttentionFacts.broadcast_same. cbn [call mbind result_bind].
  unfold Meta.lstm_cell. rewrite !Nat.eqb_refl, !MetaFacts.shape_eqb_refl. cbn [andb negb].
  destruct (Nat.eqb_spec d size) as [->|Hne]; cbn [negb].
  - cbn [fst snd]. rewrite !MetaFacts.shape_eqb_refl. reflexivity.
  - reflexivity.
Qed.

Lemma loop_shape (size : nat) (steps : Z) (n b d : nat) (ks : list Z) :
  for_each ks
    (AttentionLSTM.step (T:=Meta.torch)
       (AttentionLSTM.init (T:=Meta.torch) size steps tt).1 [n; d] [b; d]) ([b; d], [b; d])
  = if bool_decide (ks = []) || (d =? size) then Ok ([b; d], [b; d])
    else Raise (TorchError "lstm_cell: input has inconsistent input_size").
Proof.
  induction ks as [|k ks IH]; [reflexivity|].
  cbn [for_each]. rewrite step_shape.
  destruct (d =? size) eqn:E.
  - cbn [mbind result_bind]. rewrite IH, !orb_true_r. reflexivity.
  - reflexivity.
Qed.

Lemma forward_init_shape (size : nat) (steps : Z) (n b d : nat) :
  AttentionLSTM.forward (T:=Meta.torch)
    (AttentionLSTM.init (T:=Meta.torch) size steps tt).1 [n; d] [b; d]
  = if bool_decide (d = size ∨ (steps ≤ 0)%Z) then Ok [b; d]
    else Raise (TorchError "lstm_cell: input has inconsistent input_size").
Proof.
  unfold AttentionLSTM.forward.
  cbn [shape torch_zeros_like torch_zeros Tensor_cuda Tensor_double Meta.torch].
  change (tuple_getitem [n; d] (-1)) with (Ok (E:=exn string) d).
  change (tuple_getitem [b; d] (-1)) with (Ok (E:=exn string) d).
  change (tuple_getitem [b; d] 0) with (Ok (E:=exn string) b).
  change (tuple_getitem [b; d] 1) with (Ok (E:=exn string) d).
  cbn [mbind result_bind call]. rewrite Nat.eqb_refl. cbn [negb].
  change (AttentionLSTM.unrolling_steps
            (AttentionLSTM.init (T:=Meta.torch) size steps tt).1) with steps.
  rewrite loop_shape.
  assert (Hr : bool_decide (AttentionLSTM.range steps = []) = bool_decide (steps ≤ 0)%Z).
  { apply bool_decide_ext. unfold AttentionLSTM.range.
    destruct (Z.to_nat steps) eqn:E; cbn [seq fmap list_fmap]; split; intros H;
      first [reflexivity | lia | discriminate H]. }
  rewrite Hr.
  destruct (Nat.eqb_spec d size) as [->|Hne].
  - rewrite orb_true_r, bool_decide_eq_true_2 by auto.
    cbn [mbind result_bind Tensor_add Meta.torch]. rewrite AttentionFacts.broadcast_same.
    reflexivity.
  - rewrite orb_false_r.
    destruct (bool_decide_reflect (steps ≤ 0)%Z).
    + rewrite bool_decide_eq_true_2 by auto.
      cbn [mbind result_bind Tensor_add Meta.torch]. rewrite AttentionFacts.broadcast_same.
      reflexivity.
    + rewrite bool_decide_eq_false_2 by tauto. reflexivity.
Qed.



End AttentionShapes.

Module AttentionValues.
Local Open Scope R_scope.

(** An index within the shape addresses the operand itself. *)
Lemma broadcast_index_id (s idx : list nat) :
  Forall2 lt idx s → Real.broadcast_index s idx = idx.
Proof.
  intros H. unfold Real.broadcast_index.
  rewrite (Forall2_length _ _ _ H), Nat.sub_diag. change (drop 0 idx) with idx.
  induction H as [|i d idx s Hid H IH]; [reflexivity|].
  cbn [zip_with]. rewrite IH. destruct (Nat.eqb_spec d 1); [f_equal; lia | reflexivity].
Qed.




End AttentionValues.

(** ** The binary activations: unpacking the argument *)

Ltac raises_torch :=
  repeat first
    [ apply raises_only_call
    | apply raises_only_Ok
    | apply raises_only_bind; [| first [intros [? ?] | intros ?]] ].

Section Unpacking.
Context {T : Torch}.

Lemma unpack2_list_length (l : list pyval) :
  length l ≠ 2 → ∃ msg, unpack2 (PyList l) = Raise (ValueError msg).
Proof.
  destruct l as [|a [|b [|c l]]]; cbn [length unpack2]; intros H;
    first [lia | eauto].
Qed.

Lemma py_mul_raises (a b : pyval) : raises_only not_ValueError (py_mul a b).
Proof.
  destruct a, b; cbn [py_mul];
    first [ eapply raises_only_weaken, raises_only_call;
            apply TorchError_not_ValueError
          | intros e [= <-] msg [=] ].
Qed.

Lemma Hardsigmoid_raises (x : tensor) : raises_only is_TorchError (Hardsigmoid.forward x).
Proof.
  unfold Hardsigmoid.forward, nn.Hardtanh_forward. raises_torch.
Qed.

Lemma call_binarizer_raises b (x : tensor) g :
  raises_only is_TorchError (call_binarizer b x g).
Proof.
  destruct b; cbn [call_binarizer]; try apply raises_only_Ok.
  - unfold RoundST, apply. cbn [Function_forward RoundFunctionST.function].
    unfold RoundFunctionST.forward. raises_torch.
  - unfold BernoulliST, apply. cbn [Function_forward BernoulliFunctionST.function].
    unfold BernoulliFunctionST.forward. raises_torch.
Qed.

Lemma py_sample_raises (v : pyval) g : raises_only not_ValueError (py_sample v g).
Proof.
  destruct v as [| | | |d]; cbn [py_sample]; try (intros e [= <-] msg [=]).
  eapply raises_only_weaken; [apply TorchError_not_ValueError|].
  destruct d; cbn [distribution_sample]; raises_torch.
Qed.

Lemma activate_raises estimator binarizer x slope g :
  raises_only not_ValueError (activate estimator binarizer x slope g).
Proof.
  unfold activate.
  apply raises_only_bind; [apply py_mul_raises | intros ?].
  apply raises_only_bind;
    [eapply raises_only_weaken, Hardsigmoid_raises; apply TorchError_not_ValueError
    | intros ?].
  apply raises_only_bind; [destruct binarizer; intros e [= <-] msg [=] | intros ?].
  apply raises_only_bind;
    [eapply raises_only_weaken, call_binarizer_raises; apply TorchError_not_ValueError
    | intros [? ?]].
  destruct (String.eqb _ _); [apply py_sample_raises | apply raises_only_Ok].
Qed.

Lemma binary_act_forward_unpacked (m : binary_act_t) (input : pyval) (g : generator) :
  binary_act_forward m input g
  = ('(x, slope) ← unpack2 input;
     match m with
     | Stochastic m =>
       activate (StochasticBinaryActivation.estimator m)
         (StochasticBinaryActivation.binarizer m) x slope g
     | Deterministic m =>
       activate (DeterministicBinaryActivation.estimator m)
         (DeterministicBinaryActivation.binarizer m) x slope g
     end).
Proof.
  destruct m; cbn [binary_act_forward];
    unfold StochasticBinaryActivation.forward, DeterministicBinaryActivation.forward;
    destruct (unpack2 input) as [[x slope]|e]; reflexivity.
Qed.


End Unpacking.


(** ** SemanticBinaryClassifier: constructor and forward agree *)

Section Constructed.
Context {T : Torch}.

Lemma ConvBlock_forward_raises (b : ConvBlock) (x : tensor) :
  raises_only is_TorchError (ConvBlock_forward b x).
Proof.
  unfold ConvBlock_forward, nn.Conv2d_forward, nn.BatchNorm2d_forward, nn.ReLU_forward,
    nn.MaxPool2d_forward.
  raises_torch.
Qed.

Lemma Linear_forward_raises (l : nn.Linear) (x : tensor) :
  raises_only is_TorchError (nn.Linear_forward l x).
Proof. apply raises_only_call. Qed.

Lemma binary_act_init_forward (st : bool) (m : binary_act_t) (x : tensor)
  (slope : scalar) (g : generator) :
  binary_act_init st = Ok m →
  binary_act_forward m (PyList [PyTensor x; PyFloat slope]) g
  = ('(y, g) ← st_activation st x slope g; mret (PyTensor y, g)).
Proof.
  intros H. unfold st_activation.
  destruct st; cbv in H; injection H as <-; cbn [binary_act_forward];
    unfold StochasticBinaryActivation.forward, DeterministicBinaryActivation.forward;
    cbn [unpack2 py_mul mbind result_bind StochasticBinaryActivation.binarizer
         StochasticBinaryActivation.estimator DeterministicBinaryActivation.binarizer
         DeterministicBinaryActivation.estimator getattr call_binarizer];
    destruct (call (Tensor_rmul_scalar slope x)) as [x'|e]; cbn [mbind result_bind];
      try reflexivity;
    destruct (Hardsigmoid.forward x') as [p|e]; cbn [mbind result_bind];
      try reflexivity.
  - destruct (BernoulliST p g) as [[y g']|e]; reflexivity.
  - destruct (RoundST p g) as [[y g']|e]; reflexivity.
Qed.

Lemma st_activation_raises (st : bool) (x : tensor) (slope : scalar) (g : generator) :
  raises_only is_TorchError (st_activation st x slope g).
Proof.
  unfold st_activation.
  apply raises_only_bind; [apply raises_only_call | intros x'].
  apply raises_only_bind; [apply Hardsigmoid_raises | intros p].
  destruct st.
  - unfold BernoulliST, apply. cbn [Function_forward BernoulliFunctionST.function].
    unfold BernoulliFunctionST.forward. raises_torch.
  - unfold RoundST, apply. cbn [Function_forward RoundFunctionST.function].
    unfold RoundFunctionST.forward. raises_torch.
Qed.

Lemma act_tail_raises {A} (st : bool) (act : binary_act_t) (x : tensor) (slope : scalar)
  (g : generator) (k : tensor → pyval → generator → result (exn torch_error) A) :
  binary_act_init st = Ok act →
  (∀ y g', raises_only is_TorchError (k y (PyTensor y) g')) →
  raises_only is_TorchError
    ('(v, g) ← binary_act_forward act (PyList [PyTensor x; PyFloat slope]) g;
     code ← as_tensor v; k code v g).
Proof.
  intros Hact Hk. rewrite (binary_act_init_forward st act x slope g Hact).
  pose proof (st_activation_raises st x slope g) as Hst.
  destruct (st_activation st x slope g) as [[y g']|e].
  - cbn [mbind result_bind mret result_ret as_tensor]. apply Hk.
  - intros e' [= <-]. apply Hst. reflexivity.
Qed.


End Constructed.


(** ** Hardsigmoid and the straight-through activations on real numbers *)

Module ActivationValues.
Local Open Scope R_scope.

Lemma hardsigmoid_low (v : R) : v <= -1 → hardsigmoid v = 0.
Proof.
  intros H. unfold hardsigmoid. rewrite (Rmin_right 1 v) by lra.
  rewrite Rmax_left by lra. lra.
Qed.

Lemma hardsigmoid_mid (v : R) : -1 <= v <= 1 → hardsigmoid v = (v + 1) / 2.
Proof.
  intros H. unfold hardsigmoid. rewrite (Rmin_right 1 v) by lra.
  rewrite Rmax_right by lra. reflexivity.
Qed.

Lemma hardsigmoid_high (v : R) : 1 <= v → hardsigmoid v = 1.
Proof.
  intros H. unfold hardsigmoid. rewrite (Rmin_left 1 v) by lra.
  rewrite Rmax_right by lra. lra.
Qed.

Lemma hardsigmoid_monotone (u v : R) : u <= v → hardsigmoid u <= hardsigmoid v.
Proof.
  intros H. unfold hardsigmoid.
  assert (Rmax (-1) (Rmin 1 u) <= Rmax (-1) (Rmin 1 v)); [|lra].
  apply Rle_max_compat_l. apply Rle_min_compat_l. exact H.
Qed.

Lemma hardsigmoid_half (v : R) : 1 / 2 < hardsigmoid v ↔ 0 < v.
Proof.
  destruct (Rle_lt_dec v (-1)) as [H1|H1]; [rewrite hardsigmoid_low by exact H1; lra|].
  destruct (Rle_lt_dec v 1) as [H2|H2].
  - rewrite hardsigmoid_mid by lra. lra.
  - rewrite hardsigmoid_high by lra. lra.
Qed.

Lemma Hardsigmoid_forward_real (x : Real.rtensor) :
  Hardsigmoid.forward (T:=Real.torch) x
  = Ok {| Real.rshape := Real.rshape x;
          Real.rval := λ idx, hardsigmoid (Real.rval x idx) |}.
Proof. reflexivity. Qed.


(** Rounding a number of the unit interval: 1 above one half, 0 up to it
    (one half lies between two integers and goes to the even one). *)
Lemma round_half_even_step (p : R) :
  0 <= p <= 1 → Real.round_half_even p = if Rlt_dec (1 / 2) p then 1 else 0.
Proof.
  intros [H0 H1]. unfold Real.round_half_even, frac_part.
  destruct (base_Int_part p) as [Hle Hgt].
  assert (Hz : Int_part p = 0%Z ∨ Int_part p = 1%Z).
  { assert (IZR (Int_part p) < IZR 2) by (simpl; lra).
    assert (IZR (-1) < IZR (Int_part p)) by (simpl; lra).
    apply lt_IZR in H, H2. lia. }
  destruct Hz as [Hz | Hz]; rewrite Hz in *; simpl in *.
  - replace (p - 0) with p by lra.
    destruct (Rlt_dec p (1 / 2)), (Rlt_dec (1 / 2) p); try reflexivity; lra.
  - assert (p = 1) by lra. subst p.
    destruct (Rlt_dec (1 - 1) (1 / 2)) as [|Hn]; [|exfalso; apply Hn; lra].
    destruct (Rlt_dec (1 / 2) 1); [reflexivity | lra].
Qed.



End ActivationValues.

(** ** Shapes through the convolutional stacks *)

Module ShapeFacts.
Import MetaFacts.

(** A block as [conv_block] builds it, in either mode, accepts exactly the
    batches of its input channels that are at least 2x2. *)
Lemma conv_block_init_inv cin cout (training : bool) (x s : list nat) :
  ConvBlock_forward (T:=Meta.torch)
    (ConvBlock_train training (conv_block (T:=Meta.torch) cin cout 3 tt).1) x = Ok s →
  ∃ n h w, x = [n; cin; h; w] ∧ 2 ≤ h ∧ 2 ≤ w ∧ s = [n; cout; h / 2; w / 2].
Proof.
  intros H.
  destruct x as [|n [|c [|h [|w [|? ?]]]]]; try discriminate H.
  destruct (decide (c = cin)) as [->|Hc].
  - destruct (le_lt_dec 2 h) as [Hh|Hh].
    + destruct (le_lt_dec 2 w) as [Hw|Hw].
      * rewrite conv_block_init_shape in H by assumption. injection H as <-.
        eauto 10.
      * exfalso. revert H.
        unfold ConvBlock_forward, nn.Conv2d_forward, nn.BatchNorm2d_forward,
          nn.ReLU_forward, nn.MaxPool2d_forward.
        cbn [F_conv2d F_batch_norm F_relu F_max_pool2d Meta.torch conv_block
             ConvBlock_train cb_0 cb_1 cb_3 fst nn.Conv2d_init init_uniform
             nn.Conv2d_weight nn.Conv2d_bias nn.Conv2d_padding nn.kernel_size nn.stride].
        unfold Meta.conv2d. rewrite Nat.eqb_refl, opt_is_Some. cbn [negb Nat.eqb orb].
        destruct (_ || _); [discriminate|].
        cbn [call mbind result_bind].
        destruct (Meta.batch_norm _ _ _ _ _ _) as [y|e] eqn:E; [|discriminate].
        assert (y = [n; cout; h + 2 * 1 - 3 + 1; w + 2 * 1 - 3 + 1]) as ->.
        { revert E. unfold Meta.batch_norm. repeat case_match; congruence. }
        cbn [call mbind result_bind]. unfold Meta.max_pool2d. cbn [Nat.eqb orb].
        destruct (Nat.ltb_spec (w + 2 * 1 - 3 + 1) 2); [|lia].
        rewrite orb_true_r. discriminate.
    + exfalso. revert H.
      unfold ConvBlock_forward, nn.Conv2d_forward, nn.BatchNorm2d_forward,
        nn.ReLU_forward, nn.MaxPool2d_forward.
      cbn [F_conv2d F_batch_norm F_relu F_max_pool2d Meta.torch conv_block
           ConvBlock_train cb_0 cb_1 cb_3 fst nn.Conv2d_init init_uniform
           nn.Conv2d_weight nn.Conv2d_bias nn.Conv2d_padding nn.kernel_size nn.stride].
      unfold Meta.conv2d. rewrite Nat.eqb_refl, opt_is_Some. cbn [negb Nat.eqb orb].
      destruct (_ || _); [discriminate|].
      cbn [call mbind result_bind].
      destruct (Meta.batch_norm _ _ _ _ _ _) as [y|e] eqn:E; [|discriminate].
      assert (y = [n; cout; h + 2 * 1 - 3 + 1; w + 2 * 1 - 3 + 1]) as ->.
      { revert E. unfold Meta.batch_norm. repeat case_match; congruence. }
      cbn [call mbind result_bind]. unfold Meta.max_pool2d. cbn [Nat.eqb orb].
      destruct (Nat.ltb_spec (h + 2 * 1 - 3 + 1) 2); [|lia].
      discriminate.
  - exfalso. revert H.
    unfold ConvBlock_forward, nn.Conv2d_forward.
    cbn [F_conv2d Meta.torch conv_block ConvBlock_train cb_0 fst nn.Conv2d_init
         init_uniform nn.Conv2d_weight nn.Conv2d_bias nn.Conv2d_padding].
    unfold Meta.conv2d. destruct (Nat.eqb_spec c cin); [contradiction|]. discriminate.
Qed.

Lemma conv_block_shape cin cout n h w :
  2 ≤ h → 2 ≤ w →
  ConvBlock_forward (T:=Meta.torch) (conv_block (T:=Meta.torch) cin cout 3 tt).1
    [n; cin; h; w]
  = Ok [n; cout; h / 2; w / 2].
Proof. intros Hh Hw. exact (conv_block_init_shape cin cout n h w true Hh Hw). Qed.

(** [Flatten] keeps the first dimension and merges the others; a tensor
    without dimension and an empty batch are refused. *)
Lemma flatten_shape (x s : list nat) :
  Flatten_forward (T:=Meta.torch) x = Ok s
  ↔ ∃ n rest, x = n :: rest ∧ 0 < n ∧ s = [n; Meta.numel rest].
Proof.
  unfold Flatten_forward. cbn [Tensor_size Tensor_view Meta.torch]. split.
  - destruct x as [|n rest]; [discriminate|].
    rewrite size_0. cbn [call mbind result_bind].
    destruct (Nat.eq_dec n 0) as [->|Hn].
    + unfold Meta.view. cbn. discriminate.
    + rewrite view_flatten by lia. intros [= <-]. exists n, rest. split; [reflexivity|].
      split; [lia | reflexivity].
  - intros (n & rest & -> & Hn & ->). rewrite size_0. cbn [call mbind result_bind].
    rewrite view_flatten by exact Hn. reflexivity.
Qed.

Lemma div16 (h : nat) : h / 2 / 2 / 2 / 2 = h / 16.
Proof. rewrite !Nat.Div0.div_div. reflexivity. Qed.

Lemma four_halvings (h : nat) :
  2 ≤ h ∧ 2 ≤ h / 2 ∧ 2 ≤ h / 2 / 2 ∧ 2 ≤ h / 2 / 2 / 2 ↔ 16 ≤ h.
Proof.
  rewrite !Nat.Div0.div_div. change (2 * 2) with 4. change (4 * 2) with 8.
  split.
  - intros (_ & _ & _ & H). pose proof (Nat.Div0.mul_div_le h 8). lia.
  - intros H. repeat split; try lia; apply Nat.div_le_lower_bound; lia.
Qed.

Lemma four_blocks_shape (c : nat) (x x4 : list nat) :
  four_blocks c x = Ok x4
  ↔ ∃ B H W, x = [B; c; H; W] ∧ 16 ≤ H ∧ 16 ≤ W ∧ x4 = [B; 64; H / 16; W / 16].
Proof.
  unfold four_blocks. split.
  - intros E.
    apply bind_inv_Ok in E as (x1 & E1 & E).
    apply bind_inv_Ok in E as (x2 & E2 & E).
    apply bind_inv_Ok in E as (x3 & E3 & E4).
    apply (conv_block_init_inv c 64 true) in E1 as (B & h1 & w1 & -> & Hh1 & Hw1 & ->).
    apply (conv_block_init_inv 64 64 true) in E2 as (n2 & h2 & w2 & Heq2 & Hh2 & Hw2 & ->).
    assert (n2 = B) as -> by congruence.
    assert (h2 = h1 / 2) as -> by congruence.
    assert (w2 = w1 / 2) as -> by congruence. clear Heq2.
    apply (conv_block_init_inv 64 64 true) in E3 as (n3 & h3 & w3 & Heq3 & Hh3 & Hw3 & ->).
    assert (n3 = B) as -> by congruence.
    assert (h3 = h1 / 2 / 2) as -> by congruence.
    assert (w3 = w1 / 2 / 2) as -> by congruence. clear Heq3.
    apply (conv_block_init_inv 64 64 true) in E4 as (n4 & h4 & w4 & Heq4 & Hh4 & Hw4 & ->).
    assert (n4 = B) as -> by congruence.
    assert (h4 = h1 / 2 / 2 / 2) as -> by congruence.
    assert (w4 = w1 / 2 / 2 / 2) as -> by congruence. clear Heq4.
    exists B, h1, w1. split; [reflexivity|].
    split; [apply four_halvings; auto|]. split; [apply four_halvings; auto|].
    rewrite !div16. reflexivity.
  - intros (B & H & W & -> & HH & HW & ->).
    apply four_halvings in HH as (Hh1 & Hh2 & Hh3 & Hh4).
    apply four_halvings in HW as (Hw1 & Hw2 & Hw3 & Hw4).
    rewrite (conv_block_shape c 64 B H W) by assumption.
    cbn [mbind result_bind].
    rewrite (conv_block_shape 64 64 B) by assumption.
    cbn [mbind result_bind].
    rewrite (conv_block_shape 64 64 B) by assumption.
    cbn [mbind result_bind].
    rewrite (conv_block_shape 64 64 B) by assumption.
    rewrite !div16. reflexivity.
Qed.

Ltac through_blocks :=
  repeat match goal with
         | |- context [ConvBlock_forward ?b ?x] =>
           destruct (ConvBlock_forward b x); cbn [mbind result_bind]; try reflexivity
         end.

Lemma encoder_blocks (c : nat) (x : list nat) :
  FewShotEncoder_forward (T:=Meta.torch) (get_few_shot_encoder (T:=Meta.torch) c tt).1 x
  = four_blocks c x ≫= Flatten_forward (T:=Meta.torch).
Proof.
  unfold FewShotEncoder_forward, four_blocks.
  set (b1 := (conv_block (T:=Meta.torch) c 64 3 tt).1).
  set (b2 := (conv_block (T:=Meta.torch) 64 64 3 tt).1).
  change (enc_0 _) with b1. change (enc_1 _) with b2.
  change (enc_2 _) with b2. change (enc_3 _) with b2.
  through_blocks.
Qed.

Lemma classifier_blocks (c k f : nat) (x : list nat) :
  FewShotClassifier.forward (T:=Meta.torch) (FewShotClassifier.init (T:=Meta.torch) c k f tt).1 x
  = (x4 ← four_blocks c x; v ← Flatten_forward (T:=Meta.torch) x4;
     call (Meta.linear v [k; f] (Some [k]))).
Proof.
  unfold FewShotClassifier.forward, four_blocks, Flatten_forward.
  set (b1 := (conv_block (T:=Meta.torch) c 64 3 tt).1).
  set (b2 := (conv_block (T:=Meta.torch) 64 64 3 tt).1).
  change (FewShotClassifier.conv1 _) with b1. change (FewShotClassifier.conv2 _) with b2.
  change (FewShotClassifier.conv3 _) with b2. change (FewShotClassifier.conv4 _) with b2.
  through_blocks.
  destruct (call (Tensor_size _ 0)) as [n|e]; cbn [mbind result_bind]; [|reflexivity].
  destruct (call (Tensor_view _ _)) as [v|e]; reflexivity.
Qed.

Lemma view_blocks (c k f : nat) (x : list nat) :
  FewShotClassifier.view (T:=Meta.torch) (FewShotClassifier.init (T:=Meta.torch) c k f tt).1 x
  = (x1 ← ConvBlock_forward (T:=Meta.torch) (conv_block (T:=Meta.torch) c 64 3 tt).1 x;
     x2 ← ConvBlock_forward (T:=Meta.torch) (conv_block (T:=Meta.torch) 64 64 3 tt).1 x1;
     x3 ← ConvBlock_forward (T:=Meta.torch) (conv_block (T:=Meta.torch) 64 64 3 tt).1 x2;
     x4 ← ConvBlock_forward (T:=Meta.torch) (conv_block (T:=Meta.torch) 64 64 3 tt).1 x3;
     mret (x1, x2, x3, x4)).
Proof. reflexivity. Qed.

Lemma numel_features (h w : nat) : Meta.numel [64; h; w] = 64 * h * w.
Proof. unfold Meta.numel. cbn [foldr]. lia. Qed.

Lemma encoder_shape_iff (c : nat) (x s : list nat) :
  FewShotEncoder_forward (T:=Meta.torch)
    (get_few_shot_encoder (T:=Meta.torch) c tt).1 x = Ok s
  ↔ ∃ B H W, x = [B; c; H; W] ∧ 0 < B ∧ 16 ≤ H ∧ 16 ≤ W ∧
             s = [B; 64 * (H / 16) * (W / 16)].
Proof.
  rewrite encoder_blocks. split.
  - intros E. apply bind_inv_Ok in E as (x4 & E4 & Ef).
    apply four_blocks_shape in E4 as (B & H & W & -> & HH & HW & ->).
    apply flatten_shape in Ef as (n & rest & Heq & Hn & ->).
    assert (n = B) as -> by congruence.
    assert (rest = [64; H / 16; W / 16]) as -> by congruence.
    exists B, H, W. rewrite numel_features. auto 10.
  - intros (B & H & W & -> & HB & HH & HW & ->).
    assert (E4 : four_blocks c [B; c; H; W] = Ok [B; 64; H / 16; W / 16])
      by (apply four_blocks_shape; eauto 10).
    rewrite E4. cbn [mbind result_bind]. apply flatten_shape.
    exists B, [64; H / 16; W / 16]. rewrite numel_features. auto.
Qed.





End ShapeFacts.

(** ** FewShotClassifier: the encoder with a classification layer on top *)

Section EncoderWithHead.
Context {T : Torch}.


End EncoderWithHead.

(** ** SemanticBinaryAutoEncoder: the decoder *)

Module DecoderFacts.
Import MetaFacts.

Lemma conv_transpose2d_ok n c h w o k p :
  0 < h → 0 < w → 0 < k → 2 * p < k →
  Meta.conv_transpose2d [n; c; h; w] [c; o; k; k] (Some [o]) p
  = Ok [n; o; h - 1 + k - 2 * p; w - 1 + k - 2 * p].
Proof.
  intros Hh Hw Hk Hp. unfold Meta.conv_transpose2d.
  rewrite Nat.eqb_refl, opt_is_Some. cbn [negb].
  destruct (Nat.eqb_spec h 0); [lia|]. destruct (Nat.eqb_spec w 0); [lia|].
  destruct (Nat.eqb_spec k 0); [lia|]. cbn [orb].
  destruct (Nat.leb_spec (h - 1 + k) (2 * p)); [lia|].
  destruct (Nat.leb_spec (w - 1 + k) (2 * p)); [lia|].
  reflexivity.
Qed.

(** The transposed convolution at the head of [decoder] takes a batch of
    maps; a matrix is refused whatever the weights. *)
Lemma decoder_matrix (self : SemanticBinaryAutoEncoder.t (T:=Meta.torch)) (a c : nat) :
  SemanticBinaryAutoEncoder.decoder self [a; c]
  = Raise (TorchError "conv_transpose2d: expected a 4D input and a 4D weight").
Proof.
  unfold SemanticBinaryAutoEncoder.decoder, DeconvBlock_forward, nn.ConvTranspose2d_forward.
  cbn [F_conv_transpose2d Meta.torch]. unfold Meta.conv_transpose2d.
  reflexivity.
Qed.


End DecoderFacts.

(** ** Values that leave the blocks *)

Module BlockValues.
Local Open Scope R_scope.

Lemma call_inv_Ok {TE A} (r : result TE A) (a : A) : call r = Ok a → r = Ok a.
Proof. destruct r; cbn [call]; congruence. Qed.

Lemma lift_inv (s : result string (list nat)) (v : list nat → R) (y : Real.rtensor) :
  Real.lift s v = Ok y → s = Ok (Real.rshape y) ∧ Real.rval y = v.
Proof.
  unfold Real.lift. destruct s as [sh|e]; cbn [fmap result_fmap]; [|discriminate].
  intros [= <-]. split; reflexivity.
Qed.

Lemma rmax_upto_nonneg (k : nat) (f : nat → R) : (∀ u, 0 <= f u) → 0 <= Real.rmax_upto k f.
Proof.
  intros Hf. induction k as [|k IH]; cbn [Real.rmax_upto]; [apply Hf|].
  eapply Rle_trans; [exact IH | apply Rmax_l].
Qed.

Lemma rmaxn_nonneg (k : nat) (f : nat → R) : (∀ u, 0 <= f u) → 0 <= Real.rmaxn k f.
Proof.
  intros Hf. destruct k as [|k]; cbn [Real.rmaxn]; [lra | apply rmax_upto_nonneg, Hf].
Qed.

Lemma relu_inv (x y : Real.rtensor) :
  call (F_relu (Torch:=Real.torch) x) = Ok y →
  Real.rshape y = Real.rshape x ∧ ∀ idx, Real.rval y idx = Rmax 0 (Real.rval x idx).
Proof. cbn. intros [= <-]. split; reflexivity. Qed.

Lemma max_pool2d_nonneg (x y : Real.rtensor) (k s : nat) :
  (∀ idx, 0 <= Real.rval x idx) →
  call (F_max_pool2d (Torch:=Real.torch) x k s) = Ok y → ∀ idx, 0 <= Real.rval y idx.
Proof.
  intros Hx H idx. apply call_inv_Ok in H. cbn [F_max_pool2d Real.torch] in H.
  unfold Real.max_pool2d in H. apply lift_inv in H as [_ ->].
  destruct idx as [|n [|c [|i [|j [|? ?]]]]]; try lra.
  apply rmaxn_nonneg. intros u. apply rmaxn_nonneg. intros v. apply Hx.
Qed.

Lemma view_nonneg (x y : Real.rtensor) (dims : list Z) :
  (∀ idx, 0 <= Real.rval x idx) →
  call (Tensor_view (Torch:=Real.torch) x dims) = Ok y → ∀ idx, 0 <= Real.rval y idx.
Proof.
  intros Hx H idx. apply call_inv_Ok in H. cbn [Tensor_view Real.torch] in H.
  unfold Real.view in H. destruct (Meta.view _ _); [|discriminate].
  injection H as <-. apply Hx.
Qed.

Lemma ConvBlock_forward_nonneg (b : ConvBlock (T:=Real.torch)) (x y : Real.rtensor) :
  ConvBlock_forward b x = Ok y → ∀ idx, 0 <= Real.rval y idx.
Proof.
  unfold ConvBlock_forward, nn.ReLU_forward, nn.MaxPool2d_forward. intros H.
  apply bind_inv_Ok in H as (x1 & _ & H).
  apply bind_inv_Ok in H as (x2 & _ & H).
  apply bind_inv_Ok in H as (x3 & Hr & H).
  apply relu_inv in Hr as [_ Hr].
  eapply (max_pool2d_nonneg x3 y); [|exact H].
  intros idx. rewrite Hr. apply Rmax_l.
Qed.

Lemma functional_conv_block_nonneg (x w b : Real.rtensor) (bw bb : option Real.rtensor)
  (y : Real.rtensor) :
  functional_conv_block (T:=Real.torch) x w b bw bb = Ok y → ∀ idx, 0 <= Real.rval y idx.
Proof.
  unfold functional_conv_block. intros H.
  apply bind_inv_Ok in H as (x1 & _ & H).
  apply bind_inv_Ok in H as (x2 & _ & H).
  apply bind_inv_Ok in H as (x3 & Hr & H).
  apply bind_inv_Ok in H as (x4 & Hp & H). injection H as <-.
  apply relu_inv in Hr as [_ Hr].
  eapply (max_pool2d_nonneg x3 x4); [|exact Hp].
  intros idx. rewrite Hr. apply Rmax_l.
Qed.

Lemma DeconvBlock_forward_nonneg (b : DeconvBlock (T:=Real.torch)) (x y : Real.rtensor) :
  DeconvBlock_forward b x = Ok y → ∀ idx, 0 <= Real.rval y idx.
Proof.
  unfold DeconvBlock_forward, nn.ReLU_forward. intros H.
  apply bind_inv_Ok in H as (x1 & _ & H).
  apply bind_inv_Ok in H as (x2 & _ & H).
  apply relu_inv in H as [_ Hr].
  intros idx. rewrite Hr. apply Rmax_l.
Qed.

Lemma FewShotEncoder_forward_nonneg (enc : FewShotEncoder (T:=Real.torch))
  (x y : Real.rtensor) :
  FewShotEncoder_forward enc x = Ok y → ∀ idx, 0 <= Real.rval y idx.
Proof.
  unfold FewShotEncoder_forward, Flatten_forward. intros H.
  apply bind_inv_Ok in H as (x1 & _ & H).
  apply bind_inv_Ok in H as (x2 & _ & H).
  apply bind_inv_Ok in H as (x3 & _ & H).
  apply bind_inv_Ok in H as (x4 & H4 & H).
  apply bind_inv_Ok in H as (n & _ & H).
  eapply (view_nonneg x4 y); [|exact H].
  apply (ConvBlock_forward_nonneg _ _ _ H4).
Qed.



End BlockValues.

Module CodeValues.
Import BlockValues ActivationValues.
Local Open Scope R_scope.

Lemma tanh_range (x : R) : -1 < tanh x < 1.
Proof.
  unfold tanh, sinh, cosh.
  pose proof (exp_pos x) as Ha. pose proof (exp_pos (- x)) as Hb.
  set (a := exp x) in *. set (b := exp (- x)) in *.
  replace ((a - b) / 2 / ((a + b) / 2)) with ((a - b) / (a + b)) by (field; lra).
  assert (Hc : 0 < / (a + b)) by (apply Rinv_0_lt_compat; lra).
  assert (Hab : (a + b) * / (a + b) = 1) by (apply Rinv_r; lra).
  unfold Rdiv. nra.
Qed.

(** [decoder] ends in [tanh]. *)
Lemma decoder_range (self : SemanticBinaryAutoEncoder.t (T:=Real.torch))
  (latent_space y : Real.rtensor) :
  SemanticBinaryAutoEncoder.decoder self latent_space = Ok y →
  ∀ idx, -1 < Real.rval y idx < 1.
Proof.
  unfold SemanticBinaryAutoEncoder.decoder. intros H.
  apply bind_inv_Ok in H as (x1 & _ & H).
  apply bind_inv_Ok in H as (x2 & _ & H).
  apply bind_inv_Ok in H as (x3 & _ & H).
  cbn in H. injection H as <-. intros idx. apply tanh_range.
Qed.

(** The straight-through activations return zeros and ones. *)
Lemma st_activation_binary (st : bool) (x : Real.rtensor) (slope : R) (g g' : Real.noise)
  (y : Real.rtensor) :
  st_activation (T:=Real.torch) st x slope g = Ok (y, g') →
  Real.rshape y = Real.rshape x ∧ binary y.
Proof.
  destruct st; cbn; intros [= <- _]; (split; [reflexivity|]); intros idx; cbn [Real.rval].
  - destruct (Rlt_dec _ _); auto.
  - apply RealFacts.round_half_even_unit, RealFacts.hardsigmoid_range.
Qed.

End CodeValues.

(** ** The decoder on real numbers *)

Module DecoderValues.
Import MetaFacts DecoderFacts CodeValues.
Local Open Scope R_scope.

Lemma DeconvBlock_forward_real (b : DeconvBlock (T:=Real.torch)) (x : Real.rtensor)
  (n c o h w : nat) :
  deconv_built c o b → Real.rshape x = [n; c; h; w] →
  (0 < h)%nat → (0 < w)%nat → (n * (h * w) ≠ 1)%nat →
  ∃ y : Real.rtensor, DeconvBlock_forward b x = Ok y ∧ Real.rshape y = [n; o; h; w].
Proof.
  intros (Hw0 & Hb0 & Hp & Hw1 & Hb1 & Hrm & Hrv) Hx Hh Hw Hn.
  unfold DeconvBlock_forward, nn.ConvTranspose2d_forward, nn.BatchNorm2d_forward,
    nn.ReLU_forward.
  cbn [F_conv_transpose2d F_batch_norm F_relu Real.torch].
  unfold Real.conv_transpose2d, Real.lift. cbn [fmap option_fmap option_map].
  rewrite Hx, Hw0, Hb0, Hp. rewrite conv_transpose2d_ok by lia.
  replace (h - 1 + 3 - 2 * 1)%nat with h by lia.
  replace (w - 1 + 3 - 2 * 1)%nat with w by lia.
  cbn [fmap result_fmap call mbind result_bind].
  unfold Real.batch_norm, Real.lift. cbn [fmap option_fmap option_map Real.rshape].
  rewrite Hw1, Hb1, Hrm, Hrv.
  assert (Hne : (n * Meta.numel [h; w] ≠ 1)%nat).
  { unfold Meta.numel. cbn [foldr]. rewrite Nat.mul_1_r. exact Hn. }
  destruct (nn.BatchNorm2d_training (db_1 b));
    [rewrite batch_norm_train_ok by exact Hne | rewrite batch_norm_eval_ok];
    cbn [fmap result_fmap call mbind result_bind Real.pointwise];
    eexists; split; reflexivity.
Qed.



End DecoderValues.

(** ** SemanticBinaryClassifier on real numbers *)

Module ClassifierReturns.
Import MetaFacts EvalMode CodeValues.
Local Open Scope R_scope.

Lemma init_built (c k f : nat) (sd : option nat) (sb : nat) (st : bool) (n : Z)
  (g g0 : Real.noise) (m : SemanticBinaryClassifier.t (T:=Real.torch)) :
  SemanticBinaryClassifier.init (T:=Real.torch) c k f sd sb st n g = Ok (m, g0) →
  classifier_built c k sd sb st n m.
Proof.
  unfold SemanticBinaryClassifier.init, classifier_built, dense_width.
  destruct (n >=? 2)%Z eqn:H2, (n >=? 3)%Z eqn:H3, (n >=? 4)%Z eqn:H4; try lia;
    destruct sd as [size|], st;
    cbn [conv_block nn.Conv2d_init nn.Linear_init init_uniform Real.torch
         binary_act_init StochasticBinaryActivation.init DeterministicBinaryActivation.init
         fmap result_fmap mbind result_bind mret result_ret negb bool_decide
         decide_rel];
    intros [= <- _];
    cbn [SemanticBinaryClassifier.conv1 SemanticBinaryClassifier.conv2
         SemanticBinaryClassifier.conv3 SemanticBinaryClassifier.conv4
         SemanticBinaryClassifier.dense1 SemanticBinaryClassifier.dense2
         SemanticBinaryClassifier.binary_act SemanticBinaryClassifier.logits
         SemanticBinaryClassifier.dense_layer_before_bin
         SemanticBinaryClassifier.n_conv_layers assigned_when];
    repeat split; eexists; split; first [reflexivity | repeat split].
Qed.

Lemma Linear_forward_real (l : nn.Linear (T:=Real.torch)) (x : Real.rtensor) (B i o : nat) :
  linear_built i o l → Real.rshape x = [B; i] →
  ∃ y : Real.rtensor, nn.Linear_forward l x = Ok y ∧ Real.rshape y = [B; o].
Proof.
  intros [Hw Hb] Hx. unfold nn.Linear_forward. cbn [F_linear Real.torch].
  unfold Real.linear, Real.lift. cbn [fmap option_fmap option_map].
  rewrite Hx, Hw, Hb. unfold Meta.linear. cbn [last].
  rewrite Nat.eqb_refl, opt_is_Some.
  cbn [negb fmap result_fmap call removelast app]. eexists. split; reflexivity.
Qed.

Lemma flatten_real (y : Real.rtensor) (B : nat) (rest : list nat) :
  (0 < B)%nat → Real.rshape y = B :: rest →
  ∃ v : Real.rtensor,
    (n ← call (Tensor_size (Torch:=Real.torch) y 0);
     call (Tensor_view (Torch:=Real.torch) y [Z.of_nat n; (-1)%Z])) = Ok v ∧
    Real.rshape v = [B; Meta.numel rest].
Proof.
  intros HB Hy. cbn [Tensor_size Tensor_view Real.torch]. rewrite Hy, size_0.
  cbn [call mbind result_bind]. unfold Real.view. rewrite Hy, view_flatten by exact HB.
  eexists. split; reflexivity.
Qed.

Lemma features_real (c k : nat) (sd : option nat) (sb : nat) (st : bool) (n : Z)
  (m : SemanticBinaryClassifier.t (T:=Real.torch)) (x : Real.rtensor) (B : nat) :
  classifier_built c k sd sb st n m → (0 < B)%nat → Real.rshape x = [B; c; 28; 28]%nat →
  ∃ y : Real.rtensor,
    SemanticBinaryClassifier.features m x = Ok y ∧ Real.rshape y = [B; dense_width n].
Proof.
  intros (H1 & C2 & C3 & C4 & Hn & _) HB Hx.
  unfold SemanticBinaryClassifier.features. rewrite Hn.
  destruct H1 as (? & ? & ? & ? & ? & ? & ? & ?).
  rewrite (conv_block_forward_real _ x B c 28 28 64) by (assumption || lia).
  cbn [mbind result_bind]. unfold dense_width, assigned_when in *.
  destruct (n >=? 2)%Z eqn:E2.
  2:{ destruct (n >=? 3)%Z eqn:E3; [lia|]. destruct (n >=? 4)%Z eqn:E4; [lia|].
      cbn [mbind result_bind mret result_ret].
      apply (flatten_real _ B [64; 14; 14]%nat HB). reflexivity. }
  destruct C2 as (b2 & -> & (? & ? & ? & ? & ? & ? & ? & ?)).
  cbn [getattr mbind result_bind].
  rewrite (conv_block_forward_real b2 _ B 64 14 14 64) by (assumption || reflexivity || lia).
  cbn [mbind result_bind].
  destruct (n >=? 3)%Z eqn:E3.
  2:{ destruct (n >=? 4)%Z eqn:E4; [lia|].
      cbn [mbind result_bind mret result_ret].
      apply (flatten_real _ B [64; 7; 7]%nat HB). reflexivity. }
  destruct C3 as (b3 & -> & (? & ? & ? & ? & ? & ? & ? & ?)).
  cbn [getattr mbind result_bind].
  rewrite (conv_block_forward_real b3 _ B 64 7 7 64) by (assumption || reflexivity || lia).
  cbn [mbind result_bind].
  destruct (n >=? 4)%Z eqn:E4.
  2:{ cbn [mbind result_bind mret result_ret].
      apply (flatten_real _ B [64; 3; 3]%nat HB). reflexivity. }
  destruct C4 as (b4 & -> & (? & ? & ? & ? & ? & ? & ? & ?)).
  cbn [getattr mbind result_bind].
  rewrite (conv_block_forward_real b4 _ B 64 3 3 64) by (assumption || reflexivity || lia).
  cbn [mbind result_bind].
  apply (flatten_real _ B [64; 1; 1]%nat HB). reflexivity.
Qed.

Lemma st_activation_real (st : bool) (x : Real.rtensor) (slope : R) (g : Real.noise) :
  ∃ (y : Real.rtensor) (g' : Real.noise),
    st_activation (T:=Real.torch) st x slope g = Ok (y, g') ∧
    Real.rshape y = Real.rshape x ∧ binary y.
Proof.
  assert (E : ∃ y g', st_activation (T:=Real.torch) st x slope g = Ok (y, g'))
    by (destruct st; do 2 eexists; reflexivity).
  destruct E as (y & g' & E). exists y, g'. split; [exact E|].
  exact (st_activation_binary st x slope g g' y E).
Qed.

Lemma forward_28 (c k : nat) (sd : option nat) (sb : nat) (st : bool) (n : Z)
  (m : SemanticBinaryClassifier.t (T:=Real.torch)) (x : Real.rtensor) (g : Real.noise)
  (B : nat) :
  classifier_built c k sd sb st n m →
  (0 < B)%nat →
  Real.rshape x = [B; c; 28; 28]%nat →
  ∃ (out y : Real.rtensor) (g' : Real.noise),
    SemanticBinaryClassifier.forward m x g = Ok (out, PyTensor (T:=Real.torch) y, g') ∧
    Real.rshape out = [B; k] ∧
    Real.rshape y = [B; sb].
Proof.
  intros Hm HB Hx.
  destruct (features_real c k sd sb st n m x B Hm HB Hx) as (v & Ev & Hv).
  destruct Hm as (_ & _ & _ & _ & _ & Hd & Hact & Hl).
  assert (Ed : ∃ h : Real.rtensor,
            (x ← (if SemanticBinaryClassifier.dense_layer_before_bin m
                  then d ← getattr (TE:=string) "dense1"
                             (SemanticBinaryClassifier.dense1 m);
                       nn.Linear_forward (T:=Real.torch) d v
                  else mret v);
             nn.Linear_forward (SemanticBinaryClassifier.dense2 m) x) = Ok h ∧
            Real.rshape h = [B; sb]).
  { destruct sd as [size|].
    - destruct Hd as (-> & (d1 & -> & Hd1) & Hd2). cbn [getattr mbind result_bind].
      destruct (Linear_forward_real d1 v B _ size Hd1 Hv) as (h1 & -> & Hh1).
      cbn [mbind result_bind]. exact (Linear_forward_real _ h1 B size sb Hd2 Hh1).
    - destruct Hd as (-> & Hd2). cbn [mbind result_bind mret result_ret].
      exact (Linear_forward_real _ v B _ sb Hd2 Hv). }
  destruct Ed as (h & Ed & Hh).
  destruct (st_activation_real st h (SemanticBinaryClassifier.slope m) g)
    as (y & g' & Ey & Hy & Hbin).
  destruct (Linear_forward_real _ y B sb k Hl (eq_trans Hy Hh)) as (out & Eo & Ho).
  exists out, y, g'.
  split; [|split; [exact Ho | exact (eq_trans Hy Hh)]].
  unfold SemanticBinaryClassifier.forward. rewrite Ev. cbn [mbind result_bind].
  revert Ed.
  destruct (if SemanticBinaryClassifier.dense_layer_before_bin m then _ else _) as [x1|e];
    cbn [mbind result_bind]; [|discriminate].
  intros ->. cbn [mbind result_bind].
  rewrite (binary_act_init_forward (T:=Real.torch) st _ h _ g Hact), Ey.
  cbn [mbind result_bind mret result_ret as_tensor]. rewrite Eo. reflexivity.
Qed.

(** What [forward] returns, on any input. *)
Lemma forward_inv (st : bool) (m : SemanticBinaryClassifier.t (T:=Real.torch))
  (x out : Real.rtensor) (code : pyval (T:=Real.torch)) (g g' : Real.noise) :
  binary_act_init (T:=Real.torch) st = Ok (SemanticBinaryClassifier.binary_act m) →
  SemanticBinaryClassifier.forward m x g = Ok (out, code, g') →
  ∃ y : Real.rtensor,
    code = PyTensor (T:=Real.torch) y ∧ binary y ∧
    nn.Linear_forward (SemanticBinaryClassifier.logits m) y = Ok out.
Proof.
  intros Hact H. unfold SemanticBinaryClassifier.forward in H.
  apply bind_inv_Ok in H as (x1 & _ & H).
  apply bind_inv_Ok in H as (x2 & _ & H).
  apply bind_inv_Ok in H as (x3 & _ & H).
  rewrite (binary_act_init_forward (T:=Real.torch) st _ x3 _ g Hact) in H.
  destruct (st_activation (T:=Real.torch) st x3 (SemanticBinaryClassifier.slope m) g)
    as [[y gy]|e] eqn:E; [|discriminate H].
  cbn [mbind result_bind mret result_ret as_tensor] in H.
  apply bind_inv_Ok in H as (out' & Hl & H). injection H as <- <- <-.
  exists y. split; [reflexivity|]. split; [|exact Hl].
  exact (proj2 (st_activation_binary st x3 _ g gy y E)).
Qed.



End ClassifierReturns.

(** ** The global pooling layers *)

Module PoolingFacts.
Import MetaFacts.
Local Open Scope R_scope.

(** [view(-1, c)]: the first dimension is inferred. *)
Lemma view_infer_first (s : list nat) (c : nat) :
  (0 < c)%nat → (Meta.numel s mod c = 0)%nat →
  Meta.view s [(-1)%Z; Z.of_nat c] = Ok [(Meta.numel s / c)%nat; c].
Proof.
  intros Hc Hmod. unfold Meta.view.
  assert (Hf1 : filter (λ d : Z, d ≠ (-1)%Z) [(-1)%Z; Z.of_nat c] = [Z.of_nat c]).
  { rewrite filter_cons_False by (intros H; apply H; reflexivity).
    rewrite filter_cons_True by lia. reflexivity. }
  assert (Hf2 : filter (λ d : Z, d = (-1)%Z) [(-1)%Z; Z.of_nat c] = [(-1)%Z]).
  { rewrite filter_cons_True by reflexivity. rewrite filter_cons_False by lia.
    reflexivity. }
  rewrite Hf1, Hf2. cbn [foldr length existsb orb].
  change (-1 <? -1)%Z with false. cbn [orb].
  destruct (Z.ltb_spec (Z.of_nat c) (-1)); [lia|]. cbv iota.
  rewrite Z.mul_1_r.
  destruct (Z.eqb_spec (Z.of_nat c) 0); [lia|].
  rewrite <- Nat2Z.inj_mod, Hmod. cbn [Z.of_nat Z.eqb negb].
  cbn [fmap list_fmap]. change (-1 =? -1)%Z with true. cbv iota.
  destruct (Z.eqb_spec (Z.of_nat c) (-1)); [lia|].
  rewrite <- Nat2Z.inj_div, !Nat2Z.id. reflexivity.
Qed.

Lemma windows_whole (l : nat) : (0 < l)%nat → MetaMore.windows l l = 1%nat.
Proof. intros H. unfold MetaMore.windows. rewrite Nat.sub_diag, Nat.Div0.div_0_l. reflexivity. Qed.

(** The positions of a matrix [[N; C]] in a tensor [[N; C; 1]] or
    [[N; C; 1; 1]] with the same elements. *)
Lemma unflat_pooled3 (N C n c : nat) :
  (c < C)%nat →
  Real.unflat_index [N; C; 1%nat] (Real.flat_index [N; C] [n; c]) = [n; c; 0%nat].
Proof.
  intros Hc. cbn [Real.unflat_index Real.flat_index Meta.numel foldr].
  rewrite !Nat.mul_1_r, !Nat.add_0_r, !Nat.div_1_r, !Nat.mod_1_r.
  rewrite Nat.div_add_l by lia. rewrite (Nat.div_small c C) by exact Hc.
  rewrite Nat.add_0_r.
  rewrite Nat.add_comm, Nat.Div0.mod_add, Nat.mod_small by exact Hc.
  reflexivity.
Qed.

Lemma unflat_pooled4 (N C n c : nat) :
  (c < C)%nat →
  Real.unflat_index [N; C; 1%nat; 1%nat] (Real.flat_index [N; C] [n; c])
  = [n; c; 0%nat; 0%nat].
Proof.
  intros Hc. cbn [Real.unflat_index Real.flat_index Meta.numel foldr].
  rewrite !Nat.mul_1_r, !Nat.add_0_r, !Nat.div_1_r, !Nat.mod_1_r.
  rewrite Nat.div_add_l by lia. rewrite (Nat.div_small c C) by exact Hc.
  rewrite Nat.add_0_r.
  rewrite Nat.add_comm, Nat.Div0.mod_add, Nat.mod_small by exact Hc.
  reflexivity.
Qed.

(** [rmaxn] is the greatest of its arguments. *)
Lemma rmax_upto_upper (k : nat) (f : nat → R) (l : nat) :
  (l <= k)%nat → f l <= Real.rmax_upto k f.
Proof.
  induction k as [|k IH]; intros Hl; cbn [Real.rmax_upto].
  - replace l with 0%nat by lia. lra.
  - destruct (Nat.eq_dec l (S k)) as [->|Hne]; [apply Rmax_r|].
    eapply Rle_trans; [apply IH; lia | apply Rmax_l].
Qed.

Lemma rmax_upto_attained (k : nat) (f : nat → R) :
  ∃ l, (l <= k)%nat ∧ Real.rmax_upto k f = f l.
Proof.
  induction k as [|k (l & Hl & IH)]; cbn [Real.rmax_upto]; [exists 0%nat; auto|].
  destruct (Rle_dec (Real.rmax_upto k f) (f (S k))) as [Hle|Hgt].
  - exists (S k). split; [lia|]. apply Rmax_right. exact Hle.
  - exists l. split; [lia|]. rewrite Rmax_left by lra. exact IH.
Qed.

Section Layers.
Existing Instance RealMore.pool.





End Layers.

End PoolingFacts.

(** ** The bidirectional LSTM and the matching network *)

Module RecurrentFacts.
Import MetaFacts.

Section Shapes.
Existing Instance MetaMore.recurrent.

Lemma direction_ok_init (i hd : nat) :
  MetaMore.direction_ok i hd (LSTM.direction_init (T:=Meta.torch) i hd tt).1 = true.
Proof.
  unfold MetaMore.direction_ok, LSTM.direction_init. cbn [init_uniform Meta.torch fst].
  rewrite !shape_eqb_refl. reflexivity.
Qed.

Lemma weights_init_ok (size layers layer : nat) :
  MetaMore.weights_ok (LSTM.layer_input_size size size true layer) size 2 layers
    (LSTM.weights_init (T:=Meta.torch) size size true layers layer tt).1 = true.
Proof.
  revert layer. induction layers as [|layers IH]; intros layer; [reflexivity|].
  cbn [LSTM.weights_init].
  destruct (LSTM.weights_init (T:=Meta.torch) size size true layers (S layer) tt)
    as [rest []] eqn:E.
  cbn [LSTM.num_directions seq foldl app fst MetaMore.weights_ok take drop forallb length
       Nat.eqb andb LSTM.direction_init init_uniform Meta.torch].
  rewrite E.
  cbn [app take drop forallb length Nat.eqb andb fst MetaMore.direction_ok].
  rewrite !shape_eqb_refl. cbn [andb].
  specialize (IH (S layer)). rewrite E in IH. exact IH.
Qed.

(** The recurrent network of [BidrectionalLSTM(size, layers)] on a sequence
    of [L] batches of [B] vectors. *)
Lemma lstm_init_shape (size layers L B d : nat) :
  (0 < layers)%nat → (0 < L)%nat →
  LSTM.forward (BidrectionalLSTM.lstm (BidrectionalLSTM.init (T:=Meta.torch) size layers tt).1)
    [L; B; d]
  = if d =? size
    then Ok ([L; B; 2 * size], ([layers * 2; B; size], [layers * 2; B; size]))
    else Raise (TorchError "lstm: input.size(-1) must be equal to input_size").
Proof.
  intros Hl HL. unfold BidrectionalLSTM.init, LSTM.init, LSTM.forward.
  pose proof (weights_init_ok size layers 0) as Hw.
  destruct (LSTM.weights_init (T:=Meta.torch) size size true layers 0 tt) as [ws []].
  cbn [fst] in Hw.
  cbn [fst BidrectionalLSTM.lstm LSTM.input_size LSTM.hidden_size LSTM.flat_weights
       LSTM.num_layers LSTM.bidirectional VF_lstm MetaMore.recurrent].
  unfold MetaMore.lstm.
  destruct (Nat.eqb_spec d size) as [->|Hne]; [|reflexivity]. cbn [negb].
  destruct (Nat.eqb_spec layers 0); [lia|].
  change (LSTM.layer_input_size size size true 0) with size in Hw. rewrite Hw.
  cbn [negb]. destruct (Nat.eqb_spec L 0); [lia|]. reflexivity.
Qed.

Lemma lstm_init_rank (size layers : nat) (x : list nat) :
  length x ≠ 3 →
  ∃ e, LSTM.forward
         (BidrectionalLSTM.lstm (BidrectionalLSTM.init (T:=Meta.torch) size layers tt).1) x
       = Raise e.
Proof.
  intros Hlen. unfold LSTM.forward. cbn [VF_lstm MetaMore.recurrent].
  unfold MetaMore.lstm.
  destruct x as [|a [|b [|c [|d s]]]]; cbn [length] in Hlen; try lia;
    eexists; reflexivity.
Qed.

Lemma init_hidden_size (size layers : nat) :
  LSTM.hidden_size
    (BidrectionalLSTM.lstm (BidrectionalLSTM.init (T:=Meta.torch) size layers tt).1) = size.
Proof.
  unfold BidrectionalLSTM.init, LSTM.init.
  destruct (LSTM.weights_init (T:=Meta.torch) size size true layers 0 tt) as [ws []].
  reflexivity.
Qed.

(** The two halves of the last dimension. *)
Lemma halves (L B size : nat) :
  MetaMore.getitem_last3 [L; B; 2 * size] None (Some (Z.of_nat size)) = Ok [L; B; size] ∧
  MetaMore.getitem_last3 [L; B; 2 * size] (Some (Z.of_nat size)) None = Ok [L; B; size].
Proof.
  unfold MetaMore.getitem_last3, MetaMore.slice_bound.
  destruct (Z.ltb_spec (Z.of_nat size) 0); [lia|].
  split; do 4 f_equal; lia.
Qed.





End Shapes.
End RecurrentFacts.

(** ** Flatten *)

Module FlattenFacts.
Import MetaFacts.
Local Open Scope R_scope.

(** Row-major positions: an index within a shape has a position below the
    number of elements, and is the index of its position. *)
Lemma flat_index_lt (s idx : list nat) :
  Forall2 lt idx s → (Real.flat_index s idx < Meta.numel s)%nat.
Proof.
  intros H. induction H as [|i d idx s Hid H IH]; cbn [Real.flat_index Meta.numel foldr].
  - lia.
  - change (foldr Nat.mul 1%nat s) with (Meta.numel s). nia.
Qed.

Lemma unflat_flat (s idx : list nat) :
  Forall2 lt idx s → Real.unflat_index s (Real.flat_index s idx) = idx.
Proof.
  intros H. induction H as [|i d idx s Hid H IH]; [reflexivity|].
  cbn [Real.flat_index Real.unflat_index].
  pose proof (flat_index_lt s idx H) as Hlt.
  rewrite Nat.div_add_l by lia. rewrite (Nat.div_small _ _ Hlt), Nat.add_0_r.
  rewrite Nat.add_comm, Nat.Div0.mod_add, (Nat.mod_small _ _ Hlt), IH. reflexivity.
Qed.



End FlattenFacts.

(** ** AttentionLSTM: how far the queries are moved *)

Module AttentionRange.
Import RealFacts AttentionFacts CodeValues.
Local Open Scope R_scope.

Lemma sigmoid_range (z : R) : 0 < Real.sigmoid z < 1.
Proof.
  unfold Real.sigmoid. pose proof (exp_pos (- z)) as He.
  assert (Hinv : 0 < / (1 + exp (- z))) by (apply Rinv_0_lt_compat; lra).
  assert (Hone : (1 + exp (- z)) * / (1 + exp (- z)) = 1) by (apply Rinv_r; lra).
  unfold Rdiv. rewrite Rmult_1_l. nra.
Qed.

(** The hidden state that leaves an LSTM cell: an output gate times the
    hyperbolic tangent of the cell state. *)
Lemma lstm_h_range (x : Real.rtensor) (hx : Real.rtensor * Real.rtensor)
  (w_ih w_hh b_ih b_hh : Real.rtensor) (i j : nat) :
  -1 < Real.lstm_h x hx w_ih w_hh b_ih b_hh [i; j] < 1.
Proof.
  unfold Real.lstm_h.
  match goal with
  | |- _ < Real.sigmoid ?z * tanh ?c < _ =>
    pose proof (sigmoid_range z); pose proof (tanh_range c)
  end.
  nra.
Qed.

Lemma unroll_range (n b d : nat) (cell : nn.LSTMCell (T:=Real.torch))
  (support queries : nat → nat → R) (steps : nat)
  (state : (nat → nat → R) * (nat → nat → R)) :
  (∀ i j, -1 < state.1 i j < 1) →
  ∀ i j, -1 < (AttentionSpec.unroll n d support queries (cell_update cell b d)
                 steps state).1 i j < 1.
Proof.
  revert state. induction steps as [|steps IH]; intros state Hstate; [exact Hstate|].
  cbn [AttentionSpec.unroll]. apply IH. intros i j.
  unfold AttentionSpec.step, cell_update, entries. cbn [fst Real.rval].
  apply lstm_h_range.
Qed.



End AttentionRange.
